(** * tuft: repository construction and versioning engine

    A shallow embedding of [tuft/RepoBuilder.py]: the role registry, the
    file naming and discovery scheme ([OurRoleLayout]), the role record
    ([OurRole]), the key manager, the persister, the reconciliation
    strategy ([RolesStrategy.loadOrCreateRoles]), the seed ([RepoSeed])
    and the publish cascade of [RepoBuilder]; and of [Repo.getListPath] of
    [tuft/Repo.py].

    Conventions of the embedding.
    - Python exceptions are values of [PyError]; a function that can raise
      returns a [result].
    - Python [dict]s that the code iterates over are insertion-ordered
      association lists ([PyDict]); the repository directory and the key
      manager, which are only looked up and updated by key, are [gmap]s.
    - Python [int] is [Z]; [str] is [string].
    - The collaborators that the code only calls (the serializer together
      with [Metadata.to_dict]/[from_dict], the signer, SHA-256) are
      variables of the section [Engine]; the reading of the clock is the
      argument [now] of the functions that create a role. *)

From Stdlib Require Import ZArith List Ascii String Decimal DecimalString DecimalPos
  DecimalZ Lia Bool.
From stdpp Require Import base option list strings gmap.

Open Scope Z_scope.
Open Scope string_scope.

(** ** Python primitives *)

(** [str(n)] for an [int].  Integers are unbounded; the limit CPython puts
    on the number of digits it converts is not modelled. *)
Definition py_str_int (z : Z) : string := NilZero.string_of_int (Z.to_int z).

(** A value given where the source accepts [int] or [str] and calls [str()]
    on it ([getConsistentFileName] is called with the role version and with
    the regular-expression fragment ["(\d+)"]). *)
Inductive pyval :=
| VInt (z : Z)
| VStr (s : string).

Definition py_str (v : pyval) : string :=
  match v with
  | VInt z => py_str_int z
  | VStr s => s
  end.

(** [int(s)] at its only call site, where [s] is a [\d+] capture: a non-empty
    string of decimal digits is read in base ten, leading zeros allowed;
    [None] stands for [ValueError]. *)
Definition py_int (s : string) : option Z :=
  option_map Z.of_uint (NilZero.uint_of_string s).

(** [s.replace(old, new)] for a one-character [old]. *)
Fixpoint str_replace (old : ascii) (new : string) (s : string) : string :=
  match s with
  | EmptyString => EmptyString
  | String c s' =>
    if Ascii.eqb c old then new +:+ str_replace old new s'
    else String c (str_replace old new s')
  end.

(** ** Exceptions *)

Inductive PyError :=
| FileNotFoundError (what : string)
| VersionWithinFileMismatch (roleName : string) (expected found : Z)
| NotUniqueMetadataFile (roleName : string) (candidates : list (option Z * string))
| FileNameVersionMismatch (fileName : string) (fromFileName fromMetadata : Z)
| NotAllRolesLoaded (missing : list string)
| VersionDecrease (current requested : Z)
| RoleUnsigned (roleName : string)
| KeyError (key : string)
| AttributeError (attribute : string)
| TypeError
| IncorrectData
| AssertionError
| IndexError
| ReNotModelled (pattern : string).

Inductive result (A : Type) :=
| Ok (a : A)
| Err (e : PyError).
Arguments Ok {A} a.
Arguments Err {A} e.

Instance result_ret : MRet result := fun _ a => Ok a.
Instance result_bind : MBind result := fun _ _ f r =>
  match r with
  | Ok a => f a
  | Err e => Err e
  end.

(** The state of an object after a call that may raise.  Every function
    embedded here raises before it assigns, so an exception leaves the
    object as it was. *)
Definition after {A} (old : A) (r : result A) : A :=
  match r with
  | Ok a => a
  | Err _ => old
  end.

(** ** Insertion-ordered dictionaries with [str] keys *)

Module PyDict.
Definition t (V : Type) := list (string * V).

Fixpoint get {V} (k : string) (d : t V) : option V :=
  match d with
  | [] => None
  | (k', v) :: d' => if String.eqb k k' then Some v else get k d'
  end.

(** [d[k] = v]: an existing key keeps its place, a new one goes last. *)
Fixpoint set {V} (k : string) (v : V) (d : t V) : t V :=
  match d with
  | [] => [(k, v)]
  | (k', v') :: d' =>
    if String.eqb k k' then (k', v) :: d' else (k', v') :: set k v d'
  end.

Definition keys {V} (d : t V) : list string := map fst d.
Definition values {V} (d : t V) : list V := map snd d.
Definition contains {V} (k : string) (d : t V) : bool :=
  match get k d with Some _ => true | None => false end.

(** [d.update(other)] *)
Definition update {V} (d other : t V) : t V :=
  fold_left (fun acc kv => set (fst kv) (snd kv) acc) other d.
End PyDict.

(** ** Regular expressions: the fragment of [re] that discovery can build

    The pattern of [discoverConsistentVersionsFromFileNames] is the text
    ["(\d+)." + roleName + "." + ext] with every ["."] escaped.  The fragment
    modelled here covers that text for every role name and extension made
    of literal characters, and the quantifiers [*], [+], [?] on single
    characters; a capturing group may hold such items and is neither nested
    nor quantified.  Every other pattern is [None]: it is either rejected by
    [re.compile] or outside the fragment. *)

Inductive atom :=
| AChar (c : ascii)
| ADigit
| AAny.

Inductive quant := QOne | QOpt | QStar | QPlus.

Inductive item :=
| IAtom (a : atom) (q : quant)
| IGroup (body : list (atom * quant)).

Inductive token :=
| TAtom (a : atom)
| TQuant (q : quant)
| TOpen
| TClose
| TBad.

Definition is_digit (c : ascii) : bool :=
  match c with
  | "0" | "1" | "2" | "3" | "4" | "5" | "6" | "7" | "8" | "9" => true
  | _ => false
  end%char.

Definition is_alnum (c : ascii) : bool :=
  let n := nat_of_ascii c in
  ((48 <=? n) && (n <=? 57) || (65 <=? n) && (n <=? 90)
   || (97 <=? n) && (n <=? 122) || (128 <=? n))%nat.

(** A character that stands for itself in a pattern. *)
Definition is_literal (c : ascii) : bool :=
  negb (existsb (Ascii.eqb c)
          ["\"; "^"; "$"; "."; "|"; "?"; "*"; "+"; "("; ")"; "["; "]"; "{"; "}"]%char).

Definition token_of_char (c : ascii) : token :=
  if Ascii.eqb c "." then TAtom AAny
  else if Ascii.eqb c "*" then TQuant QStar
  else if Ascii.eqb c "+" then TQuant QPlus
  else if Ascii.eqb c "?" then TQuant QOpt
  else if Ascii.eqb c "(" then TOpen
  else if Ascii.eqb c ")" then TClose
  else if is_literal c then TAtom (AChar c)
  else TBad.

Definition token_of_escape (c : ascii) : token :=
  if Ascii.eqb c "d" then TAtom ADigit
  else if is_alnum c then TBad
  else TAtom (AChar c).

Fixpoint tokenize (s : string) : list token :=
  match s with
  | EmptyString => []
  | String c s' =>
    if Ascii.eqb c "\" then
      match s' with
      | EmptyString => [TBad]
      | String e s'' => token_of_escape e :: tokenize s''
      end
    else token_of_char c :: tokenize s'
  end.

Definition starts_with_quant (ts : list token) : bool :=
  match ts with
  | TQuant _ :: _ => true
  | _ => false
  end.

(** [parse ts inGroup] returns the items of the group that is open at [ts]
    (empty at top level) and the items that follow it. *)
Fixpoint parse (ts : list token) (inGroup : bool)
  : option (list (atom * quant) * list item) :=
  let push a q r :=
    match r with
    | Some (g, rest) =>
      if inGroup then Some ((a, q) :: g, rest) else Some (g, IAtom a q :: rest)
    | None => None
    end in
  match ts with
  | [] => if inGroup then None else Some ([], [])
  | TAtom a :: ts' =>
    match ts' with
    | TQuant q :: ts'' =>
      if starts_with_quant ts'' then None else push a q (parse ts'' inGroup)
    | _ => push a QOne (parse ts' inGroup)
    end
  | TOpen :: ts' =>
    if inGroup then None
    else match parse ts' true with
         | Some (g, rest) => Some ([], IGroup g :: rest)
         | None => None
         end
  | TClose :: ts' =>
    if inGroup then
      if starts_with_quant ts' then None
      else match parse ts' false with
           | Some (_, rest) => Some ([], rest)
           | None => None
           end
    else None
  | TQuant _ :: _ => None
  | TBad :: _ => None
  end.

(** [re.compile(pattern)] *)
Definition re_compile (pattern : string) : option (list item) :=
  option_map snd (parse (tokenize pattern) false).

Definition atom_matches (a : atom) (c : ascii) : bool :=
  match a with
  | AChar x => Ascii.eqb x c
  | ADigit => is_digit c
  | AAny => negb (Ascii.eqb c "010")
  end.

(** Greedy repetition of one atom: the longest run first, then shorter ones,
    until the continuation [k] accepts the rest. *)
Fixpoint greedy {A} (a : atom) (k : string -> option A) (s : string) : option A :=
  match s with
  | String c s' =>
    if atom_matches a c then
      match greedy a k s' with
      | Some r => Some r
      | None => k s
      end
    else k s
  | EmptyString => k s
  end.

Definition match_one {A} (a : atom) (k : string -> option A) (s : string) : option A :=
  match s with
  | String c s' => if atom_matches a c then k s' else None
  | EmptyString => None
  end.

Fixpoint match_flat {A} (p : list (atom * quant)) (s : string)
    (k : string -> option A) : option A :=
  match p with
  | [] => k s
  | (a, q) :: p' =>
    let k' := fun r => match_flat p' r k in
    match q with
    | QOne => match_one a k' s
    | QOpt => match match_one a k' s with
              | Some r => Some r
              | None => k' s
              end
    | QStar => greedy a k' s
    | QPlus => match_one a (greedy a k') s
    end
  end.

(** The text of [s] in front of its suffix [rest]. *)
Fixpoint str_take (n : nat) (s : string) : string :=
  match n, s with
  | S n', String c s' => String c (str_take n' s')
  | _, _ => EmptyString
  end.

Definition consumed (s rest : string) : string :=
  str_take (String.length s - String.length rest) s.

Fixpoint match_items (p : list item) (s : string) (groups : list string)
  : option (list string) :=
  match p with
  | [] => Some (rev groups)
  | IAtom a q :: p' => match_flat [(a, q)] s (fun r => match_items p' r groups)
  | IGroup body :: p' =>
    match_flat body s (fun r => match_items p' r (consumed s r :: groups))
  end.

(** [compiled.match(s)]: a match anchored at the start of [s], not at its
    end; the result lists the captured groups, [m.group(1)] first. *)
Definition re_match (p : list item) (s : string) : option (list string) :=
  match_items p s [].

(** Texts whose characters stand for themselves once ["."] is escaped. *)
Definition all_chars (P : ascii -> bool) (s : string) : bool :=
  forallb P (list_ascii_of_string s).

Definition name_char_ok (c : ascii) : bool := is_literal c || Ascii.eqb c ".".

Definition literal_text (s : string) : bool := all_chars name_char_ok s.

Definition lit_tokens (s : string) : list token :=
  map (fun c => TAtom (AChar c)) (list_ascii_of_string s).

Definition lit_items (s : string) : list item :=
  map (fun c => IAtom (AChar c) QOne) (list_ascii_of_string s).

(** ** The metadata payloads of python-tuf that the engine reads and writes *)

Record MetaFile := { mf_version : Z }.

Record TargetFile := {
  tf_length : Z;
  tf_hashes : PyDict.t string;
  tf_path : string
}.

(** The role-kind-specific part of a [Signed] object.  The key and role
    tables of a [Root] are not read by the functions embedded here. *)
Inductive SignedFields :=
| RootFields (consistent_snapshot : bool)
| TargetsFields (targets : PyDict.t TargetFile)
| SnapshotFields (meta : PyDict.t MetaFile)
| TimestampFields (snapshot_meta : MetaFile).

Record Signed := {
  signed_version : Z;
  expires : Z;
  fields : SignedFields
}.

Record Key := { keyid : string; keyval : string }.

Record Signature := { sig_keyid : string; sig : string }.

Record Metadata := {
  signed : Signed;
  signatures : list Signature
}.

Definition with_signed_version (v : Z) (m : Metadata) : Metadata :=
  {| signed := {| signed_version := v;
                  expires := expires (signed m);
                  fields := fields (signed m) |};
     signatures := signatures m |}.

Definition with_fields (f : SignedFields) (m : Metadata) : Metadata :=
  {| signed := {| signed_version := signed_version (signed m);
                  expires := expires (signed m);
                  fields := f |};
     signatures := signatures m |}.

(** Attribute reads on [role.signed]; a payload of another kind has no such
    attribute. *)
Definition get_meta (m : Metadata) : result (PyDict.t MetaFile) :=
  match fields (signed m) with
  | SnapshotFields meta => Ok meta
  | _ => Err (AttributeError "meta")
  end.

Definition get_snapshot_meta (m : Metadata) : result MetaFile :=
  match fields (signed m) with
  | TimestampFields r => Ok r
  | _ => Err (AttributeError "snapshot_meta")
  end.

Definition get_targets (m : Metadata) : result (PyDict.t TargetFile) :=
  match fields (signed m) with
  | TargetsFields t => Ok t
  | _ => Err (AttributeError "targets")
  end.

Definition get_consistent_snapshot (m : Metadata) : result bool :=
  match fields (signed m) with
  | RootFields c => Ok c
  | _ => Err (AttributeError "consistent_snapshot")
  end.

(** ** Role Type Registry *)

Inductive RoleKind := Root | Targets | Snapshot | Timestamp.

#[warnings="-register-all"]
Inductive RoleFactory := mkRoleFactory {
  name : string;
  ctor : RoleKind;
  defaultExpire : Z;
  deps : list RoleFactory;
  hasVersion : bool
}.

Definition rootRoleFac := mkRoleFactory "root" Root (365 * 24 * 3600) [] false.
Definition targetsRoleFac := mkRoleFactory "targets" Targets (7 * 24 * 3600) [rootRoleFac] true.
Definition snapshotRoleFac := mkRoleFactory "snapshot" Snapshot (7 * 24 * 3600) [targetsRoleFac] true.
Definition timestampRoleFac := mkRoleFactory "timestamp" Timestamp (7 * 24 * 3600) [snapshotRoleFac] false.

(** [RolesModel(roleCtors)]: [{el.name: el for el in roleCtors}] *)
Definition RolesModel (roleCtors : list RoleFactory) : PyDict.t RoleFactory :=
  fold_left (fun d el => PyDict.set (name el) el d) roleCtors [].

Definition ROLES_MODEL : PyDict.t RoleFactory :=
  RolesModel [targetsRoleFac; snapshotRoleFac; timestampRoleFac].

Definition ROOT_ROLE_FAC := rootRoleFac.

(** ** File Naming Scheme: [OurRoleLayout] *)

Definition str_contains (c : ascii) (s : string) : bool :=
  existsb (Ascii.eqb c) (list_ascii_of_string s).

(** [sorted(versions, key=lambda x: x[0])]: a stable sort. *)
Fixpoint insert_by_version (x : Z * string) (l : list (Z * string)) : list (Z * string) :=
  match l with
  | [] => [x]
  | y :: l' => if Z.ltb (fst x) (fst y) then x :: l else y :: insert_by_version x l'
  end.

Definition sorted_by_version (l : list (Z * string)) : list (Z * string) :=
  fold_left (fun acc x => insert_by_version x acc) l [].

Module OurRoleLayout.

Definition getConsistentFileName (ext roleName : string) (version : pyval) : string :=
  py_str version +:+ "." +:+ roleName +:+ "." +:+ ext.

Definition getSimpleFileName (ext roleName : string) : string :=
  roleName +:+ "." +:+ ext.

Definition getFileName (ext : string) (roleFactory : RoleFactory)
    (roleVersion : Z) (isConsistent : bool) : string :=
  if isConsistent
  then getConsistentFileName ext (name roleFactory) (VStr (py_str (VInt roleVersion)))
  else getSimpleFileName ext (name roleFactory).

Definition discoverSipleVersionsFromFileNames (ext : string)
    (roleFactory : RoleFactory) (fileNames : list string)
  : list (option Z * string) :=
  let simpleFileName := getSimpleFileName ext (name roleFactory) in
  if existsb (String.eqb simpleFileName) fileNames
  then [(None, simpleFileName)]
  else [].

(** The pattern compiled by [discoverConsistentVersionsFromFileNames]. *)
Definition roleGlobFnRegExp (ext : string) (roleFactory : RoleFactory) : string :=
  str_replace "." "\."
    (getConsistentFileName ext (name roleFactory) (VStr "(\d+)")).

(** One turn of the loop over the file names: the pair to append, if any.
    The pattern starts with its only numbered group, so [m.group(1)] is the
    first capture. *)
Definition versionOfFileName (re : list item) (fn : string) : option (Z * string) :=
  match re_match re fn with
  | Some groups =>
    match py_int (hd "" groups) with
    | Some version => Some (version, fn)
    | None => None
    end
  | None => None
  end.

Definition discoverConsistentVersionsFromFileNames (ext : string)
    (roleFactory : RoleFactory) (fileNames : list string)
  : result (list (Z * string)) :=
  if str_contains "*" (name roleFactory) then Err AssertionError
  else
    let pattern := roleGlobFnRegExp ext roleFactory in
    match re_compile pattern with
    | None => Err (ReNotModelled pattern)
    | Some re =>
      let versions :=
        sorted_by_version (omap (versionOfFileName re) fileNames) in
      match versions with
      | [] => Err (FileNotFoundError pattern)
      | _ => Ok versions
      end
    end.

Definition discoverVersionsFromFileNames (ext : string)
    (roleFactory : RoleFactory) (fileNames : list string) (isConsistent : bool)
  : result (list (option Z * string)) :=
  if str_contains "*" (name roleFactory) then Err AssertionError
  else if isConsistent then
    versions ← discoverConsistentVersionsFromFileNames ext roleFactory fileNames;
    mret (map (fun x => (Some (fst x), snd x)) versions)
  else Ok (discoverSipleVersionsFromFileNames ext roleFactory fileNames).

(** [repoRoot.iterdir()]: the names of the files of the directory, in the
    arbitrary order the file system lists them. *)
Definition discoverFilesInRepoRoot {D} (repoRoot : gmap string D) : list string :=
  map fst (map_to_list repoRoot).

(** The second component is the file name under [repoRoot]. *)
Definition discoverSimple (ext : string) (roleFactory : RoleFactory)
  : option Z * string :=
  (None, getSimpleFileName ext (name roleFactory)).

Definition discoverConsistent {D} (ext : string) (roleFactory : RoleFactory)
    (repoRoot : gmap string D) : result (option Z * string) :=
  versions ← discoverConsistentVersionsFromFileNames ext roleFactory
               (discoverFilesInRepoRoot repoRoot);
  match last versions with
  | Some (version, fileName) => Ok (Some version, fileName)
  | None => Err IndexError
  end.

Definition discoverBlindFromRepo {D} (ext : string) (roleFactory : RoleFactory)
    (repoRoot : gmap string D) (isConsistent : bool) : result (option Z * string) :=
  if str_contains "*" (name roleFactory) then Err AssertionError
  else if isConsistent then discoverConsistent ext roleFactory repoRoot
  else Ok (discoverSimple ext roleFactory).

End OurRoleLayout.

(** The text that follows the version in a consistent file name. *)
Definition name_tail (ext roleName : string) : string :=
  "." +:+ roleName +:+ "." +:+ ext.


(** ** Role Record: [OurRole] *)

Record OurRole := {
  fac : RoleFactory;
  role : Metadata;
  _needsSigning : bool;
  _needsSaving : bool
}.

(** [OurRole(fac, role)] *)
Definition OurRole_init (fac : RoleFactory) (role : Metadata) : OurRole :=
  {| fac := fac; role := role; _needsSigning := false; _needsSaving := false |}.

Definition OurRole_name (self : OurRole) : string := name (fac self).

Definition needsSigning (self : OurRole) : bool := _needsSigning self.

Definition set_needsSigning (v : bool) (self : OurRole) : OurRole :=
  if negb (Bool.eqb (_needsSigning self) v)
  then {| fac := fac self; role := role self;
          _needsSigning := v; _needsSaving := true |}
  else self.

Definition needsSaving (self : OurRole) : bool := _needsSaving self.

Definition set_needsSaving (v : bool) (self : OurRole) : OurRole :=
  {| fac := fac self; role := role self;
     _needsSigning := _needsSigning self; _needsSaving := v |}.

(** The property [_version]: [role.signed.version]. *)
Definition _version (self : OurRole) : Z := signed_version (signed (role self)).

Definition set__version (v : Z) (self : OurRole) : OurRole :=
  set_needsSigning true
    {| fac := fac self; role := with_signed_version v (role self);
       _needsSigning := _needsSigning self; _needsSaving := _needsSaving self |}.

Definition version (self : OurRole) : Z := _version self.

Definition set_version (v : Z) (self : OurRole) : result OurRole :=
  if Z.ltb v (version self) then Err (VersionDecrease (version self) v)
  else if negb (Z.eqb v (version self)) then Ok (set__version v self)
  else Ok self.

Definition bumpVersion (self : OurRole) : OurRole :=
  set__version (version self + 1) self.

Definition with_role (m : Metadata) (self : OurRole) : OurRole :=
  {| fac := fac self; role := m;
     _needsSigning := _needsSigning self; _needsSaving := _needsSaving self |}.

(** [jsonFancySerializer.fileExtension] *)
Definition fileExtension : string := "json".

(** [sorted(names)] for strings. *)
Fixpoint insert_string (x : string) (l : list string) : list string :=
  match l with
  | [] => [x]
  | y :: l' => if String.ltb x y then x :: l else y :: insert_string x l'
  end.

Definition sorted_strings (l : list string) : list string :=
  fold_left (fun acc x => insert_string x acc) l [].

Definition getitem {V} (k : string) (d : PyDict.t V) : result V :=
  match PyDict.get k d with
  | Some v => Ok v
  | None => Err (KeyError k)
  end.

(** ** The engine over its collaborators *)

Section Engine.

(** What a file holds. *)
Variable FileData : Type.
(** [serializer.unprocess(role.role.to_dict())], as [write_text] stores it. *)
Variable unprocess : Metadata -> FileData.
(** [deserializeData] followed by [Metadata.from_dict]: the decoded
    metadata, or whatever exception the decoding raises. *)
Variable process : FileData -> result Metadata.
(** [len(data)] and the SHA-256 hex digest of [TargetFile.from_data]. *)
Variable data_length : FileData -> Z.
Variable sha256 : FileData -> string.
(** [SSlibSigner(key).sign(payload)] *)
Variable create_signature : Key -> Signed -> string.
(** The fields python-tuf gives to a [Timestamp] and to a [Snapshot] that
    are constructed without them. *)
Variable tuf_default_snapshot_meta : MetaFile.
Variable tuf_default_meta : PyDict.t MetaFile.

Local Abbreviation Dir := (gmap string FileData).

(** [Metadata.sign(signer)]: the signatures are replaced by the new one. *)
Definition Metadata_sign (key : Key) (m : Metadata) : Metadata :=
  {| signed := signed m;
     signatures := [ {| sig_keyid := keyid key;
                        sig := create_signature key (signed m) |} ] |}.

(** [OurRole.sign] *)
Definition OurRole_sign (key : Key) (self : OurRole) : OurRole * bool :=
  if needsSigning self then
    let self := bumpVersion self in
    let self := with_role (Metadata_sign key (role self)) self in
    let self := set_needsSigning false self in
    let self := set_needsSaving true self in
    (self, true)
  else (self, false).

(** *** [RoleFactory] *)

(** [self.ctor(expires=...)]: python-tuf starts a payload at version 1 and a
    [Targets] with no target file. *)
Definition tuf_new (k : RoleKind) (expires : Z) (consistent : bool) : Signed :=
  {| signed_version := 1;
     expires := expires;
     fields := match k with
               | Root => RootFields consistent
               | Targets => TargetsFields []
               | Snapshot => SnapshotFields tuf_default_meta
               | Timestamp => TimestampFields tuf_default_snapshot_meta
               end |}.

(** [_in(seconds)] at clock reading [now] *)
Definition _in (now seconds : Z) : Z := now + seconds.

(** [RoleFactory.createEmpty]; [consistent] is the keyword argument that
    [createEmptyRoot] passes, python-tuf's default [True] elsewhere. *)
Definition RoleFactory_createEmpty (self : RoleFactory) (now : Z)
    (consistent : bool) : OurRole :=
  let res := OurRole_init self
    {| signed := tuf_new (ctor self) (_in now (defaultExpire self)) consistent;
       signatures := [] |} in
  set__version 0 res.

(** [OurRole.createEmpty(roleFactory)], without keyword arguments. *)
Definition createEmpty (roleFactory : RoleFactory) (now : Z) : OurRole :=
  RoleFactory_createEmpty roleFactory now true.

Definition RoleFactory_fromDict (self : RoleFactory) (m : Metadata) : OurRole :=
  OurRole_init self m.

(** *** [KeyManager] *)

Definition KeyManager_sign (keys : gmap string Key) (oR : OurRole)
  : result (OurRole * bool) :=
  match keys !! OurRole_name oR with
  | Some key => Ok (OurRole_sign key oR)
  | None => Err (KeyError (OurRole_name oR))
  end.

(** *** [RolePersister] *)

Definition RolePersister_getFileName (roleFactory : RoleFactory)
    (roleVersion : Z) (isConsistent : bool) : string :=
  OurRoleLayout.getFileName fileExtension roleFactory roleVersion isConsistent.

Definition RolePersister__save (repoRoot : Dir) (isConsistent : bool)
    (role_ : OurRole) : Dir :=
  <[ RolePersister_getFileName (fac role_) (version role_) isConsistent
     := unprocess (role role_) ]> repoRoot.

Definition RolePersister_save (repoRoot : Dir) (isConsistent : bool)
    (role_ : OurRole) : result (Dir * OurRole) :=
  if needsSaving role_ then
    if needsSigning role_ then Err (RoleUnsigned (OurRole_name role_))
    else Ok (RolePersister__save repoRoot isConsistent role_,
             set_needsSaving false role_)
  else Ok (repoRoot, role_).

Definition RolePersister_discoverVersionsFromFileNames
    (roleFactory : RoleFactory) (fileNames : list string) (isConsistent : bool)
  : result (list (option Z * string)) :=
  OurRoleLayout.discoverVersionsFromFileNames fileExtension roleFactory
    fileNames isConsistent.

Definition RolePersister_loadFromData (roleFactory : RoleFactory)
    (data : FileData) (expectedVersion : option Z) : result OurRole :=
  m ← process data;
  let loaded := RoleFactory_fromDict roleFactory m in
  match expectedVersion with
  | Some e =>
    if negb (Z.eqb (version loaded) e)
    then Err (VersionWithinFileMismatch (name roleFactory) e (version loaded))
    else Ok loaded
  | None => Ok loaded
  end.

(** [path] is the file name under [repoRoot]; [read_bytes] of a missing
    file raises [FileNotFoundError]. *)
Definition RolePersister_loadFromFile (roleFactory : RoleFactory)
    (repoRoot : Dir) (path : string) (expectedVersion : option Z)
  : result OurRole :=
  match repoRoot !! path with
  | Some data => RolePersister_loadFromData roleFactory data expectedVersion
  | None => Err (FileNotFoundError path)
  end.

Definition RolePersister_loadFromRepo (roleFactory : RoleFactory)
    (repoRoot : Dir) (isConsistent : bool) (versionToLoad : option Z)
  : result OurRole :=
  match versionToLoad with
  | None =>
    '(fileNameVersion, filePath) ←
      OurRoleLayout.discoverBlindFromRepo fileExtension roleFactory repoRoot
        isConsistent;
    let versionToCheck := if isConsistent then fileNameVersion else None in
    RolePersister_loadFromFile roleFactory repoRoot filePath versionToCheck
  | Some v =>
    let filePath := RolePersister_getFileName roleFactory v isConsistent in
    RolePersister_loadFromFile roleFactory repoRoot filePath (Some v)
  end.

Definition RolePersister_loadOrCreate (roleFactory : RoleFactory)
    (repoRoot : option Dir) (isConsistent : bool) (versionToLoad : option Z)
    (now : Z) : result (OurRole * bool) :=
  match repoRoot with
  | Some d =>
    match RolePersister_loadFromRepo roleFactory d isConsistent versionToLoad with
    | Ok r => Ok (r, true)
    | Err (FileNotFoundError _) => Ok (createEmpty roleFactory now, false)
    | Err e => Err e
    end
  | None => Ok (createEmpty roleFactory now, false)
  end.

(** *** [RolesStrategy] *)

Definition isRoleConsistent (roleFactory : RoleFactory) (isConsistent : bool) : bool :=
  isConsistent && hasVersion roleFactory.

Definition fileNameForRole (roleFactory : RoleFactory) (roleVersion : Z)
    (isConsistent : bool) : string :=
  RolePersister_getFileName roleFactory roleVersion
    (isRoleConsistent roleFactory isConsistent).

Definition RolesStrategy_loadOrCreate (roleFactory : RoleFactory)
    (repoRoot : option Dir) (isConsistent : bool) (versionToLoad : option Z)
    (now : Z) : result (OurRole * bool) :=
  RolePersister_loadOrCreate roleFactory repoRoot
    (isRoleConsistent roleFactory isConsistent) versionToLoad now.

Definition RolesStrategy_save (repoRoot : Dir) (isConsistent : bool)
    (role_ : OurRole) : result (Dir * OurRole) :=
  RolePersister_save repoRoot (isRoleConsistent (fac role_) isConsistent) role_.

Definition createEmptyRoot (consistent : bool) (now : Z) : OurRole :=
  RoleFactory_createEmpty ROOT_ROLE_FAC now consistent.

Definition RolesStrategy_loadFromFile (roleFactory : RoleFactory)
    (repoRoot : Dir) (path : string) (expectedVersion : option Z) : result OurRole :=
  RolePersister_loadFromFile roleFactory repoRoot path expectedVersion.

(** [rolesDict["snapshot"].role.signed.meta.clear()] *)
Definition clear_meta (snapshot : OurRole) : result OurRole :=
  _ ← get_meta (role snapshot);
  Ok (with_role (with_fields (SnapshotFields []) (role snapshot)) snapshot).

(** Lines 412-417 of [loadOrCreateRoles]: the Timestamp, then the Snapshot
    at the version the Timestamp refers to, both under their simple names. *)
Definition loadTimestampAndSnapshot (model : PyDict.t RoleFactory)
    (repoRoot : option Dir) (now : Z) : result (PyDict.t OurRole) :=
  timestampFac ← getitem "timestamp" model;
  '(timestamp, _isLoaded) ←
    RolesStrategy_loadOrCreate timestampFac repoRoot false None now;
  let rolesDict := PyDict.set "timestamp" timestamp [] in
  snapshotFac ← getitem "snapshot" model;
  snapshot_meta ← get_snapshot_meta (role timestamp);
  '(snapshot, isSnapshotLoaded) ←
    RolesStrategy_loadOrCreate snapshotFac repoRoot false
      (Some (mf_version snapshot_meta)) now;
  snapshot ← (if (isSnapshotLoaded : bool) then Ok snapshot else clear_meta snapshot);
  Ok (PyDict.set "snapshot" snapshot rolesDict).

(** The body of the loop over [sorted(rolesToLoad)] (lines 424-442); the
    state is [rolesDict] and [rolesToLoad]. *)
Definition loadRemainingRole (model : PyDict.t RoleFactory)
    (repoRoot : option Dir) (isConsistent : bool) (now : Z)
    (signedMetadataFiles : PyDict.t MetaFile)
    (st : PyDict.t OurRole * list string) (rn : string)
  : result (PyDict.t OurRole * list string) :=
  let '(rolesDict, rolesToLoad) := st in
  fac_ ← getitem rn model;
  versionsFromFileNames ←
    RolePersister_discoverVersionsFromFileNames fac_
      (PyDict.keys signedMetadataFiles) (isRoleConsistent fac_ isConsistent);
  loaded ←
    match versionsFromFileNames with
    | [] => Ok (createEmpty fac_ now)
    | [(expectedVersionFromFileName, fileName)] =>
      metaFile ← getitem fileName signedMetadataFiles;
      let expectedVersion := mf_version metaFile in
      match expectedVersionFromFileName with
      | Some v =>
        if negb (Z.eqb expectedVersion v)
        then Err (FileNameVersionMismatch fileName v expectedVersion)
        else Ok ()
      | None => Ok ()
      end;;
      match repoRoot with
      | Some d => RolesStrategy_loadFromFile fac_ d fileName (Some expectedVersion)
      | None => Err TypeError
      end
    | _ => Err (NotUniqueMetadataFile (name fac_) versionsFromFileNames)
    end;
  Ok (PyDict.set (name fac_) loaded rolesDict,
      List.filter (fun n => negb (String.eqb n (name fac_))) rolesToLoad).

Fixpoint forM {S X} (f : S -> X -> result S) (xs : list X) (st : S) : result S :=
  match xs with
  | [] => Ok st
  | x :: xs' => st' ← f st x; forM f xs' st'
  end.

(** [set(self.model) - set(rolesDict)] *)
Definition rolesStillToLoad (model : PyDict.t RoleFactory)
    (rolesDict : PyDict.t OurRole) : list string :=
  remove_dups
    (List.filter (fun n => negb (PyDict.contains n rolesDict)) (PyDict.keys model)).

Definition loadOrCreateRoles (model : PyDict.t RoleFactory)
    (repoRoot : option Dir) (isConsistent : bool) (now : Z)
  : result (PyDict.t OurRole) :=
  rolesDict ← loadTimestampAndSnapshot model repoRoot now;
  let rolesToLoad := rolesStillToLoad model rolesDict in
  snapshot ← getitem "snapshot" rolesDict;
  signedMetadataFiles ← get_meta (role snapshot);
  '(rolesDict, rolesToLoad) ←
    forM (loadRemainingRole model repoRoot isConsistent now signedMetadataFiles)
         (sorted_strings rolesToLoad) (rolesDict, rolesToLoad);
  match rolesToLoad with
  | [] => Ok rolesDict
  | _ => Err (NotAllRolesLoaded rolesToLoad)
  end.

(** *** [RepoSeed] *)

Record RepoSeed := {
  root : OurRole;
  seed_keys : gmap string Key
}.

Definition STRATEGY_model : PyDict.t RoleFactory := ROLES_MODEL.

Definition RepoSeed_isConsistent (self : RepoSeed) : result bool :=
  get_consistent_snapshot (role (root self)).

Definition RepoSeed_save (repoRoot : Dir) (self : RepoSeed) : result (Dir * RepoSeed) :=
  '(d, r) ← RolesStrategy_save repoRoot false (root self);
  Ok (d, {| root := r; seed_keys := seed_keys self |}).

(** *** [RepoBuilder] *)

Record RepoBuilder := {
  seed : RepoSeed;
  keys : gmap string Key;
  ourRoles : PyDict.t OurRole;
  userFiles : PyDict.t FileData
}.

Definition with_ourRoles (roles : PyDict.t OurRole) (self : RepoBuilder) : RepoBuilder :=
  {| seed := seed self; keys := keys self;
     ourRoles := roles; userFiles := userFiles self |}.

(** The record stored under [k] is replaced by its mutated state. *)
Definition put_role (k : string) (r : OurRole) (self : RepoBuilder) : RepoBuilder :=
  with_ourRoles (PyDict.set k r (ourRoles self)) self.

Definition RepoBuilder_load (self : RepoBuilder) (repoRoot : option Dir) (now : Z)
  : result RepoBuilder :=
  isConsistent ← RepoSeed_isConsistent (seed self);
  roles ← loadOrCreateRoles STRATEGY_model repoRoot isConsistent now;
  Ok (with_ourRoles (PyDict.update (ourRoles self) roles) self).

Definition RepoBuilder_init (seed_ : RepoSeed) (keys_ : gmap string Key)
    (repoRoot : option Dir) (now : Z) : result RepoBuilder :=
  RepoBuilder_load
    {| seed := seed_; keys := keys_; ourRoles := []; userFiles := [] |}
    repoRoot now.

(** [self.userFiles[path] = data] *)
Definition set_userFile (path : string) (data : FileData) (self : RepoBuilder)
  : RepoBuilder :=
  {| seed := seed self; keys := keys self; ourRoles := ourRoles self;
     userFiles := PyDict.set path data (userFiles self) |}.

Definition RepoBuilder_targets (self : RepoBuilder) : result OurRole :=
  getitem "targets" (ourRoles self).

Definition RepoBuilder_snapshot (self : RepoBuilder) : result OurRole :=
  getitem "snapshot" (ourRoles self).

Definition RepoBuilder_timestamp (self : RepoBuilder) : result OurRole :=
  getitem "timestamp" (ourRoles self).

Definition getPrefixForUserFile (self : RepoBuilder) (fn : string) : result string :=
  consistent ← get_consistent_snapshot (role (root (seed self)));
  if (consistent : bool) then
    targets ← RepoBuilder_targets self;
    files ← get_targets (role targets);
    targetFile ← getitem fn files;
    digest ← getitem "sha256" (tf_hashes targetFile);
    Ok (digest +:+ ".")
  else Ok "".

(** [TargetFile.from_data(path, data)] with python-tuf's default algorithm. *)
Definition TargetFile_from_data (path : string) (data : FileData) : TargetFile :=
  {| tf_length := data_length data;
     tf_hashes := [("sha256", sha256 data)];
     tf_path := path |}.

Definition RoleKind_eqb (a b : RoleKind) : bool :=
  match a, b with
  | Root, Root | Targets, Targets | Snapshot, Snapshot | Timestamp, Timestamp => true
  | _, _ => false
  end.

Definition kind_of (f : SignedFields) : RoleKind :=
  match f with
  | RootFields _ => Root
  | TargetsFields _ => Targets
  | SnapshotFields _ => Snapshot
  | TimestampFields _ => Timestamp
  end.

Definition EXCLUDED_FROM_SNAPSHOT : list RoleKind := [Snapshot; Timestamp].

(** [isinstance(oR.role.signed, kinds)] *)
Definition isinstance (oR : OurRole) (kinds : list RoleKind) : bool :=
  existsb (RoleKind_eqb (kind_of (fields (signed (role oR))))) kinds.

(** [self.keys.sign(self.<k>)] *)
Definition sign_role (k : string) (self : RepoBuilder) : result RepoBuilder :=
  oR ← getitem k (ourRoles self);
  '(oR, _) ← KeyManager_sign (keys self) oR;
  Ok (put_role k oR self).

(** [self.<k>.needsSigning = True] *)
Definition mark_dirty (k : string) (self : RepoBuilder) : result RepoBuilder :=
  oR ← getitem k (ourRoles self);
  Ok (put_role k (set_needsSigning true oR) self).

Definition bindContent_step (self : RepoBuilder) (kv : string * FileData)
  : result RepoBuilder :=
  let t := TargetFile_from_data (fst kv) (snd kv) in
  targets ← RepoBuilder_targets self;
  files ← get_targets (role targets);
  Ok (put_role "targets"
        (with_role (with_fields (TargetsFields (PyDict.set (fst kv) t files))
                      (role targets)) targets) self).

Definition bindContent (self : RepoBuilder) : result RepoBuilder :=
  self ← forM bindContent_step (userFiles self) self;
  self ← mark_dirty "targets" self;
  sign_role "targets" self.

(** One turn of the loop of [bindMetadata].  The loop changes only the
    [meta] table of the Snapshot record, so the records it visits are those
    of [ourRoles] at its start. *)
Definition bindMetadata_step (self : RepoBuilder) (oR : OurRole)
  : result RepoBuilder :=
  if negb (isinstance oR EXCLUDED_FROM_SNAPSHOT) then
    isConsistent ← RepoSeed_isConsistent (seed self);
    let fileName := fileNameForRole (fac oR) (version oR) isConsistent in
    let metaFile := {| mf_version := signed_version (signed (role oR)) |} in
    snapshot ← RepoBuilder_snapshot self;
    meta ← get_meta (role snapshot);
    Ok (put_role "snapshot"
          (with_role (with_fields (SnapshotFields (PyDict.set fileName metaFile meta))
                        (role snapshot)) snapshot) self)
  else Ok self.

Definition bindMetadata (self : RepoBuilder) : result RepoBuilder :=
  self ← forM bindMetadata_step (PyDict.values (ourRoles self)) self;
  self ← mark_dirty "snapshot" self;
  sign_role "snapshot" self.

Definition stamp (self : RepoBuilder) : result RepoBuilder :=
  snapshot ← RepoBuilder_snapshot self;
  let v := signed_version (signed (role snapshot)) in
  timestamp ← RepoBuilder_timestamp self;
  _ ← get_snapshot_meta (role timestamp);
  let self := put_role "timestamp"
        (with_role (with_fields (TimestampFields {| mf_version := v |})
                      (role timestamp)) timestamp) self in
  self ← mark_dirty "timestamp" self;
  sign_role "timestamp" self.

Definition makeSnapshot (self : RepoBuilder) : result RepoBuilder :=
  self ← bindContent self;
  self ← bindMetadata self;
  stamp self.

Definition saveMeta_step (st : Dir * RepoBuilder) (kv : string * OurRole)
  : result (Dir * RepoBuilder) :=
  isConsistent ← RepoSeed_isConsistent (seed (snd st));
  '(d, oR) ← RolesStrategy_save (fst st) isConsistent (snd kv);
  Ok (d, put_role (fst kv) oR (snd st)).

Definition saveMeta (repoRoot : Dir) (self : RepoBuilder) : result (Dir * RepoBuilder) :=
  forM saveMeta_step (ourRoles self) (repoRoot, self).

Definition saveFiles_step (self : RepoBuilder) (repoRoot : Dir)
    (kv : string * FileData) : result Dir :=
  prefix ← getPrefixForUserFile self (fst kv);
  Ok (<[ prefix +:+ fst kv := snd kv ]> repoRoot).

Definition saveFiles (repoRoot : Dir) (self : RepoBuilder) : result Dir :=
  forM (saveFiles_step self) (userFiles self) repoRoot.

Definition RepoBuilder_save (repoRoot : Dir) (self : RepoBuilder)
  : result (Dir * RepoBuilder) :=
  '(d, self) ← saveMeta repoRoot self;
  d ← saveFiles d self;
  Ok (d, self).

(** *** The life of one role record

    The operations a record goes through, for stating what holds after any
    sequence of them.  [OpCreateEmpty] and [OpLoad] replace the record by a
    new one, as [createEmpty] and [loadFromData] return one; the others act
    on the record at hand, and [OpSave] also on the directory. *)
Inductive RoleOp :=
| OpCreateEmpty (roleFactory : RoleFactory) (now : Z)
| OpLoad (roleFactory : RoleFactory) (data : FileData) (expectedVersion : option Z)
| OpSetVersion (v : Z)
| OpBumpVersion
| OpSign (key : Key)
| OpSave (isConsistent : bool).

Definition apply_op (st : Dir * OurRole) (op : RoleOp) : Dir * OurRole :=
  let '(d, r) := st in
  match op with
  | OpCreateEmpty roleFactory now => (d, createEmpty roleFactory now)
  | OpLoad roleFactory data expectedVersion =>
    (d, after r (RolePersister_loadFromData roleFactory data expectedVersion))
  | OpSetVersion v => (d, after r (set_version v r))
  | OpBumpVersion => (d, bumpVersion r)
  | OpSign key => (d, fst (OurRole_sign key r))
  | OpSave isConsistent => after st (RolePersister_save d isConsistent r)
  end.

Definition run_ops (ops : list RoleOp) (st : Dir * OurRole) : Dir * OurRole :=
  fold_left apply_op ops st.

End Engine.

(** [KeyManager.fromSingleKey]: [{rn: key for rn in roleNames}] *)
Definition KeyManager_fromSingleKey (key : Key) (roleNames : list string)
  : gmap string Key :=
  list_to_map (map (fun rn => (rn, key)) roleNames).

(** [RolesModel.keyManagerFromSingleKey] *)
Definition keyManagerFromSingleKey (model : PyDict.t RoleFactory) (rolesKey : Key)
  : gmap string Key :=
  KeyManager_fromSingleKey rolesKey (name ROOT_ROLE_FAC :: PyDict.keys model).

(** ** Predicates used by the statements *)

(** A dirty record needs saving. *)
Definition dirty_needs_saving (r : OurRole) : bool :=
  implb (needsSigning r) (needsSaving r).

(** The names under which simple mode stores the three roles. *)
Definition metadata_names : list string :=
  ["timestamp.json"; "snapshot.json"; "targets.json"].

(** ** A concrete choice of collaborators

    Files hold either an encoded metadata object or raw bytes; the
    serializer is the injection of the former, and the digest and the
    signature are stand-ins.  The directory [repo] is a simple-mode
    repository whose Snapshot also lists a delegated role. *)
Module Demo.
Definition FileData : Type := (Metadata + string)%type.

Definition unprocess (m : Metadata) : FileData := inl m.

Definition process (d : FileData) : result Metadata :=
  match d with
  | inl m => Ok m
  | inr _ => Err IncorrectData
  end.

Definition data_length (d : FileData) : Z :=
  match d with
  | inl _ => 0
  | inr s => Z.of_nat (String.length s)
  end.

Definition sha256 (d : FileData) : string :=
  match d with
  | inl _ => ""
  | inr s => "sha256:" +:+ s
  end.

Definition create_signature (k : Key) (s : Signed) : string :=
  "signed:" +:+ keyval k.

Definition tuf_default_snapshot_meta : MetaFile := {| mf_version := 1 |}.

Definition tuf_default_meta : PyDict.t MetaFile :=
  [("targets.json", {| mf_version := 1 |})].

Definition the_key : Key := {| keyid := "k1"; keyval := "secret" |}.

Definition the_keys : gmap string Key := keyManagerFromSingleKey ROLES_MODEL the_key.

Definition the_seed (consistent : bool) : RepoSeed :=
  {| root := fst (OurRole_sign create_signature the_key
                    (createEmptyRoot tuf_default_snapshot_meta tuf_default_meta
                       consistent 0));
     seed_keys := the_keys |}.

Definition metadata (v : Z) (f : SignedFields) : Metadata :=
  {| signed := {| signed_version := v; expires := 1000; fields := f |};
     signatures := [] |}.

Definition listing : PyDict.t MetaFile :=
  [("targets.json", {| mf_version := 1 |});
   ("delegated.json", {| mf_version := 3 |})].

Definition timestamp_md : Metadata := metadata 1 (TimestampFields {| mf_version := 1 |}).
Definition snapshot_md : Metadata := metadata 1 (SnapshotFields listing).
Definition targets_md : Metadata := metadata 1 (TargetsFields []).

Definition repo : gmap string FileData :=
  {[ "timestamp.json" := unprocess timestamp_md;
     "snapshot.json" := unprocess snapshot_md;
     "targets.json" := unprocess targets_md ]}.

Definition loaded_roles : PyDict.t OurRole :=
  [("timestamp", OurRole_init timestampRoleFac timestamp_md);
   ("snapshot", OurRole_init snapshotRoleFac snapshot_md);
   ("targets", OurRole_init targetsRoleFac targets_md)].

Definition builder : RepoBuilder FileData :=
  {| seed := the_seed false; keys := the_keys; ourRoles := loaded_roles;
     userFiles := [] |}.

(** The same repository after its Targets file was replaced by a later
    version that the Snapshot does not record. *)
Definition stale_repo : gmap string FileData :=
  <[ "targets.json" := unprocess (metadata 2 (TargetsFields [])) ]> repo.

(** A Targets record as [createEmpty] returns it. *)
Definition fresh_targets : OurRole :=
  createEmpty tuf_default_snapshot_meta tuf_default_meta targetsRoleFac 0.

(** A Targets record that has been created and signed once. *)
Definition signed_targets : OurRole :=
  fst (OurRole_sign create_signature the_key
         (createEmpty tuf_default_snapshot_meta tuf_default_meta targetsRoleFac 0)).
End Demo.

(** ** The rest of the strategy and of the seed *)

(** [_collectParentRoles]: every dependency, each followed by its own
    parents. *)
Fixpoint _collectParentRoles (curRole : RoleFactory) : list RoleFactory :=
  match curRole with
  | mkRoleFactory _ _ _ ds _ =>
    (fix over (ds : list RoleFactory) : list RoleFactory :=
       match ds with
       | [] => []
       | depRole :: ds' =>
         ((depRole :: _collectParentRoles depRole) ++ over ds')%list
       end) ds
  end.

(** [p] is a dependency of [f], or of one of its dependencies, and so on. *)
Inductive ancestor : RoleFactory -> RoleFactory -> Prop :=
| ancestor_dep p f : In p (deps f) -> ancestor p f
| ancestor_up p d f : In d (deps f) -> ancestor p d -> ancestor p f.

(** [keys[roleName]] of a [KeyManager] *)
Definition KeyManager_getitem (keys : gmap string Key) (roleName : string)
  : result Key :=
  match keys !! roleName with
  | Some key => Ok key
  | None => Err (KeyError roleName)
  end.

(** The calls [root.role.signed.add_key(Key.from_securesystemslib_key(key),
    roleName)] of [RepoSeed.make], in the order it makes them, each as the
    pair of [key] and [roleName]. *)
Definition add_parent_keys (keys : gmap string Key) (roleFac : RoleFactory)
    (calls : list (Key * string)) : result (list (Key * string)) :=
  forM (fun calls depRole =>
          key ← KeyManager_getitem keys (name depRole);
          Ok (calls ++ [(key, name roleFac)])%list)
       (_collectParentRoles roleFac) calls.

Definition add_role_keys (keys : gmap string Key) (allowParentKeys : bool)
    (calls : list (Key * string)) (roleFac : RoleFactory)
  : result (list (Key * string)) :=
  key ← KeyManager_getitem keys (name roleFac);
  let calls := (calls ++ [(key, name roleFac)])%list in
  if allowParentKeys then add_parent_keys keys roleFac calls else Ok calls.

Definition make_add_key_calls (keys : gmap string Key) (allowParentKeys : bool)
  : result (list (Key * string)) :=
  rootKeyObject ← KeyManager_getitem keys (name ROOT_ROLE_FAC);
  forM (add_role_keys keys allowParentKeys) (PyDict.values ROLES_MODEL)
       [(rootKeyObject, name ROOT_ROLE_FAC)].

(** [fnmatch(name, "*" + suffix)] for a [suffix] without wildcards, as
    [Path.glob] applies it to every entry of the directory. *)
Fixpoint str_ends_with (suffix name : string) : bool :=
  String.eqb suffix name ||
  match name with
  | EmptyString => false
  | String _ name' => str_ends_with suffix name'
  end.

(** A role operation that acts on the record at hand. *)
Definition keeps_record {FileData} (op : RoleOp FileData) : bool :=
  match op with
  | OpCreateEmpty _ _ _ | OpLoad _ _ _ _ => false
  | _ => true
  end.

Section Strategy.

Variable FileData : Type.
Variable process : FileData -> result Metadata.
Variable create_signature : Key -> Signed -> string.
Variable tuf_default_snapshot_meta : MetaFile.
Variable tuf_default_meta : PyDict.t MetaFile.

Local Abbreviation Dir := (gmap string FileData).

(** [RepoSeed.make]: the seed, and the key grants made on its root.  The
    signature is computed by [create_signature] from the payload as it is
    modelled, without the key table. *)
Definition RepoSeed_make (keys : gmap string Key) (consistent : bool)
    (allowParentKeys : bool) (now : Z) : result (RepoSeed * list (Key * string)) :=
  let root_ := createEmptyRoot tuf_default_snapshot_meta tuf_default_meta
                 consistent now in
  calls ← make_add_key_calls keys allowParentKeys;
  '(root_, _) ← KeyManager_sign create_signature keys root_;
  Ok ({| root := root_; seed_keys := keys |}, calls).

(** What [loadRoot] is given: a path that is a directory, a path that is
    not (the file [path] of a directory), [bytes] or [str], or a value of
    another type. *)
Inductive RootSource :=
| SrcDir (d : Dir)
| SrcFile (d : Dir) (path : string)
| SrcData (data : FileData)
| SrcOther.

(** [loadRoot] returns the record or raises: its own [ValueError], whose
    only argument is a fixed message, or what the loading raises. *)
Inductive LoadRootResult :=
| RootLoaded (r : OurRole)
| MoreThanOneConsistentCand
| LoadRootRaised (e : PyError).

Definition load_root_result (r : result OurRole) : LoadRootResult :=
  match r with
  | Ok r => RootLoaded r
  | Err e => LoadRootRaised e
  end.

Definition loadRoot (data : RootSource) : LoadRootResult :=
  match data with
  | SrcDir d =>
    let nonConsistentName := fileNameForRole ROOT_ROLE_FAC 0 false in
    match d !! nonConsistentName with
    | Some _ =>
      load_root_result
        (RolesStrategy_loadFromFile FileData process ROOT_ROLE_FAC d
           nonConsistentName None)
    | None =>
      let consistentCands :=
        List.filter (str_ends_with ("." +:+ nonConsistentName))
          (OurRoleLayout.discoverFilesInRepoRoot d) in
      match consistentCands with
      | [] => LoadRootRaised IndexError
      | [cand] =>
        load_root_result
          (RolesStrategy_loadFromFile FileData process ROOT_ROLE_FAC d cand None)
      | _ => MoreThanOneConsistentCand
      end
    end
  | SrcFile d path =>
    load_root_result
      (RolesStrategy_loadFromFile FileData process ROOT_ROLE_FAC d path None)
  | SrcData data =>
    load_root_result
      (RolePersister_loadFromData FileData process ROOT_ROLE_FAC data None)
  | SrcOther => LoadRootRaised TypeError
  end.

(** [loadDumb] *)
Definition loadDumb (model : PyDict.t RoleFactory) (repoRoot : option Dir)
    (isConsistent : bool) (now : Z) : result (PyDict.t OurRole) :=
  forM (fun rolesDict fac_ =>
          '(r, _isLoaded) ←
             RolesStrategy_loadOrCreate FileData process
               tuf_default_snapshot_meta tuf_default_meta
               fac_ repoRoot isConsistent None now;
          Ok (PyDict.set (name fac_) r rolesDict))
       (PyDict.values model) [].

End Strategy.

(** ** Predicates used by the further statements *)

(** [fn] is a non-empty run of decimal digits that reads as [v], then
    [.roleName.ext], then any text. *)
Definition consistent_candidate (ext roleName fn : string) (v : Z) : Prop :=
  exists ds rest,
    fn = ds +:+ name_tail ext roleName +:+ rest /\
    ds <> "" /\ all_chars is_digit ds = true /\ py_int ds = Some v.

(** The versions never go down from an element to a later one. *)
Fixpoint ascending (l : list (Z * string)) : Prop :=
  match l with
  | [] => True
  | x :: l' => Forall (fun y => fst x <= fst y) l' /\ ascending l'
  end.

(** A path that names a file directly inside a directory.  The directory
    is a flat map from file names to contents, so what is said about where
    user files go is said for such paths. *)
Definition plain_name (path : string) : bool :=
  negb (String.eqb path "") && negb (String.eqb path ".")
  && negb (String.eqb path "..") && negb (str_contains "/" path).

(** The target files of a Targets payload after the loop of [bindContent]
    over [userFiles]. *)
Definition bound_files {FileData} (data_length : FileData -> Z)
    (sha256 : FileData -> string) (userFiles : PyDict.t FileData)
    (files : PyDict.t TargetFile) : PyDict.t TargetFile :=
  fold_left
    (fun files kv =>
       PyDict.set (fst kv)
         (TargetFile_from_data FileData data_length sha256 (fst kv) (snd kv)) files)
    userFiles files.

(** ** The client: [Repo.getListPath]

    The [Updater] of python-tuf is a collaborator: its three methods are
    variables.  [get_targetinfo] and [download_target] may change the
    updater (the trusted metadata, the cache) and may raise;
    [find_cached_target] only reads. *)
Section Client.

Variable Updater : Type.
Variable TargetInfo : Type.
Variable get_targetinfo : Updater -> string -> result (Updater * option TargetInfo).
Variable find_cached_target : Updater -> TargetInfo -> result (option string).
Variable download_target : Updater -> TargetInfo -> result Updater.

(** [not cached] for an [Optional[str]]: [None] and the empty string. *)
Definition not_cached (cached : option string) : bool :=
  match cached with
  | None => true
  | Some s => String.eqb s ""
  end.

Definition getListPath (updater : Updater) (path : string)
  : result (Updater * string) :=
  '(updater, info) ← get_targetinfo updater path;
  match info with
  | Some info =>
    cached ← find_cached_target updater info;
    '(updater, cached) ←
      (if not_cached cached then
         updater ← download_target updater info;
         cached ← find_cached_target updater info;
         Ok (updater, cached)
       else Ok (updater, cached));
    match cached with
    | Some p => if not_cached cached then Err (KeyError path) else Ok (updater, p)
    | None => Err (KeyError path)
    end
  | None => Err (KeyError path)
  end.

End Client.

(** ** More concrete inputs *)
Module DemoMore.

(** The builder of [Demo] with one user file. *)
Definition builder_with_file : RepoBuilder Demo.FileData :=
  set_userFile Demo.FileData "a.txt" (inr "hello") Demo.builder.

(** A builder in consistent mode. *)
Definition consistent_builder : RepoBuilder Demo.FileData :=
  {| seed := Demo.the_seed true; keys := Demo.the_keys;
     ourRoles := Demo.loaded_roles; userFiles := [] |}.

(** A directory with two versions of the Targets file. *)
Definition versions_repo : gmap string Demo.FileData :=
  {[ "1.targets.json" := Demo.unprocess (Demo.metadata 1 (TargetsFields []));
     "2.targets.json" := Demo.unprocess (Demo.metadata 2 (TargetsFields [])) ]}.

(** A repository whose Snapshot lists both of them. *)
Definition ambiguous_listing : PyDict.t MetaFile :=
  [("1.targets.json", {| mf_version := 1 |});
   ("2.targets.json", {| mf_version := 2 |})].

Definition ambiguous_repo : gmap string Demo.FileData :=
  {[ "timestamp.json" := Demo.unprocess Demo.timestamp_md;
     "snapshot.json"
       := Demo.unprocess (Demo.metadata 1 (SnapshotFields ambiguous_listing)) ]}.

(** A directory with two versioned root files and no [root.json]. *)
Definition two_roots : gmap string Demo.FileData :=
  {[ "1.root.json" := Demo.unprocess (Demo.metadata 1 (RootFields false));
     "2.root.json" := Demo.unprocess (Demo.metadata 2 (RootFields false)) ]}.

(** An updater that knows one target; its state is the list of the paths
    it has downloaded. *)
Definition get_targetinfo (updater : list string) (path : string)
  : result (list string * option string) :=
  Ok (updater, if String.eqb path "a.txt" then Some path else None).

Definition find_cached_target (updater : list string) (info : string)
  : result (option string) :=
  Ok (if existsb (String.eqb info) updater then Some ("cache/" +:+ info) else None).

Definition download_target (updater : list string) (info : string)
  : result (list string) :=
  Ok (info :: updater).

End DemoMore.

(** * Properties *)

(** ** Strings *)

Lemma append_cons (x : ascii) (a b : string) :
  String x a +:+ b = String x (a +:+ b).
Proof. reflexivity. Qed.

Lemma append_assoc (a b c : string) : (a +:+ b) +:+ c = a +:+ (b +:+ c).
Proof. induction a as [|x a IH]; [reflexivity | by rewrite !append_cons, IH]. Qed.

Lemma length_append (a b : string) :
  String.length (a +:+ b) = (String.length a + String.length b)%nat.
Proof.
  induction a as [|x a IH]; [reflexivity |].
  rewrite append_cons. simpl. by rewrite IH.
Qed.

Lemma str_take_append (a b : string) : str_take (String.length a) (a +:+ b) = a.
Proof.
  induction a as [|x a IH]; [by destruct b |].
  rewrite append_cons. simpl. by rewrite IH.
Qed.

Lemma consumed_append (a b : string) : consumed (a +:+ b) b = a.
Proof.
  unfold consumed. rewrite length_append.
  replace (String.length a + String.length b - String.length b)%nat
    with (String.length a) by lia.
  apply str_take_append.
Qed.

Lemma str_replace_append (old : ascii) (new a b : string) :
  str_replace old new (a +:+ b) = str_replace old new a +:+ str_replace old new b.
Proof.
  induction a as [|x a IH]; [reflexivity |].
  rewrite append_cons. simpl. destruct (Ascii.eqb x old).
  - by rewrite IH, append_assoc.
  - by rewrite IH.
Qed.

(** ** Decimal text *)


Lemma digits_string_of_uint (d : uint) :
  all_chars is_digit (NilEmpty.string_of_uint d) = true.
Proof. unfold all_chars. induction d; simpl; auto. Qed.

Lemma py_str_int_nonneg (v : Z) :
  0 <= v ->
  exists d, d <> Nil /\ Z.to_int v = Pos d /\ py_str_int v = NilEmpty.string_of_uint d.
Proof.
  intros Hv. destruct v as [|p|p]; [| |lia].
  - exists (D0 Nil). repeat split; discriminate.
  - exists (Pos.to_uint p). pose proof (Unsigned.to_uint_nonnil p) as Hn.
    repeat split; [assumption|]. unfold py_str_int. simpl.
    destruct (Pos.to_uint p); [congruence | reflexivity ..].
Qed.

Lemma py_int_py_str (v : Z) : 0 <= v -> py_int (py_str_int v) = Some v.
Proof.
  intros Hv. destruct (py_str_int_nonneg v Hv) as (d & Hd & Hi & Hs).
  unfold py_int. rewrite Hs.
  assert (NilZero.uint_of_string (NilEmpty.string_of_uint d) = Some d) as ->.
  { destruct d; [congruence | apply (NilEmpty.usu (_ _)) ..]. }
  simpl. f_equal.
  transitivity (Z.of_int (Z.to_int v)); [by rewrite Hi | apply DecimalZ.of_to].
Qed.

Lemma py_str_int_digits (v : Z) :
  0 <= v ->
  all_chars is_digit (py_str_int v) = true /\ py_str_int v <> "".
Proof.
  intros Hv. destruct (py_str_int_nonneg v Hv) as (d & Hd & _ & ->).
  split; [apply digits_string_of_uint | by destruct d].
Qed.

(** ** The pattern of a literal role name *)


Lemma is_literal_token (c : ascii) :
  is_literal c = true ->
  Ascii.eqb c "\" = false /\ Ascii.eqb c "." = false /\
  token_of_char c = TAtom (AChar c).
Proof.
  intros Hlit. unfold token_of_char. rewrite Hlit.
  unfold is_literal in Hlit. rename Hlit into H.
  apply negb_true_iff in H. simpl in H.
  repeat (apply orb_false_iff in H; destruct H as [? H]).
  repeat match goal with E : Ascii.eqb c _ = false |- _ => rewrite E; clear E end.
  repeat split; reflexivity.
Qed.

Lemma tokenize_escaped (w s : string) :
  literal_text w = true ->
  tokenize (str_replace "." "\." w +:+ s) = (lit_tokens w ++ tokenize s)%list.
Proof.
  unfold literal_text, all_chars, lit_tokens.
  induction w as [|c w IH]; [reflexivity |].
  simpl. intros H. apply andb_true_iff in H as [Hc Hw].
  specialize (IH Hw). unfold name_char_ok in Hc.
  destruct (Ascii.eqb c ".") eqn:Edot.
  - apply Ascii.eqb_eq in Edot. subst c.
    rewrite append_assoc, !append_cons. simpl.
    change ("" +:+ str_replace "." "\." w +:+ s) with (str_replace "." "\." w +:+ s).
    by rewrite IH.
  - rewrite orb_false_r in Hc.
    destruct (is_literal_token c Hc) as (Hb & _ & Ht).
    rewrite append_cons. simpl. by rewrite Hb, Ht, IH.
Qed.

Lemma parse_lit_tokens (w : string) (ts : list token) :
  starts_with_quant ts = false ->
  parse (lit_tokens w ++ ts) false =
  option_map (fun r => (fst r, lit_items w ++ snd r)%list) (parse ts false).
Proof.
  intros Hq. unfold lit_tokens, lit_items.
  induction (list_ascii_of_string w) as [|c l IH].
  - simpl. by destruct (parse ts false) as [[g r]|].
  - change (parse (TAtom (AChar c) :: (map (fun c => TAtom (AChar c)) l ++ ts)) false =
            option_map (fun r => (fst r, (IAtom (AChar c) QOne ::
               map (fun c => IAtom (AChar c) QOne) l) ++ snd r)%list) (parse ts false)).
    assert (starts_with_quant (map (fun c => TAtom (AChar c)) l ++ ts) = false) as Hq'.
    { destruct l; [exact Hq | reflexivity]. }
    revert IH Hq'. generalize (map (fun c => TAtom (AChar c)) l ++ ts)%list as ts'.
    intros ts' IH Hq'.
    assert (parse (TAtom (AChar c) :: ts') false =
            match parse ts' false with
            | Some (g, rest) => Some (g, IAtom (AChar c) QOne :: rest)
            | None => None
            end) as ->.
    { destruct ts' as [|[| | | |] ts'']; try reflexivity. discriminate Hq'. }
    rewrite IH. by destruct (parse ts false) as [[g r]|].
Qed.

Lemma append_nil_r (s : string) : s +:+ "" = s.
Proof. induction s as [|c s IH]; [reflexivity | by rewrite append_cons, IH]. Qed.

Lemma list_ascii_append (a b : string) :
  list_ascii_of_string (a +:+ b) =
  (list_ascii_of_string a ++ list_ascii_of_string b)%list.
Proof.
  induction a as [|c a IH]; [reflexivity |].
  rewrite append_cons. simpl. by rewrite IH.
Qed.

Lemma literal_text_append (a b : string) :
  literal_text (a +:+ b) = literal_text a && literal_text b.
Proof. unfold literal_text, all_chars. by rewrite list_ascii_append, forallb_app. Qed.


Lemma literal_name_tail (ext roleName : string) :
  literal_text roleName = true -> literal_text ext = true ->
  literal_text (name_tail ext roleName) = true.
Proof.
  intros Hn He. unfold name_tail.
  rewrite !literal_text_append, Hn, He. reflexivity.
Qed.

Lemma re_compile_roleGlobFnRegExp (ext : string) (roleFactory : RoleFactory) :
  literal_text (name roleFactory) = true -> literal_text ext = true ->
  re_compile (OurRoleLayout.roleGlobFnRegExp ext roleFactory) =
  Some (IGroup [(ADigit, QPlus)] :: lit_items (name_tail ext (name roleFactory))).
Proof.
  intros Hn He.
  pose proof (literal_name_tail ext _ Hn He) as Ht.
  unfold OurRoleLayout.roleGlobFnRegExp, OurRoleLayout.getConsistentFileName.
  change (py_str (VStr "(\d+)") +:+ "." +:+ name roleFactory +:+ "." +:+ ext)
    with ("(\d+)" +:+ name_tail ext (name roleFactory)).
  rewrite str_replace_append.
  change (str_replace "." "\." "(\d+)") with "(\d+)".
  unfold re_compile.
  rewrite <- (append_nil_r (str_replace "." "\." (name_tail ext (name roleFactory)))).
  rewrite !append_cons.
  change (tokenize (String "(" (String "\" (String "d" (String "+" (String ")"
            ("" +:+ str_replace "." "\." (name_tail ext (name roleFactory)) +:+ "")))))))
    with (TOpen :: TAtom ADigit :: TQuant QPlus :: TClose ::
          tokenize (str_replace "." "\." (name_tail ext (name roleFactory)) +:+ "")).
  rewrite (tokenize_escaped _ "" Ht).
  assert (starts_with_quant
            (lit_tokens (name_tail ext (name roleFactory)) ++ tokenize "") = false) as Hq
    by reflexivity.
  pose proof (parse_lit_tokens (name_tail ext (name roleFactory)) (tokenize "") eq_refl) as Hp.
  revert Hq Hp.
  generalize (lit_tokens (name_tail ext (name roleFactory)) ++ tokenize "")%list as ts.
  intros ts Hq Hp. simpl. rewrite Hq, Hp. simpl. by rewrite app_nil_r.
Qed.

(** ** Matching a literal tail and a decimal head *)

Lemma match_lit_items (w s : string) (p : list item) (groups : list string) :
  match_items (lit_items w ++ p) (w +:+ s) groups = match_items p s groups.
Proof.
  unfold lit_items. induction w as [|c w IH]; [reflexivity |].
  rewrite append_cons. simpl. unfold match_one. simpl.
  rewrite Ascii.eqb_refl. exact IH.
Qed.

Lemma greedy_digits {A} (k : string -> option A) (ds t : string) (x : A) :
  all_chars is_digit ds = true ->
  k (String "." t) = Some x ->
  greedy ADigit k (ds +:+ String "." t) = Some x.
Proof.
  unfold all_chars. intros Hd Hk.
  induction ds as [|d ds IH]; [exact Hk |].
  simpl in Hd. apply andb_true_iff in Hd as [Hd Hds].
  rewrite append_cons. simpl. rewrite Hd, (IH Hds). reflexivity.
Qed.

Lemma re_match_consistent_name (ds ext roleName : string) :
  all_chars is_digit ds = true -> ds <> "" ->
  re_match (IGroup [(ADigit, QPlus)] :: lit_items (name_tail ext roleName))
           (ds +:+ name_tail ext roleName) = Some [ds].
Proof.
  intros Hd Hne. unfold re_match.
  destruct ds as [|d ds]; [congruence |].
  unfold all_chars in Hd. simpl in Hd. apply andb_true_iff in Hd as [Hd Hds].
  set (s := String d ds +:+ name_tail ext roleName).
  cbn [match_items match_flat].
  unfold match_one. subst s. rewrite append_cons at 1. simpl atom_matches.
  rewrite Hd.
  apply greedy_digits; [exact Hds |].
  change (String "." (roleName +:+ "." +:+ ext)) with (name_tail ext roleName).
  rewrite consumed_append.
  rewrite <- (app_nil_r (lit_items (name_tail ext roleName))).
  rewrite <- (append_nil_r (name_tail ext roleName)) at 2.
  rewrite match_lit_items. reflexivity.
Qed.

Lemma sorted_by_version_single (x : Z * string) : sorted_by_version [x] = [x].
Proof. reflexivity. Qed.

Lemma str_contains_literal (s : string) :
  literal_text s = true -> str_contains "*" s = false.
Proof.
  unfold literal_text, all_chars, str_contains.
  induction (list_ascii_of_string s) as [|c l IH]; [reflexivity |].
  cbn [existsb forallb]. intros H. apply andb_true_iff in H as [Hc Hl].
  rewrite (IH Hl), orb_false_r.
  destruct (Ascii.eqb_spec "*" c) as [<- | ]; [discriminate Hc | reflexivity].
Qed.

(** Claim C8, as amended.  For every version that is not negative and every
    role name and extension whose characters stand for themselves in the
    pattern once ["."] is escaped, consistent-mode discovery on the single
    file name made by [getConsistentFileName] returns exactly that version
    with that name. *)
Theorem C8_discover_name (version_ : Z) (ext : string) (roleFactory : RoleFactory) :
  0 <= version_ ->
  literal_text (name roleFactory) = true ->
  literal_text ext = true ->
  OurRoleLayout.discoverConsistentVersionsFromFileNames ext roleFactory
    [OurRoleLayout.getConsistentFileName ext (name roleFactory) (VInt version_)]
  = Ok [(version_,
         OurRoleLayout.getConsistentFileName ext (name roleFactory) (VInt version_))].
Proof.
  intros Hv Hn He.
  unfold OurRoleLayout.discoverConsistentVersionsFromFileNames.
  rewrite (str_contains_literal _ Hn).
  rewrite (re_compile_roleGlobFnRegExp _ _ Hn He).
  destruct (py_str_int_digits version_ Hv) as [Hd Hne].
  assert (OurRoleLayout.getConsistentFileName ext (name roleFactory) (VInt version_)
          = py_str_int version_ +:+ name_tail ext (name roleFactory)) as Hname
    by reflexivity.
  rewrite Hname.
  change (omap ?f [?x]) with (match f x with Some y => [y] | None => [] end).
  unfold OurRoleLayout.versionOfFileName.
  rewrite (re_match_consistent_name _ _ _ Hd Hne). cbn [hd].
  rewrite (py_int_py_str _ Hv). reflexivity.
Qed.

(** ** Dictionaries *)

Lemma PyDict_get_keys {V} (k : string) (d : PyDict.t V) (v : V) :
  PyDict.get k d = Some v -> existsb (String.eqb k) (PyDict.keys d) = true.
Proof.
  induction d as [|[k' v'] d IH]; [discriminate |].
  cbn [PyDict.get PyDict.keys map existsb fst].
  destruct (String.eqb k k'); [reflexivity | exact IH].
Qed.

Lemma PyDict_get_set_eq {V} (k : string) (v : V) (d : PyDict.t V) :
  PyDict.get k (PyDict.set k v d) = Some v.
Proof.
  induction d as [|[k' v'] d IH]; cbn [PyDict.set PyDict.get].
  - by rewrite String.eqb_refl.
  - destruct (String.eqb k k') eqn:E; cbn [PyDict.get]; rewrite E; [reflexivity | exact IH].
Qed.

Lemma PyDict_get_set_ne {V} (k k' : string) (v : V) (d : PyDict.t V) :
  k' <> k -> PyDict.get k' (PyDict.set k v d) = PyDict.get k' d.
Proof.
  intros Hne. induction d as [|[k0 v0] d IH]; cbn [PyDict.set PyDict.get].
  - destruct (String.eqb_spec k' k); [contradiction | reflexivity].
  - destruct (String.eqb_spec k k0) as [-> | Hk]; cbn [PyDict.get].
    + destruct (String.eqb_spec k' k0); [contradiction | reflexivity].
    + destruct (String.eqb k' k0); [reflexivity | exact IH].
Qed.

(** ** The role record *)

Section RecordProps.
Variable FileData : Type.
Variable unprocess : Metadata -> FileData.
Variable process : FileData -> result Metadata.
Variable create_signature : Key -> Signed -> string.
Variable tuf_default_snapshot_meta : MetaFile.
Variable tuf_default_meta : PyDict.t MetaFile.

Local Abbreviation sign := (OurRole_sign create_signature).
Local Abbreviation save := (RolePersister_save FileData unprocess).

Lemma set_needsSigning_flag (v : bool) (self : OurRole) :
  needsSigning (set_needsSigning v self) = v.
Proof.
  unfold set_needsSigning, needsSigning.
  destruct (_needsSigning self) eqn:E, v; simpl; congruence.
Qed.

Lemma set_needsSigning_version (v : bool) (self : OurRole) :
  version (set_needsSigning v self) = version self.
Proof. unfold set_needsSigning. by destruct (negb _). Qed.

Lemma version_set__version (v : Z) (self : OurRole) :
  version (set__version v self) = v.
Proof. unfold set__version. by rewrite set_needsSigning_version. Qed.

Lemma needsSigning_set__version (v : Z) (self : OurRole) :
  needsSigning (set__version v self) = true.
Proof. apply set_needsSigning_flag. Qed.

(** Claim C2.  Signing a dirty record raises its version by exactly one,
    clears the dirty flag, sets needs-saving and returns true; signing a
    record that is not dirty returns false and the record unchanged.  The
    key manager delegates to the record with the key registered under its
    role name. *)
Theorem C2_sign_bumps_version (key : Key) (self : OurRole) :
  (needsSigning self = true ->
     snd (sign key self) = true /\
     version (fst (sign key self)) = version self + 1 /\
     needsSigning (fst (sign key self)) = false /\
     needsSaving (fst (sign key self)) = true) /\
  (needsSigning self = false -> sign key self = (self, false)) /\
  (forall keys : gmap string Key,
     keys !! OurRole_name self = Some key ->
     KeyManager_sign create_signature keys self = Ok (sign key self)).
Proof.
  split; [| split].
  - intros Hd. unfold OurRole_sign. rewrite Hd. cbn [fst snd].
    repeat split.
    + change (version (set_needsSigning false
                (with_role (Metadata_sign create_signature key (role (bumpVersion self)))
                   (bumpVersion self))) = version self + 1).
      rewrite set_needsSigning_version.
      change (version (bumpVersion self) = version self + 1).
      apply version_set__version.
    + unfold set_needsSaving, needsSigning. cbn [_needsSigning].
      apply set_needsSigning_flag.
  - intros Hc. unfold OurRole_sign. by rewrite Hc.
  - intros keys Hk. unfold KeyManager_sign. by rewrite Hk.
Qed.

(** Claim C7.  Setting the version to a value below the current one fails
    with the version-decrease error, and the version stays what it was;
    setting it to a higher value succeeds and leaves the record dirty. *)
Theorem C7_set_version (self : OurRole) (v : Z) :
  (v < version self ->
     set_version v self = Err (VersionDecrease (version self) v) /\
     version (after self (set_version v self)) = version self) /\
  (version self < v ->
     exists r, set_version v self = Ok r /\ version r = v /\ needsSigning r = true).
Proof.
  unfold set_version. split; intros H.
  - apply Z.ltb_lt in H. rewrite H. by split.
  - assert (Z.ltb v (version self) = false) as -> by (apply Z.ltb_ge; lia).
    assert (Z.eqb v (version self) = false) as -> by (apply Z.eqb_neq; lia).
    eexists. split; [reflexivity |].
    split; [apply version_set__version | apply needsSigning_set__version].
Qed.

(** Claim C6.  For a record that needs saving: while it is dirty, saving
    fails with the unsigned-role error and the directory is left as it was;
    a save that succeeds has written the encoded record under its file name
    and cleared the needs-saving flag, and it succeeds whenever the record
    is not dirty. *)
Theorem C6_save_refuses_unsigned (repoRoot : gmap string FileData) (isConsistent : bool)
    (role_ : OurRole) :
  needsSaving role_ = true ->
  (needsSigning role_ = true ->
     save repoRoot isConsistent role_ = Err (RoleUnsigned (OurRole_name role_)) /\
     fst (after (repoRoot, role_) (save repoRoot isConsistent role_)) = repoRoot) /\
  (forall d r, save repoRoot isConsistent role_ = Ok (d, r) ->
     needsSigning role_ = false /\
     d = <[RolePersister_getFileName (fac role_) (version role_) isConsistent
           := unprocess (role role_)]> repoRoot /\
     needsSaving r = false /\ needsSigning r = false /\ role r = role role_) /\
  (needsSigning role_ = false ->
     exists d r, save repoRoot isConsistent role_ = Ok (d, r)).
Proof.
  intros Hs. unfold RolePersister_save. rewrite Hs.
  destruct (needsSigning role_) eqn:Hd.
  - split; [by intros _ | split; [discriminate | discriminate]].
  - split; [discriminate | split].
    + intros d r [= <- <-]. by repeat split.
    + intros _. eauto.
Qed.
End RecordProps.

Section Invariant.
Variable FileData : Type.
Variable unprocess : Metadata -> FileData.
Variable process : FileData -> result Metadata.
Variable create_signature : Key -> Signed -> string.
Variable tuf_default_snapshot_meta : MetaFile.
Variable tuf_default_meta : PyDict.t MetaFile.

Local Abbreviation run :=
  (run_ops FileData unprocess process create_signature
     tuf_default_snapshot_meta tuf_default_meta).
Local Abbreviation step :=
  (apply_op FileData unprocess process create_signature
     tuf_default_snapshot_meta tuf_default_meta).

Lemma inv_set_needsSigning (v : bool) (r : OurRole) :
  dirty_needs_saving r = true -> dirty_needs_saving (set_needsSigning v r) = true.
Proof.
  unfold dirty_needs_saving, set_needsSigning, needsSigning, needsSaving.
  destruct r as [f m [|] [|]], v; simpl; congruence.
Qed.

Lemma inv_set__version (v : Z) (r : OurRole) :
  dirty_needs_saving r = true -> dirty_needs_saving (set__version v r) = true.
Proof. intros H. unfold set__version. by apply inv_set_needsSigning. Qed.

Lemma inv_init (f : RoleFactory) (m : Metadata) :
  dirty_needs_saving (OurRole_init f m) = true.
Proof. reflexivity. Qed.

Lemma inv_step (st : gmap string FileData * OurRole) (op : RoleOp FileData) :
  dirty_needs_saving (snd st) = true -> dirty_needs_saving (snd (step st op)) = true.
Proof.
  destruct st as [d r]. intros H. cbn [snd] in H.
  destruct op as [f now | f data e | v | | key | c]; cbn [apply_op snd].
  - apply inv_set__version, inv_init.
  - unfold RolePersister_loadFromData.
    destruct (process data) as [m|err]; [| exact H].
    cbn. destruct e as [e|]; [| apply inv_init].
    destruct (negb _); [exact H | apply inv_init].
  - unfold set_version. destruct (Z.ltb _ _); [exact H |].
    destruct (negb _); [by apply inv_set__version | exact H].
  - by apply inv_set__version.
  - unfold OurRole_sign. destruct (needsSigning r) eqn:Hd; [| exact H].
    cbn [fst]. unfold dirty_needs_saving, needsSaving, set_needsSaving.
    cbn [_needsSaving]. apply implb_true_r.
  - unfold RolePersister_save.
    destruct (needsSaving r) eqn:Hs; [| exact H].
    destruct (needsSigning r) eqn:Hd; [exact H |].
    cbn. unfold dirty_needs_saving, needsSigning, set_needsSaving in *.
    cbn. unfold needsSigning in Hd. by rewrite Hd.
Qed.

(** Claim C10.  After any sequence of create-empty, load, set-version,
    bumpVersion, sign and save, a record that needs signing also needs
    saving. *)
Theorem C10_dirty_implies_needsSaving (ops : list (RoleOp FileData))
    (d : gmap string FileData) (f : RoleFactory) (m : Metadata) :
  dirty_needs_saving (snd (run ops (d, OurRole_init f m))) = true.
Proof.
  unfold run_ops.
  assert (dirty_needs_saving (snd (d, OurRole_init f m)) = true) as H by reflexivity.
  revert H. generalize (d, OurRole_init f m) as st.
  induction ops as [|op ops IH]; intros st H; [exact H |].
  cbn [fold_left]. apply IH. by apply inv_step.
Qed.
End Invariant.

Lemma bind_Ok {A B} (r : result A) (f : A -> result B) (b : B) :
  r ≫= f = Ok b -> exists a, r = Ok a /\ f a = Ok b.
Proof. destruct r as [a|e]; [eauto | discriminate]. Qed.

Tactic Notation "bind_ok" hyp(H) "as" ident(a) ident(E) :=
  apply bind_Ok in H as (a & E & H).

(** ** Reconciliation *)

Section Reconcile.
Variable FileData : Type.
Variable unprocess : Metadata -> FileData.
Variable process : FileData -> result Metadata.
Variable create_signature : Key -> Signed -> string.
Variable tuf_default_snapshot_meta : MetaFile.
Variable tuf_default_meta : PyDict.t MetaFile.

Local Abbreviation reconcile :=
  (loadOrCreateRoles FileData process tuf_default_snapshot_meta tuf_default_meta
     ROLES_MODEL).
Local Abbreviation first_two :=
  (loadTimestampAndSnapshot FileData process tuf_default_snapshot_meta
     tuf_default_meta ROLES_MODEL).
Local Abbreviation remaining :=
  (loadRemainingRole FileData process tuf_default_snapshot_meta tuf_default_meta
     ROLES_MODEL).
Local Abbreviation discover := RolePersister_discoverVersionsFromFileNames.

Local Abbreviation fresh :=
  (createEmpty tuf_default_snapshot_meta tuf_default_meta).

(** Claim C4, as amended.  Reconciling an empty directory in simple mode
    yields exactly three records, Timestamp, Snapshot and Targets, each
    freshly created at version 0 and dirty, and the Snapshot's
    metadata-file mapping is empty. *)
Theorem C4_empty_directory (now : Z) :
  exists roles snapshot,
    reconcile (Some ∅) false now = Ok roles /\
    roles = [("timestamp", fresh timestampRoleFac now);
             ("snapshot", snapshot);
             ("targets", fresh targetsRoleFac now)] /\
    Forall (fun r => version r = 0 /\ needsSigning r = true /\ needsSaving r = true)
      (PyDict.values roles) /\
    clear_meta (fresh snapshotRoleFac now) = Ok snapshot /\
    get_meta (role snapshot) = Ok [].
Proof.
  exists [("timestamp", fresh timestampRoleFac now);
          ("snapshot", with_role (with_fields (SnapshotFields [])
                         (role (fresh snapshotRoleFac now))) (fresh snapshotRoleFac now));
          ("targets", fresh targetsRoleFac now)].
  eexists. split; [vm_compute; reflexivity |].
  split; [reflexivity |].
  split; [repeat constructor |].
  split; reflexivity.
Qed.

(** Claim C5, at the input where the code departs from it.  In consistent
    mode, with no candidate for the Targets role (an empty directory, or no
    directory at all), reconciliation ends with the file-not-found error
    of consistent discovery instead of creating the role. *)
Theorem C5_consistent_absent_role_fails (now : Z) :
  loadOrCreateRoles FileData process tuf_default_snapshot_meta tuf_default_meta
    ROLES_MODEL (Some ∅) true now
  = Err (FileNotFoundError "(\d+)\.targets\.json") /\
  loadOrCreateRoles FileData process tuf_default_snapshot_meta tuf_default_meta
    ROLES_MODEL None true now
  = Err (FileNotFoundError "(\d+)\.targets\.json").
Proof. split; vm_compute; reflexivity. Qed.

(** In simple mode the same absence creates the role. *)
Lemma simple_absent_role_created (now : Z) :
  exists snapshot,
    reconcile None false now
    = Ok [("timestamp", fresh timestampRoleFac now);
          ("snapshot", snapshot);
          ("targets", fresh targetsRoleFac now)].
Proof. eexists. vm_compute. reflexivity. Qed.

Lemma first_two_shape (repoRoot : option (gmap string FileData)) (now : Z)
    (rolesDict : PyDict.t OurRole) :
  first_two repoRoot now = Ok rolesDict ->
  exists timestamp snapshot,
    rolesDict = [("timestamp", timestamp); ("snapshot", snapshot)].
Proof.
  unfold loadTimestampAndSnapshot. cbn [getitem PyDict.get ROLES_MODEL].
  intros H. cbn in H.
  bind_ok H as p1 E1. destruct p1 as [ts l1].
  bind_ok H as ref E2. bind_ok H as p2 E3. destruct p2 as [sn l2].
  bind_ok H as sn' E4.
  injection H as <-. eauto.
Qed.

Lemma reconcile_unfold (repoRoot : option (gmap string FileData))
    (isConsistent : bool) (now : Z) :
  reconcile repoRoot isConsistent now =
  (rolesDict ← first_two repoRoot now;
   snapshot ← getitem "snapshot" rolesDict;
   signedMetadataFiles ← get_meta (role snapshot);
   st ← remaining repoRoot isConsistent now signedMetadataFiles
           (rolesDict, ["targets"]) "targets";
   Ok (fst st)).
Proof.
  unfold loadOrCreateRoles.
  destruct (first_two repoRoot now) as [rolesDict|e] eqn:E; [| reflexivity].
  destruct (first_two_shape _ _ _ E) as (ts & sn & ->).
  cbn [mbind result_bind].
  change (rolesStillToLoad ROLES_MODEL [("timestamp", ts); ("snapshot", sn)])
    with ["targets"].
  change (sorted_strings ["targets"]) with ["targets"].
  cbn [getitem PyDict.get String.eqb Ascii.eqb Bool.eqb]. cbn [mbind result_bind].
  destruct (get_meta (role sn)) as [meta|e]; [| reflexivity].
  cbn [mbind result_bind forM].
  destruct (remaining repoRoot isConsistent now meta _ "targets") as [[rd rest]|e] eqn:Er;
    [| reflexivity].
  cbn [mbind result_bind fst].
  unfold loadRemainingRole in Er. cbn [getitem PyDict.get ROLES_MODEL] in Er.
  cbn in Er. bind_ok Er as vs E1. bind_ok Er as loaded E2.
  by injection Er as <- <-.
Qed.

Lemma remaining_targets (repoRoot : option (gmap string FileData))
    (isConsistent : bool) (now : Z) (meta : PyDict.t MetaFile)
    (rolesDict : PyDict.t OurRole) :
  remaining repoRoot isConsistent now meta (rolesDict, ["targets"]) "targets" =
  (versionsFromFileNames ←
     discover targetsRoleFac (PyDict.keys meta)
       (isRoleConsistent targetsRoleFac isConsistent);
   loaded ←
     match versionsFromFileNames with
     | [] => Ok (createEmpty tuf_default_snapshot_meta tuf_default_meta
                   targetsRoleFac now)
     | [(expectedVersionFromFileName, fileName)] =>
       metaFile ← getitem fileName meta;
       match expectedVersionFromFileName with
       | Some v =>
         if negb (Z.eqb (mf_version metaFile) v)
         then Err (FileNameVersionMismatch fileName v (mf_version metaFile))
         else Ok ()
       | None => Ok ()
       end;;
       match repoRoot with
       | Some d =>
         RolesStrategy_loadFromFile FileData process targetsRoleFac d fileName
           (Some (mf_version metaFile))
       | None => Err TypeError
       end
     | _ => Err (NotUniqueMetadataFile "targets" versionsFromFileNames)
     end;
   Ok (PyDict.set "targets" loaded rolesDict, [])).
Proof. reflexivity. Qed.

Lemma remaining_is_targets (rn : string) (fac_ : RoleFactory) :
  PyDict.get rn ROLES_MODEL = Some fac_ ->
  rn <> "timestamp" -> rn <> "snapshot" ->
  rn = "targets" /\ fac_ = targetsRoleFac.
Proof.
  unfold ROLES_MODEL. cbn [RolesModel fold_left PyDict.set PyDict.get name
    targetsRoleFac snapshotRoleFac timestampRoleFac].
  change (PyDict.get rn
            [("targets", targetsRoleFac); ("snapshot", snapshotRoleFac);
             ("timestamp", timestampRoleFac)] = Some fac_ ->
          rn <> "timestamp" -> rn <> "snapshot" ->
          rn = "targets" /\ fac_ = targetsRoleFac).
  cbn [PyDict.get].
  destruct (String.eqb_spec rn "targets") as [-> | _]; [by intros [= <-] |].
  destruct (String.eqb_spec rn "snapshot") as [-> | _]; [congruence |].
  destruct (String.eqb_spec rn "timestamp") as [-> | _]; [congruence | discriminate].
Qed.

(** Claim C1.  When reconciliation succeeds and a candidate file was found
    for a remaining role, the version recorded for that file name in the
    Snapshot, the version inside the loaded payload and, where the file
    name encodes one, the version of the file name are all equal.  When the
    file-name version differs from the recorded one, or the payload version
    differs from the recorded one, reconciliation ends with the
    corresponding version error. *)
Theorem C1_versions_must_agree (repoRoot : gmap string FileData)
    (isConsistent : bool) (now : Z) :
  (forall roles rn fac_ snapshot meta fromFileName fileName,
     reconcile (Some repoRoot) isConsistent now = Ok roles ->
     PyDict.get rn ROLES_MODEL = Some fac_ ->
     rn <> "timestamp" -> rn <> "snapshot" ->
     PyDict.get "snapshot" roles = Some snapshot ->
     get_meta (role snapshot) = Ok meta ->
     discover fac_ (PyDict.keys meta) (isRoleConsistent fac_ isConsistent)
       = Ok [(fromFileName, fileName)] ->
     exists recorded data loaded,
       PyDict.get fileName meta = Some recorded /\
       repoRoot !! fileName = Some data /\
       process data = Ok (role loaded) /\
       PyDict.get (name fac_) roles = Some loaded /\
       version loaded = mf_version recorded /\
       (forall v, fromFileName = Some v -> v = mf_version recorded)) /\
  (forall rolesDict snapshot meta fromFileName fileName recorded,
     first_two (Some repoRoot) now = Ok rolesDict ->
     PyDict.get "snapshot" rolesDict = Some snapshot ->
     get_meta (role snapshot) = Ok meta ->
     discover targetsRoleFac (PyDict.keys meta)
       (isRoleConsistent targetsRoleFac isConsistent)
       = Ok [(fromFileName, fileName)] ->
     PyDict.get fileName meta = Some recorded ->
     (forall v, fromFileName = Some v -> v <> mf_version recorded ->
        reconcile (Some repoRoot) isConsistent now
        = Err (FileNameVersionMismatch fileName v (mf_version recorded))) /\
     (forall data payload,
        (forall v, fromFileName = Some v -> v = mf_version recorded) ->
        repoRoot !! fileName = Some data ->
        process data = Ok payload ->
        signed_version (signed payload) <> mf_version recorded ->
        reconcile (Some repoRoot) isConsistent now
        = Err (VersionWithinFileMismatch "targets" (mf_version recorded)
                 (signed_version (signed payload))))).
Proof.
  split.
  - intros roles rn fac_ snapshot meta fromFileName fileName Hok Hfac Hts Hsn Hget Hmeta Hdisc.
    destruct (remaining_is_targets _ _ Hfac Hts Hsn) as [-> ->].
    rewrite reconcile_unfold in Hok.
    bind_ok Hok as rolesDict Hfirst.
    destruct (first_two_shape _ _ _ Hfirst) as (ts & sn & ->).
    bind_ok Hok as sn0 Hsn0. injection Hsn0 as <-.
    bind_ok Hok as meta0 Hmeta0.
    bind_ok Hok as st Hst. injection Hok as <-.
    rewrite remaining_targets in Hst.
    bind_ok Hst as vs Hvs. bind_ok Hst as loaded Hloaded. injection Hst as <-.
    cbn [fst PyDict.set PyDict.get String.eqb Ascii.eqb Bool.eqb] in Hget.
    injection Hget as <-.
    rewrite Hmeta in Hmeta0. injection Hmeta0 as <-.
    rewrite Hdisc in Hvs. injection Hvs as <-.
    bind_ok Hloaded as recorded Hrec0.
    unfold getitem in Hrec0.
    destruct (PyDict.get fileName meta) as [recorded'|] eqn:Hrec; [| discriminate].
    injection Hrec0 as ->.
    bind_ok Hloaded as u Hcheck.
    unfold RolesStrategy_loadFromFile, RolePersister_loadFromFile in Hloaded.
    destruct (repoRoot !! fileName) as [data|] eqn:Hdata; [| discriminate].
    unfold RolePersister_loadFromData in Hloaded.
    bind_ok Hloaded as payload Hproc.
    destruct (negb (Z.eqb (version (RoleFactory_fromDict targetsRoleFac payload))
                          (mf_version recorded))) eqn:Hv; [discriminate |].
    injection Hloaded as <-.
    apply negb_false_iff, Z.eqb_eq in Hv.
    exists recorded, data, (RoleFactory_fromDict targetsRoleFac payload).
    repeat split; try assumption; try reflexivity.
    intros v ->.
    destruct (negb (Z.eqb (mf_version recorded) v)) eqn:Hn; [discriminate Hcheck |].
    apply negb_false_iff, Z.eqb_eq in Hn. congruence.
  - intros rolesDict snapshot meta fromFileName fileName recorded
      Hfirst Hget Hmeta Hdisc Hrec.
    assert (reconcile (Some repoRoot) isConsistent now =
            (match fromFileName with
             | Some v =>
               if negb (Z.eqb (mf_version recorded) v)
               then Err (FileNameVersionMismatch fileName v (mf_version recorded))
               else Ok ()
             | None => Ok ()
             end;;
             loaded ← RolesStrategy_loadFromFile FileData process targetsRoleFac
                        repoRoot fileName (Some (mf_version recorded));
             Ok (PyDict.set "targets" loaded rolesDict))) as ->.
    { rewrite reconcile_unfold, Hfirst. cbn [mbind result_bind].
      unfold getitem. rewrite Hget. cbn [mbind result_bind].
      rewrite Hmeta. cbn [mbind result_bind].
      rewrite remaining_targets, Hdisc. cbn [mbind result_bind].
      unfold getitem. rewrite Hrec. cbn [mbind result_bind].
      destruct fromFileName as [v|]; cbn [mbind result_bind].
      - destruct (negb _); [reflexivity |]. cbn [mbind result_bind].
        by destruct (RolesStrategy_loadFromFile _ _ _ _ _ _).
      - by destruct (RolesStrategy_loadFromFile _ _ _ _ _ _). }
    split.
    + intros v -> Hne.
      assert (Z.eqb (mf_version recorded) v = false) as ->
        by (apply Z.eqb_neq; congruence).
      reflexivity.
    + intros data payload Hagree Hdata Hproc Hne.
      assert (match fromFileName with
              | Some v =>
                if negb (Z.eqb (mf_version recorded) v)
                then Err (FileNameVersionMismatch fileName v (mf_version recorded))
                else Ok ()
              | None => Ok ()
              end = Ok ()) as ->.
      { destruct fromFileName as [v|]; [| reflexivity].
        rewrite (Hagree v eq_refl), Z.eqb_refl. reflexivity. }
      cbn [mbind result_bind].
      unfold RolesStrategy_loadFromFile, RolePersister_loadFromFile.
      rewrite Hdata. unfold RolePersister_loadFromData. rewrite Hproc.
      cbn [mbind result_bind].
      change (version (RoleFactory_fromDict targetsRoleFac payload))
        with (signed_version (signed payload)).
      assert (Z.eqb (signed_version (signed payload)) (mf_version recorded) = false)
        as -> by (by apply Z.eqb_neq).
      reflexivity.
Qed.

End Reconcile.

(** ** The publish cascade *)

Section Publish.
Variable FileData : Type.
Variable create_signature : Key -> Signed -> string.

Local Abbreviation bind_metadata := (bindMetadata FileData create_signature).

Lemma bindMetadata_step_excluded (self : RepoBuilder FileData) (oR : OurRole) :
  isinstance oR EXCLUDED_FROM_SNAPSHOT = true ->
  bindMetadata_step FileData self oR = Ok self.
Proof. intros H. unfold bindMetadata_step. by rewrite H. Qed.

(** Claim C9, as amended.  For a builder holding the three records that
    reconciliation produces, after [bindMetadata] the Snapshot's mapping
    maps the file name of the one record that is neither a Snapshot nor a
    Timestamp, the Targets record, to that record's version; every other
    file name has the entry it had before, or none if it had none.  The
    Snapshot is signed on the way. *)
Theorem C9_bindMetadata_entries (self : RepoBuilder FileData)
    (timestamp snapshot targets : OurRole) (meta : PyDict.t MetaFile)
    (key : Key) (isConsistent : bool) :
  RepoSeed_isConsistent (seed _ self) = Ok isConsistent ->
  ourRoles _ self
    = [("timestamp", timestamp); ("snapshot", snapshot); ("targets", targets)] ->
  isinstance timestamp EXCLUDED_FROM_SNAPSHOT = true ->
  get_meta (role snapshot) = Ok meta ->
  isinstance targets EXCLUDED_FROM_SNAPSHOT = false ->
  keys _ self !! OurRole_name snapshot = Some key ->
  let fileName := fileNameForRole (fac targets) (version targets) isConsistent in
  exists self' snapshot' meta',
    bind_metadata self = Ok self' /\
    ourRoles _ self'
      = [("timestamp", timestamp); ("snapshot", snapshot'); ("targets", targets)] /\
    get_meta (role snapshot') = Ok meta' /\
    PyDict.get fileName meta' = Some {| mf_version := version targets |} /\
    (forall other, other <> fileName -> PyDict.get other meta' = PyDict.get other meta) /\
    version snapshot' = version snapshot + 1 /\
    needsSigning snapshot' = false.
Proof.
  intros Hc Hroles Hts Hmeta Htg Hkey fileName.
  destruct self as [sd ks roles uf]. cbn [seed ourRoles keys] in *. subst roles.
  assert (isinstance snapshot EXCLUDED_FROM_SNAPSHOT = true) as Hsn.
  { unfold isinstance, get_meta in *. by destruct (fields (signed (role snapshot))). }
  set (listed := with_role (with_fields
         (SnapshotFields (PyDict.set fileName {| mf_version := version targets |} meta))
         (role snapshot)) snapshot).
  exists {| seed := sd; keys := ks;
            ourRoles := [("timestamp", timestamp);
                         ("snapshot", fst (OurRole_sign create_signature key
                                             (set_needsSigning true listed)));
                         ("targets", targets)];
            userFiles := uf |},
    (fst (OurRole_sign create_signature key (set_needsSigning true listed))),
    (PyDict.set fileName {| mf_version := version targets |} meta).
  split.
  { unfold bindMetadata. cbn [ourRoles PyDict.values map snd forM].
    rewrite (bindMetadata_step_excluded _ _ Hts). cbn [mbind result_bind].
    rewrite (bindMetadata_step_excluded _ _ Hsn). cbn [mbind result_bind].
    unfold bindMetadata_step. rewrite Htg. cbn [negb seed]. rewrite Hc.
    cbn [mbind result_bind]. unfold RepoBuilder_snapshot. cbn [ourRoles].
    cbn [getitem PyDict.get String.eqb Ascii.eqb Bool.eqb mbind result_bind].
    rewrite Hmeta. cbn [mbind result_bind].
    unfold mark_dirty, put_role, with_ourRoles.
    cbn [ourRoles seed keys userFiles getitem PyDict.get PyDict.set String.eqb
         Ascii.eqb Bool.eqb mbind result_bind].
    unfold sign_role, put_role, with_ourRoles.
    cbn [ourRoles seed keys userFiles getitem PyDict.get PyDict.set String.eqb
         Ascii.eqb Bool.eqb mbind result_bind].
    unfold KeyManager_sign.
    set (dirty := set_needsSigning true _).
    assert (dirty = set_needsSigning true listed) as Hx by reflexivity.
    clearbody dirty. subst dirty.
    assert (OurRole_name (set_needsSigning true listed) = OurRole_name snapshot) as ->.
    { unfold set_needsSigning, listed. by destruct (negb _). }
    rewrite Hkey. cbn [mbind result_bind].
    by destruct (OurRole_sign create_signature key (set_needsSigning true listed)). }
  split; [reflexivity |].
  assert (needsSigning (set_needsSigning true listed) = true) as Hd.
  { unfold set_needsSigning, needsSigning.
    destruct (_needsSigning listed) eqn:E; cbn; [exact E | reflexivity]. }
  unfold OurRole_sign. rewrite Hd. cbn [fst].
  assert (forall r, set_needsSigning false (with_role
            (Metadata_sign create_signature key (role (bumpVersion r)))
            (bumpVersion r)) = 
          {| fac := fac r; role := Metadata_sign create_signature key
                                     (with_signed_version (version r + 1) (role r));
             _needsSigning := false; _needsSaving := true |}) as Hsigned.
  { intros r. unfold bumpVersion, set__version, set_needsSigning, with_role.
    destruct r as [f m [|] v]; reflexivity. }
  rewrite Hsigned. cbn [set_needsSaving fac role _needsSigning _needsSaving].
  assert (role (set_needsSigning true listed) = role listed
          /\ version (set_needsSigning true listed) = version listed) as [Hr Hv].
  { unfold set_needsSigning. by destruct (negb _). }
  rewrite Hr, Hv.
  repeat split.
  - apply PyDict_get_set_eq.
  - intros other Hne. by apply PyDict_get_set_ne.
Qed.
End Publish.

(** ** Saving and reconciling again *)

Section RoundTrip.
Variable FileData : Type.
Variable unprocess : Metadata -> FileData.
Variable process : FileData -> result Metadata.
Variable data_length : FileData -> Z.
Variable sha256 : FileData -> string.
Variable create_signature : Key -> Signed -> string.
Variable tuf_default_snapshot_meta : MetaFile.
Variable tuf_default_meta : PyDict.t MetaFile.

Local Abbreviation init :=
  (RepoBuilder_init FileData process tuf_default_snapshot_meta tuf_default_meta).
Local Abbreviation reconcile :=
  (loadOrCreateRoles FileData process tuf_default_snapshot_meta tuf_default_meta
     ROLES_MODEL).
Local Abbreviation cascade :=
  (makeSnapshot FileData data_length sha256 create_signature).
Local Abbreviation save := (RepoBuilder_save FileData unprocess).

Hypothesis process_unprocess : forall m, process (unprocess m) = Ok m.

Lemma saveFiles_step_simple (self : RepoBuilder FileData)
    (d : gmap string FileData) (kv : string * FileData) :
  RepoSeed_isConsistent (seed _ self) = Ok false ->
  saveFiles_step FileData self d kv = Ok (<[fst kv := snd kv]> d).
Proof.
  intros Hc. unfold saveFiles_step, getPrefixForUserFile.
  unfold RepoSeed_isConsistent in Hc. by rewrite Hc.
Qed.

Lemma saveFiles_simple (self : RepoBuilder FileData) (d : gmap string FileData) :
  RepoSeed_isConsistent (seed _ self) = Ok false ->
  exists d',
    saveFiles FileData d self = Ok d' /\
    forall k, ~ In k (PyDict.keys (userFiles _ self)) -> d' !! k = d !! k.
Proof.
  intros Hc. unfold saveFiles. revert d.
  induction (userFiles _ self) as [|kv files IH]; intros d.
  - exists d. by split.
  - cbn [forM]. rewrite (saveFiles_step_simple _ _ _ Hc).
    cbn [mbind result_bind].
    destruct (IH (<[fst kv := snd kv]> d)) as (d' & Hd' & Hkeep).
    exists d'. split; [exact Hd' |].
    intros k Hk. cbn [PyDict.keys map In] in Hk.
    rewrite Hkeep by tauto.
    apply lookup_insert_ne. tauto.
Qed.

(** Saving a builder whose three records are signed and pinned to each
    other, then reconciling the directory in simple mode, gives back the
    three payloads as they were written. *)
Lemma save_then_reconcile (self : RepoBuilder FileData)
    (timestamp snapshot targets : OurRole) (ref pin : MetaFile)
    (meta : PyDict.t MetaFile) (repoRoot : gmap string FileData) (later : Z) :
  RepoSeed_isConsistent (seed _ self) = Ok false ->
  ourRoles _ self
    = [("timestamp", timestamp); ("snapshot", snapshot); ("targets", targets)] ->
  fac timestamp = timestampRoleFac ->
  fac snapshot = snapshotRoleFac ->
  fac targets = targetsRoleFac ->
  Forall (fun r => needsSigning r = false /\ needsSaving r = true)
    [timestamp; snapshot; targets] ->
  get_snapshot_meta (role timestamp) = Ok ref ->
  mf_version ref = version snapshot ->
  get_meta (role snapshot) = Ok meta ->
  PyDict.get "targets.json" meta = Some pin ->
  mf_version pin = version targets ->
  Forall (fun k => ~ In k (PyDict.keys (userFiles _ self))) metadata_names ->
  exists d self',
    save repoRoot self = Ok (d, self') /\
    reconcile (Some d) false later
    = Ok [("timestamp", OurRole_init timestampRoleFac (role timestamp));
          ("snapshot", OurRole_init snapshotRoleFac (role snapshot));
          ("targets", OurRole_init targetsRoleFac (role targets))].
Proof.
  intros Hc Hroles Hfts Hfsn Hftg Hflags Href Hrefv Hmeta Hpin Hpinv Huf.
  destruct self as [sd ks roles uf]. cbn [seed ourRoles userFiles] in *. subst roles.
  destruct timestamp as [fts mts nsts nvts], snapshot as [fsn msn nssn nvsn],
    targets as [ftg mtg nstg nvtg].
  cbn [fac role] in *. subst fts fsn ftg.
  apply Forall_cons in Hflags as [[Hs1 Hv1] Hflags].
  apply Forall_cons in Hflags as [[Hs2 Hv2] Hflags].
  apply Forall_cons in Hflags as [[Hs3 Hv3] _].
  cbn in Hs1, Hv1, Hs2, Hv2, Hs3, Hv3. subst.
  apply Forall_cons in Huf as [Hu1 Huf].
  apply Forall_cons in Huf as [Hu2 Huf].
  apply Forall_cons in Huf as [Hu3 _].
  set (self3 := {| seed := sd; keys := ks;
                   ourRoles := [("timestamp", set_needsSaving false
                                   {| fac := timestampRoleFac; role := mts;
                                      _needsSigning := false; _needsSaving := true |});
                                ("snapshot", set_needsSaving false
                                   {| fac := snapshotRoleFac; role := msn;
                                      _needsSigning := false; _needsSaving := true |});
                                ("targets", set_needsSaving false
                                   {| fac := targetsRoleFac; role := mtg;
                                      _needsSigning := false; _needsSaving := true |})];
                   userFiles := uf |}).
  assert (saveMeta FileData unprocess repoRoot
            {| seed := sd; keys := ks;
               ourRoles := [("timestamp", {| fac := timestampRoleFac; role := mts;
                                             _needsSigning := false; _needsSaving := true |});
                            ("snapshot", {| fac := snapshotRoleFac; role := msn;
                                            _needsSigning := false; _needsSaving := true |});
                            ("targets", {| fac := targetsRoleFac; role := mtg;
                                           _needsSigning := false; _needsSaving := true |})];
               userFiles := uf |}
          = Ok (<["targets.json" := unprocess mtg]>
                  (<["snapshot.json" := unprocess msn]>
                     (<["timestamp.json" := unprocess mts]> repoRoot)), self3)) as Hsave.
  { subst self3. clear -Hc.
    destruct sd as [[rfac [[rv rexp rfields] rsigs] rns rnsv] skeys].
    cbn in Hc. destruct rfields as [c| | |]; try discriminate Hc.
    injection Hc as ->. reflexivity. }
  destruct (saveFiles_simple self3
              (<["targets.json" := unprocess mtg]>
                 (<["snapshot.json" := unprocess msn]>
                    (<["timestamp.json" := unprocess mts]> repoRoot))) Hc)
    as (d & Hfiles & Hkeep).
  exists d, self3. split.
  { unfold RepoBuilder_save. rewrite Hsave. cbn [mbind result_bind].
    rewrite Hfiles. reflexivity. }
  assert (d !! "timestamp.json" = Some (unprocess mts)) as Hl1.
  { rewrite Hkeep by exact Hu1.
    rewrite !lookup_insert_ne by done. apply lookup_insert_eq. }
  assert (d !! "snapshot.json" = Some (unprocess msn)) as Hl2.
  { rewrite Hkeep by exact Hu2.
    rewrite lookup_insert_ne by done. apply lookup_insert_eq. }
  assert (d !! "targets.json" = Some (unprocess mtg)) as Hl3.
  { rewrite Hkeep by exact Hu3. apply lookup_insert_eq. }
  cbn [version _version role] in Hrefv, Hpinv.
  assert (forall f fn m e,
            d !! fn = Some (unprocess m) ->
            signed_version (signed m) = e ->
            RolePersister_loadFromFile FileData process f d fn (Some e)
            = Ok (OurRole_init f m)) as Hload.
  { intros f fn m e Hfn He. unfold RolePersister_loadFromFile. rewrite Hfn.
    unfold RolePersister_loadFromData. rewrite process_unprocess.
    cbn [mbind result_bind]. unfold RoleFactory_fromDict.
    change (version (OurRole_init f m)) with (signed_version (signed m)).
    rewrite He, Z.eqb_refl. reflexivity. }
  assert (RolesStrategy_loadOrCreate FileData process tuf_default_snapshot_meta
            tuf_default_meta timestampRoleFac (Some d) false None later
          = Ok (OurRole_init timestampRoleFac mts, true)) as Hts.
  { unfold RolesStrategy_loadOrCreate, RolePersister_loadOrCreate,
      RolePersister_loadFromRepo.
    change (OurRoleLayout.discoverBlindFromRepo fileExtension timestampRoleFac d
              (isRoleConsistent timestampRoleFac false))
      with (Ok (@None Z, "timestamp.json")).
    cbn [mbind result_bind isRoleConsistent andb].
    unfold RolePersister_loadFromFile. rewrite Hl1.
    unfold RolePersister_loadFromData. rewrite process_unprocess. reflexivity. }
  assert (RolesStrategy_loadOrCreate FileData process tuf_default_snapshot_meta
            tuf_default_meta snapshotRoleFac (Some d) false
            (Some (mf_version ref)) later
          = Ok (OurRole_init snapshotRoleFac msn, true)) as Hsn.
  { unfold RolesStrategy_loadOrCreate, RolePersister_loadOrCreate,
      RolePersister_loadFromRepo.
    change (RolePersister_getFileName snapshotRoleFac (mf_version ref)
              (isRoleConsistent snapshotRoleFac false)) with "snapshot.json".
    by rewrite (Hload snapshotRoleFac "snapshot.json" msn (mf_version ref) Hl2). }
  unfold loadOrCreateRoles, loadTimestampAndSnapshot.
  change (getitem "timestamp" ROLES_MODEL) with (Ok timestampRoleFac).
  change (getitem "snapshot" ROLES_MODEL) with (Ok snapshotRoleFac).
  cbn [mbind result_bind]. rewrite Hts. cbn [mbind result_bind role OurRole_init].
  rewrite Href. cbn [mbind result_bind]. rewrite Hsn.
  cbn [mbind result_bind PyDict.set String.eqb Ascii.eqb Bool.eqb getitem PyDict.get
       role OurRole_init].
  rewrite Hmeta. cbn [mbind result_bind].
  change (rolesStillToLoad ROLES_MODEL _) with ["targets"].
  change (sorted_strings ["targets"]) with ["targets"].
  cbn [forM]. unfold loadRemainingRole.
  change (getitem "targets" ROLES_MODEL) with (Ok targetsRoleFac).
  cbn [mbind result_bind].
  unfold RolePersister_discoverVersionsFromFileNames,
    OurRoleLayout.discoverVersionsFromFileNames.
  change (str_contains "*" (name targetsRoleFac)) with false.
  change (isRoleConsistent targetsRoleFac false) with false.
  cbv iota. unfold OurRoleLayout.discoverSipleVersionsFromFileNames.
  change (OurRoleLayout.getSimpleFileName fileExtension (name targetsRoleFac))
    with "targets.json".
  rewrite (PyDict_get_keys _ _ _ Hpin). cbn [mbind result_bind].
  unfold getitem. rewrite Hpin. cbn [mbind result_bind].
  unfold RolesStrategy_loadFromFile.
  rewrite (Hload targetsRoleFac "targets.json" mtg (mf_version pin) Hl3)
    by (symmetry; exact Hpinv).
  reflexivity.
Qed.

(** A repository built from scratch in simple mode, the mode
    [RepoSeed.make] uses unless told otherwise, with the one user file
    ["a.txt"], published, saved and reconciled from the saved directory:
    the reconciled Targets lists ["a.txt"] with the SHA-256 digest of its
    content, and the reconciled Snapshot and Timestamp have the versions
    that were written. *)
Lemma roundtrip_simple_mode (seed_ : RepoSeed) (keys_ : gmap string Key)
    (kTargets kSnapshot kTimestamp : Key) (data : FileData)
    (repoRoot : gmap string FileData) (now later : Z) :
  RepoSeed_isConsistent seed_ = Ok false ->
  keys_ !! "targets" = Some kTargets ->
  keys_ !! "snapshot" = Some kSnapshot ->
  keys_ !! "timestamp" = Some kTimestamp ->
  exists b0 b1 b2 d b3,
    init seed_ keys_ None now = Ok b0 /\
    cascade (set_userFile FileData "a.txt" data b0) = Ok b1 /\
    save repoRoot b1 = Ok (d, b2) /\
    init seed_ keys_ (Some d) later = Ok b3 /\
    (exists targets files targetFile,
       RepoBuilder_targets FileData b3 = Ok targets /\
       get_targets (role targets) = Ok files /\
       PyDict.get "a.txt" files = Some targetFile /\
       PyDict.get "sha256" (tf_hashes targetFile) = Some (sha256 data)) /\
    (exists written loaded,
       RepoBuilder_snapshot FileData b1 = Ok written /\
       RepoBuilder_snapshot FileData b3 = Ok loaded /\
       version loaded = version written) /\
    (exists written loaded,
       RepoBuilder_timestamp FileData b1 = Ok written /\
       RepoBuilder_timestamp FileData b3 = Ok loaded /\
       version loaded = version written).
Proof.
  intros Hc Ht Hs Hts.
  assert (exists b0 ts sn tg,
            init seed_ keys_ None now = Ok b0 /\
            cascade (set_userFile FileData "a.txt" data b0)
            = Ok {| seed := seed_; keys := keys_;
                    ourRoles := [("timestamp", ts); ("snapshot", sn); ("targets", tg)];
                    userFiles := [("a.txt", data)] |} /\
            (fac ts = timestampRoleFac /\ fac sn = snapshotRoleFac /\
             fac tg = targetsRoleFac) /\
            Forall (fun r => needsSigning r = false /\ needsSaving r = true)
              [ts; sn; tg] /\
            get_snapshot_meta (role ts) = Ok {| mf_version := version sn |} /\
            get_meta (role sn) = Ok [("targets.json", {| mf_version := version tg |})] /\
            get_targets (role tg)
            = Ok [("a.txt", TargetFile_from_data FileData data_length sha256 "a.txt" data)])
    as (b0 & ts & sn & tg & Hb0 & Hb1 & (Hf1 & Hf2 & Hf3) & Hflags & Href & Hmeta & Hfiles).
  { clear process_unprocess.
    destruct seed_ as [[rfac [[rv rexp rfields] rsigs] rns rnsv] skeys].
    cbn in Hc. destruct rfields as [c| | |]; try discriminate Hc.
    injection Hc as ->.
    vm_compute in Ht, Hs, Hts.
    do 4 eexists.
    split; [vm_compute; reflexivity |].
    split.
    { vm_compute. rewrite Ht. vm_compute. rewrite Hs. vm_compute. rewrite Hts.
      reflexivity. }
    repeat split; repeat constructor. }
  destruct (save_then_reconcile
              {| seed := seed_; keys := keys_;
                 ourRoles := [("timestamp", ts); ("snapshot", sn); ("targets", tg)];
                 userFiles := [("a.txt", data)] |}
              ts sn tg _ _ _ repoRoot later
              Hc eq_refl Hf1 Hf2 Hf3 Hflags Href eq_refl Hmeta eq_refl eq_refl)
    as (d & b2 & Hsave & Hrec).
  { repeat constructor; cbn; intros [H|[]]; discriminate H. }
  exists b0,
    {| seed := seed_; keys := keys_;
       ourRoles := [("timestamp", ts); ("snapshot", sn); ("targets", tg)];
       userFiles := [("a.txt", data)] |}, b2, d.
  eexists. split; [exact Hb0 |]. split; [exact Hb1 |]. split; [exact Hsave |].
  split.
  { unfold RepoBuilder_init, RepoBuilder_load. cbn [seed]. rewrite Hc.
    cbn [mbind result_bind]. unfold STRATEGY_model. rewrite Hrec. reflexivity. }
  split.
  { do 3 eexists. split; [reflexivity |]. split; [exact Hfiles |].
    split; reflexivity. }
  split; do 2 eexists; (split; [reflexivity |]); split; reflexivity.
Qed.

(** Claim C3, in each of the two modes.  With a seed in simple mode the
    round trip holds: a repository built from scratch with the user file
    ["a.txt"], published, saved and reconciled from the saved directory
    lists ["a.txt"] with the SHA-256 digest of its content, and the
    reconciled Snapshot and Timestamp have the versions that were written.
    With a seed in consistent mode the code departs from the claim at its
    first step: building the repository from scratch, without a directory
    or from an empty one, ends with the file-not-found error of consistent
    discovery, so nothing is published, saved or reconciled. *)
Theorem C3_roundtrip_by_mode (seed_ : RepoSeed) (keys_ : gmap string Key)
    (kTargets kSnapshot kTimestamp : Key) (data : FileData)
    (repoRoot : gmap string FileData) (now later : Z) :
  keys_ !! "targets" = Some kTargets ->
  keys_ !! "snapshot" = Some kSnapshot ->
  keys_ !! "timestamp" = Some kTimestamp ->
  (RepoSeed_isConsistent seed_ = Ok false ->
   exists b0 b1 b2 d b3,
     RepoBuilder_init FileData process tuf_default_snapshot_meta tuf_default_meta
       seed_ keys_ None now = Ok b0 /\
     makeSnapshot FileData data_length sha256 create_signature
       (set_userFile FileData "a.txt" data b0) = Ok b1 /\
     RepoBuilder_save FileData unprocess repoRoot b1 = Ok (d, b2) /\
     RepoBuilder_init FileData process tuf_default_snapshot_meta tuf_default_meta
       seed_ keys_ (Some d) later = Ok b3 /\
     (exists targets files targetFile,
        RepoBuilder_targets FileData b3 = Ok targets /\
        get_targets (role targets) = Ok files /\
        PyDict.get "a.txt" files = Some targetFile /\
        PyDict.get "sha256" (tf_hashes targetFile) = Some (sha256 data)) /\
     (exists written loaded,
        RepoBuilder_snapshot FileData b1 = Ok written /\
        RepoBuilder_snapshot FileData b3 = Ok loaded /\
        version loaded = version written) /\
     (exists written loaded,
        RepoBuilder_timestamp FileData b1 = Ok written /\
        RepoBuilder_timestamp FileData b3 = Ok loaded /\
        version loaded = version written)) /\
  (RepoSeed_isConsistent seed_ = Ok true ->
   RepoBuilder_init FileData process tuf_default_snapshot_meta tuf_default_meta
     seed_ keys_ None now
   = Err (FileNotFoundError "(\d+)\.targets\.json") /\
   RepoBuilder_init FileData process tuf_default_snapshot_meta tuf_default_meta
     seed_ keys_ (Some ∅) now
   = Err (FileNotFoundError "(\d+)\.targets\.json")).
Proof.
  intros Ht Hs Hts. split; intros Hc.
  - exact (roundtrip_simple_mode seed_ keys_ kTargets kSnapshot kTimestamp data
             repoRoot now later Hc Ht Hs Hts).
  - unfold RepoBuilder_init, RepoBuilder_load. cbn [seed]. rewrite Hc.
    cbn [mbind result_bind]. unfold STRATEGY_model.
    assert (forall repoRoot',
              repoRoot' = None \/ repoRoot' = Some ∅ ->
              loadOrCreateRoles FileData process tuf_default_snapshot_meta
                tuf_default_meta ROLES_MODEL repoRoot' true now
              = Err (FileNotFoundError "(\d+)\.targets\.json")) as Hfail.
    { intros repoRoot' [-> | ->]; vm_compute; reflexivity. }
    rewrite (Hfail None) by (by left). rewrite (Hfail (Some ∅)) by (by right).
    by split.
Qed.

End RoundTrip.

(** ** The theorems at concrete inputs *)

Lemma C2_witness :
  needsSigning Demo.fresh_targets = true /\
  (snd (OurRole_sign Demo.create_signature Demo.the_key Demo.fresh_targets) = true /\
   version (fst (OurRole_sign Demo.create_signature Demo.the_key Demo.fresh_targets))
   = version Demo.fresh_targets + 1) /\
  needsSigning Demo.signed_targets = false /\
  OurRole_sign Demo.create_signature Demo.the_key Demo.signed_targets
  = (Demo.signed_targets, false).
Proof.
  split; [reflexivity |]. split.
  - split;
      apply (proj1 (C2_sign_bumps_version Demo.create_signature Demo.the_key
                      Demo.fresh_targets)); reflexivity.
  - split; [reflexivity |].
    apply (proj1 (proj2 (C2_sign_bumps_version Demo.create_signature Demo.the_key
                           Demo.signed_targets))).
    reflexivity.
Defined.

Lemma C6_witness :
  needsSaving Demo.fresh_targets = true /\
  needsSigning Demo.fresh_targets = true /\
  RolePersister_save Demo.FileData Demo.unprocess ∅ false Demo.fresh_targets
  = Err (RoleUnsigned "targets") /\
  needsSaving Demo.signed_targets = true /\
  needsSigning Demo.signed_targets = false /\
  exists d r,
    RolePersister_save Demo.FileData Demo.unprocess ∅ false Demo.signed_targets
    = Ok (d, r).
Proof.
  split; [reflexivity |]. split; [reflexivity |]. split.
  - apply (proj1 (C6_save_refuses_unsigned Demo.FileData Demo.unprocess ∅ false
                    Demo.fresh_targets eq_refl)).
    reflexivity.
  - split; [reflexivity |]. split; [reflexivity |].
    apply (proj2 (proj2 (C6_save_refuses_unsigned Demo.FileData Demo.unprocess ∅
                           false Demo.signed_targets eq_refl))).
    reflexivity.
Defined.

Lemma C7_witness :
  0 < version Demo.signed_targets /\
  set_version 0 Demo.signed_targets
  = Err (VersionDecrease (version Demo.signed_targets) 0) /\
  version Demo.signed_targets < 5 /\
  exists r,
    set_version 5 Demo.signed_targets = Ok r /\ version r = 5 /\
    needsSigning r = true.
Proof.
  split; [reflexivity |]. split.
  - apply (proj1 (C7_set_version Demo.signed_targets 0)). reflexivity.
  - split; [reflexivity |].
    apply (proj2 (C7_set_version Demo.signed_targets 5)). reflexivity.
Defined.

Lemma C8_witness :
  0 <= 12 /\ literal_text "targets" = true /\ literal_text "json" = true /\
  OurRoleLayout.discoverConsistentVersionsFromFileNames "json" targetsRoleFac
    ["12.targets.json"]
  = Ok [(12, "12.targets.json")].
Proof.
  split; [lia |]. split; [reflexivity |]. split; [reflexivity |].
  apply (C8_discover_name 12 "json" targetsRoleFac); [lia | reflexivity | reflexivity].
Defined.

Lemma C1_witness :
  loadOrCreateRoles Demo.FileData Demo.process Demo.tuf_default_snapshot_meta
    Demo.tuf_default_meta ROLES_MODEL (Some Demo.repo) false 0
  = Ok Demo.loaded_roles /\
  (exists recorded data loaded,
     PyDict.get "targets.json" Demo.listing = Some recorded /\
     Demo.repo !! "targets.json" = Some data /\
     Demo.process data = Ok (role loaded) /\
     PyDict.get "targets" Demo.loaded_roles = Some loaded /\
     version loaded = mf_version recorded /\
     (forall v, @None Z = Some v -> v = mf_version recorded)) /\
  loadOrCreateRoles Demo.FileData Demo.process Demo.tuf_default_snapshot_meta
    Demo.tuf_default_meta ROLES_MODEL (Some Demo.stale_repo) false 0
  = Err (VersionWithinFileMismatch "targets" 1 2).
Proof.
  split; [vm_compute; reflexivity |]. split.
  - apply (proj1 (C1_versions_must_agree Demo.FileData Demo.process
                    Demo.tuf_default_snapshot_meta Demo.tuf_default_meta
                    Demo.repo false 0)
             Demo.loaded_roles "targets" targetsRoleFac
             (OurRole_init snapshotRoleFac Demo.snapshot_md) Demo.listing
             None "targets.json");
      [vm_compute; reflexivity | reflexivity | discriminate | discriminate
      | reflexivity | reflexivity | vm_compute; reflexivity].
  - apply (proj2 (proj2 (C1_versions_must_agree Demo.FileData Demo.process
                    Demo.tuf_default_snapshot_meta Demo.tuf_default_meta
                    Demo.stale_repo false 0)
             [("timestamp", OurRole_init timestampRoleFac Demo.timestamp_md);
              ("snapshot", OurRole_init snapshotRoleFac Demo.snapshot_md)]
             (OurRole_init snapshotRoleFac Demo.snapshot_md) Demo.listing
             None "targets.json" {| mf_version := 1 |}
             ltac:(vm_compute; reflexivity) eq_refl eq_refl
             ltac:(vm_compute; reflexivity) eq_refl)
             (Demo.unprocess (Demo.metadata 2 (TargetsFields [])))
             (Demo.metadata 2 (TargetsFields [])));
      [discriminate | vm_compute; reflexivity | reflexivity | discriminate].
Defined.

Lemma C9_witness :
  RepoSeed_isConsistent (seed _ Demo.builder) = Ok false /\
  keys _ Demo.builder !! "snapshot" = Some Demo.the_key /\
  exists self' snapshot' meta',
    bindMetadata Demo.FileData Demo.create_signature Demo.builder = Ok self' /\
    ourRoles _ self'
    = [("timestamp", OurRole_init timestampRoleFac Demo.timestamp_md);
       ("snapshot", snapshot');
       ("targets", OurRole_init targetsRoleFac Demo.targets_md)] /\
    get_meta (role snapshot') = Ok meta' /\
    PyDict.get "targets.json" meta' = Some {| mf_version := 1 |} /\
    (forall other, other <> "targets.json" ->
       PyDict.get other meta' = PyDict.get other Demo.listing) /\
    version snapshot' = 1 + 1 /\
    needsSigning snapshot' = false.
Proof.
  split; [reflexivity |]. split; [vm_compute; reflexivity |].
  apply (C9_bindMetadata_entries Demo.FileData Demo.create_signature Demo.builder
           (OurRole_init timestampRoleFac Demo.timestamp_md)
           (OurRole_init snapshotRoleFac Demo.snapshot_md)
           (OurRole_init targetsRoleFac Demo.targets_md)
           Demo.listing Demo.the_key false);
    first [reflexivity | vm_compute; reflexivity].
Defined.

Lemma C3_witness :
  (forall m, Demo.process (Demo.unprocess m) = Ok m) /\
  Demo.the_keys !! "targets" = Some Demo.the_key /\
  (RepoSeed_isConsistent (Demo.the_seed false) = Ok false /\
   exists b0 b1 b2 d b3,
     RepoBuilder_init Demo.FileData Demo.process Demo.tuf_default_snapshot_meta
       Demo.tuf_default_meta (Demo.the_seed false) Demo.the_keys None 0 = Ok b0 /\
     makeSnapshot Demo.FileData Demo.data_length Demo.sha256 Demo.create_signature
       (set_userFile Demo.FileData "a.txt" (inr "hello") b0) = Ok b1 /\
     RepoBuilder_save Demo.FileData Demo.unprocess ∅ b1 = Ok (d, b2) /\
     RepoBuilder_init Demo.FileData Demo.process Demo.tuf_default_snapshot_meta
       Demo.tuf_default_meta (Demo.the_seed false) Demo.the_keys (Some d) 1 = Ok b3 /\
     (exists targets files targetFile,
        RepoBuilder_targets Demo.FileData b3 = Ok targets /\
        get_targets (role targets) = Ok files /\
        PyDict.get "a.txt" files = Some targetFile /\
        PyDict.get "sha256" (tf_hashes targetFile) = Some (Demo.sha256 (inr "hello"))) /\
     (exists written loaded,
        RepoBuilder_snapshot Demo.FileData b1 = Ok written /\
        RepoBuilder_snapshot Demo.FileData b3 = Ok loaded /\
        version loaded = version written) /\
     (exists written loaded,
        RepoBuilder_timestamp Demo.FileData b1 = Ok written /\
        RepoBuilder_timestamp Demo.FileData b3 = Ok loaded /\
        version loaded = version written)) /\
  (RepoSeed_isConsistent (Demo.the_seed true) = Ok true /\
   RepoBuilder_init Demo.FileData Demo.process Demo.tuf_default_snapshot_meta
     Demo.tuf_default_meta (Demo.the_seed true) Demo.the_keys None 0
   = Err (FileNotFoundError "(\d+)\.targets\.json")).
Proof.
  assert (forall n, In n ["targets"; "snapshot"; "timestamp"] ->
                    Demo.the_keys !! n = Some Demo.the_key) as Hk.
  { intros n [<- | [<- | [<- | []]]]; vm_compute; reflexivity. }
  split; [reflexivity |]. split; [apply Hk; cbn; tauto |]. split.
  - split; [reflexivity |].
    apply (proj1 (C3_roundtrip_by_mode Demo.FileData Demo.unprocess Demo.process
                    Demo.data_length Demo.sha256 Demo.create_signature
                    Demo.tuf_default_snapshot_meta Demo.tuf_default_meta
                    (fun m => eq_refl) (Demo.the_seed false) Demo.the_keys
                    Demo.the_key Demo.the_key Demo.the_key (inr "hello") ∅ 0 1
                    (Hk _ ltac:(cbn; tauto)) (Hk _ ltac:(cbn; tauto))
                    (Hk _ ltac:(cbn; tauto)))).
    reflexivity.
  - split; [reflexivity |].
    apply (proj2 (C3_roundtrip_by_mode Demo.FileData Demo.unprocess Demo.process
                    Demo.data_length Demo.sha256 Demo.create_signature
                    Demo.tuf_default_snapshot_meta Demo.tuf_default_meta
                    (fun m => eq_refl) (Demo.the_seed true) Demo.the_keys
                    Demo.the_key Demo.the_key Demo.the_key (inr "hello") ∅ 0 1
                    (Hk _ ltac:(cbn; tauto)) (Hk _ ltac:(cbn; tauto))
                    (Hk _ ltac:(cbn; tauto)))).
    reflexivity.
Defined.

(** ** Where the claims as first stated fail *)

(** Claim C4 as stated: reconciling an empty directory does not yield four
    records. *)
Lemma C4_counterexample :
  ~ exists roles,
      loadOrCreateRoles Demo.FileData Demo.process Demo.tuf_default_snapshot_meta
        Demo.tuf_default_meta ROLES_MODEL (Some ∅) false 0 = Ok roles /\
      length roles = 4%nat.
Proof.
  intros (roles & H & Hlen). vm_compute in H. injection H as <-.
  discriminate Hlen.
Qed.

(** Claim C8 as stated: discovery does not recover the version of every
    triple.  A negative version and a role name with a ["+"] both give a
    name that the pattern built from the same triple does not match. *)
Lemma C8_counterexample :
  OurRoleLayout.discoverConsistentVersionsFromFileNames "json" targetsRoleFac
    [OurRoleLayout.getConsistentFileName "json" "targets" (VInt (-1))]
  = Err (FileNotFoundError "(\d+)\.targets\.json") /\
  OurRoleLayout.discoverConsistentVersionsFromFileNames "json"
    (mkRoleFactory "a+b" Targets (7 * 24 * 3600) [rootRoleFac] true)
    [OurRoleLayout.getConsistentFileName "json" "a+b" (VInt 1)]
  = Err (FileNotFoundError "(\d+)\.a+b\.json").
Proof. split; vm_compute; reflexivity. Qed.

(** Claim C9 as stated: after [bindMetadata] on a builder reconciled from
    [Demo.repo], the Snapshot still lists ["delegated.json"], which is the
    file name of none of the role records. *)
Lemma C9_counterexample :
  (b ← RepoBuilder_init Demo.FileData Demo.process Demo.tuf_default_snapshot_meta
         Demo.tuf_default_meta (Demo.the_seed false) Demo.the_keys
         (Some Demo.repo) 0;
   b' ← bindMetadata Demo.FileData Demo.create_signature b;
   snapshot ← RepoBuilder_snapshot Demo.FileData b';
   get_meta (role snapshot))
  = Ok [("targets.json", {| mf_version := 1 |});
        ("delegated.json", {| mf_version := 3 |})] /\
  Forall (fun r => fileNameForRole (fac r) (version r) false <> "delegated.json")
    (root (Demo.the_seed false) :: PyDict.values Demo.loaded_roles).
Proof.
  split; [vm_compute; reflexivity |].
  repeat constructor; vm_compute; discriminate.
Qed.

(** * Further properties of the engine *)

(** ** The role record *)

Section RecordLife.
Variable FileData : Type.
Variable unprocess : Metadata -> FileData.
Variable process : FileData -> result Metadata.
Variable create_signature : Key -> Signed -> string.
Variable tuf_default_snapshot_meta : MetaFile.
Variable tuf_default_meta : PyDict.t MetaFile.

Lemma needsSigning_after_sign (key : Key) (r : OurRole) :
  needsSigning (fst (OurRole_sign create_signature key r)) = false.
Proof.
  unfold OurRole_sign. destruct (needsSigning r) eqn:E; [| exact E].
  cbn [fst]. unfold needsSigning, set_needsSaving. cbn [_needsSigning].
  apply set_needsSigning_flag.
Qed.

(** Property X1.  Signing is idempotent: a record that has just been signed
    is not signed again, whatever the key; the second call changes nothing
    (in particular it does not raise the version once more) and returns
    False. *)
Theorem X1_sign_twice (key key' : Key) (r : OurRole) :
  OurRole_sign create_signature key' (fst (OurRole_sign create_signature key r))
  = (fst (OurRole_sign create_signature key r), false).
Proof.
  pose proof (needsSigning_after_sign key r) as H.
  unfold OurRole_sign at 1. by rewrite H.
Qed.

(** Property X2.  After signing, saving cannot fail: a record that comes
    out of [sign] is written (or left alone if nothing was pending) and
    ends up neither dirty nor in need of saving; and once a save has
    succeeded, saving the resulting record again, into any directory in
    any mode, writes nothing. *)
Theorem X2_save_after_sign (key : Key) (r : OurRole)
    (repoRoot : gmap string FileData) (isConsistent : bool) :
  (exists d r',
     RolePersister_save FileData unprocess repoRoot isConsistent
       (fst (OurRole_sign create_signature key r)) = Ok (d, r') /\
     needsSigning r' = false /\ needsSaving r' = false /\
     role r' = role (fst (OurRole_sign create_signature key r))) /\
  (forall d r' repoRoot' isConsistent',
     RolePersister_save FileData unprocess repoRoot isConsistent r = Ok (d, r') ->
     RolePersister_save FileData unprocess repoRoot' isConsistent' r'
     = Ok (repoRoot', r')).
Proof.
  split.
  - pose proof (needsSigning_after_sign key r) as H.
    set (r1 := fst (OurRole_sign create_signature key r)) in *.
    unfold RolePersister_save. rewrite H.
    destruct (needsSaving r1) eqn:Es.
    + eexists _, _. split; [reflexivity |]. by repeat split.
    + eexists _, _. split; [reflexivity |]. by repeat split.
  - intros d r' repoRoot' isConsistent'. unfold RolePersister_save.
    destruct (needsSaving r) eqn:Es.
    + destruct (needsSigning r); [discriminate |].
      intros [= <- <-]. reflexivity.
    + intros [= <- <-]. by rewrite Es.
Qed.

(** Property X3.  A role that was just created is at version 0, dirty and
    pending; it cannot be saved as it is ([save] raises before writing);
    its first signing brings it to version 1. *)
Theorem X3_fresh_role (roleFactory : RoleFactory) (now : Z) (key : Key)
    (repoRoot : gmap string FileData) (isConsistent : bool) :
  let fresh := createEmpty tuf_default_snapshot_meta tuf_default_meta
                 roleFactory now in
  version fresh = 0 /\ needsSigning fresh = true /\ needsSaving fresh = true /\
  fac fresh = roleFactory /\
  RolePersister_save FileData unprocess repoRoot isConsistent fresh
  = Err (RoleUnsigned (name roleFactory)) /\
  OurRole_sign create_signature key fresh
  = (fst (OurRole_sign create_signature key fresh), true) /\
  version (fst (OurRole_sign create_signature key fresh)) = 1.
Proof.
  cbv zeta. repeat split.
Qed.

Lemma version_set_needsSaving (v : bool) (r : OurRole) :
  version (set_needsSaving v r) = version r.
Proof. reflexivity. Qed.

Lemma version_after_sign (key : Key) (r : OurRole) :
  version (fst (OurRole_sign create_signature key r))
  = if needsSigning r then version r + 1 else version r.
Proof.
  unfold OurRole_sign, needsSigning.
  destruct (_needsSigning r) eqn:E; [| reflexivity].
  cbn [fst]. unfold version, _version, set_needsSaving, with_role, bumpVersion,
    set__version, set_needsSigning.
  cbn. rewrite E. reflexivity.
Qed.

Lemma keeps_step (st : gmap string FileData * OurRole) (op : RoleOp FileData) :
  keeps_record op = true ->
  let st' := apply_op FileData unprocess process create_signature
               tuf_default_snapshot_meta tuf_default_meta st op in
  version (snd st) <= version (snd st') /\ fac (snd st') = fac (snd st).
Proof.
  destruct st as [d r]. destruct op as [f n | f data e | v | | key | c];
    try discriminate; intros _; cbv zeta; cbn [apply_op snd].
  - unfold set_version.
    destruct (Z.ltb_spec v (version r)); [cbn [after]; split; [lia | done] |].
    destruct (Z.eqb_spec v (version r)); cbn [negb after]; [split; [lia | done] |].
    rewrite version_set__version. split; [lia |].
    unfold set__version, set_needsSigning. cbn.
    by destruct (_needsSigning r).
  - unfold bumpVersion. rewrite version_set__version. split; [lia |].
    unfold set__version, set_needsSigning. cbn.
    by destruct (_needsSigning r).
  - rewrite version_after_sign. split; [destruct (needsSigning r); lia |].
    unfold OurRole_sign. destruct (needsSigning r); [| done].
    cbn [fst]. unfold set_needsSaving. cbn [fac].
    unfold set_needsSigning, with_role, bumpVersion, set__version, set_needsSigning.
    cbn. by destruct (_needsSigning r).
  - unfold RolePersister_save.
    destruct (needsSaving r); [| cbn; split; [lia | done]].
    destruct (needsSigning r); cbn; split; (lia || done).
Qed.

(** Property X4.  The version of a record never goes down: over any
    sequence of version assignments (accepted or refused), bumps, signings
    and saves, the version at the end is at least the version at the
    start, and the record keeps its role type. *)
Theorem X4_version_monotone (ops : list (RoleOp FileData))
    (st : gmap string FileData * OurRole) :
  forallb keeps_record ops = true ->
  let st' := run_ops FileData unprocess process create_signature
               tuf_default_snapshot_meta tuf_default_meta ops st in
  version (snd st) <= version (snd st') /\ fac (snd st') = fac (snd st).
Proof.
  revert st. induction ops as [| op ops IH]; intros st Hk; cbv zeta.
  - split; [cbn; lia | done].
  - cbn [forallb] in Hk. apply andb_prop in Hk as [Hop Hk].
    unfold run_ops. cbn [fold_left].
    destruct (keeps_step st op Hop) as [H1 H2].
    destruct (IH (apply_op FileData unprocess process create_signature
                    tuf_default_snapshot_meta tuf_default_meta st op) Hk)
      as [H3 H4].
    unfold run_ops in H3, H4.
    split; [lia | congruence].
Qed.

End RecordLife.

(** ** File names *)

Lemma append_cancel_r (a b t : string) : a +:+ t = b +:+ t -> a = b.
Proof.
  revert b. induction a as [|c a IH]; intros [|c' b] H.
  - reflexivity.
  - apply (f_equal String.length) in H. rewrite !length_append in H.
    cbn [String.length] in H. lia.
  - apply (f_equal String.length) in H. rewrite !length_append in H.
    cbn [String.length] in H. lia.
  - rewrite !append_cons in H. injection H as -> H. f_equal. by apply IH.
Qed.

Lemma py_str_int_inj (a b : Z) : py_str_int a = py_str_int b -> a = b.
Proof.
  unfold py_str_int. intros H.
  assert (forall z, Z.to_int z <> Pos Nil /\ Z.to_int z <> Neg Nil) as Hnn.
  { intros [|p|p]; cbn; split; try discriminate;
      pose proof (Unsigned.to_uint_nonnil p); congruence. }
  apply DecimalZ.to_int_inj.
  assert (Some (Z.to_int a) = Some (Z.to_int b)) as [= ->]; [| reflexivity].
  rewrite <- (NilZero.isi (Z.to_int a)) by apply Hnn.
  rewrite <- (NilZero.isi (Z.to_int b)) by apply Hnn.
  by rewrite H.
Qed.

(** Property X5.  In consistent mode two versions of a role never share a
    file name: the names are equal exactly when the versions are.  In
    simple mode the name does not depend on the version. *)
Theorem X5_file_name_versions (ext : string) (roleFactory : RoleFactory)
    (v1 v2 : Z) :
  (OurRoleLayout.getFileName ext roleFactory v1 true
   = OurRoleLayout.getFileName ext roleFactory v2 true <-> v1 = v2) /\
  OurRoleLayout.getFileName ext roleFactory v1 false
  = OurRoleLayout.getFileName ext roleFactory v2 false.
Proof.
  split; [| reflexivity]. split; [| by intros ->].
  unfold OurRoleLayout.getFileName, OurRoleLayout.getConsistentFileName.
  cbn [py_str]. intros H.
  apply py_str_int_inj. by apply append_cancel_r in H.
Qed.

(** Property X6.  A role whose factory has no version in its file name
    (Root, Timestamp) is stored under one and the same name whatever the
    mode and the version; the name of any other role is the simple name in
    simple mode and carries the version in consistent mode. *)
Theorem X6_fileNameForRole (roleFactory : RoleFactory) (v : Z) :
  (hasVersion roleFactory = false ->
   forall v' isConsistent isConsistent',
     fileNameForRole roleFactory v isConsistent
     = fileNameForRole roleFactory v' isConsistent') /\
  fileNameForRole roleFactory v false = name roleFactory +:+ ".json" /\
  (hasVersion roleFactory = true ->
   fileNameForRole roleFactory v true
   = py_str_int v +:+ "." +:+ name roleFactory +:+ ".json").
Proof.
  unfold fileNameForRole, isRoleConsistent, RolePersister_getFileName,
    OurRoleLayout.getFileName.
  repeat split.
  - intros ->. intros. by rewrite !andb_false_r.
  - by intros ->.
Qed.

(** ** Discovery in consistent mode *)

Lemma greedy_inv {A} (a : atom) (k : string -> option A) (s : string) (x : A) :
  greedy a k s = Some x ->
  exists p r, s = p +:+ r /\ all_chars (atom_matches a) p = true /\ k r = Some x.
Proof.
  revert x. induction s as [|c s IH]; intros x H.
  - exists "", "". by repeat split.
  - cbn [greedy] in H. destruct (atom_matches a c) eqn:Ec.
    + destruct (greedy a k s) as [y|] eqn:Eg.
      * injection H as ->. destruct (IH _ eq_refl) as (p & r & -> & Hp & Hk).
        exists (String c p), r. repeat split; [| exact Hk].
        unfold all_chars in *. cbn. by rewrite Ec, Hp.
      * exists "", (String c s). by repeat split.
    + exists "", (String c s). by repeat split.
Qed.

Lemma match_lit_items_inv (w s : string) (groups g : list string) :
  match_items (lit_items w) s groups = Some g ->
  exists rest, s = w +:+ rest /\ g = rev groups.
Proof.
  revert s. unfold lit_items. induction w as [|c w IH]; intros s H.
  - exists s. split; [reflexivity |]. cbn in H. by injection H.
  - cbn [list_ascii_of_string map match_items match_flat] in H.
    unfold match_one in H. destruct s as [|c' s]; [discriminate |].
    cbn [atom_matches] in H.
    destruct (Ascii.eqb_spec c c') as [<- |]; [| discriminate].
    destruct (IH _ H) as (rest & -> & ->). by exists rest.
Qed.

Lemma re_match_candidate (ds ext roleName rest : string) :
  all_chars is_digit ds = true -> ds <> "" ->
  re_match (IGroup [(ADigit, QPlus)] :: lit_items (name_tail ext roleName))
           (ds +:+ name_tail ext roleName +:+ rest) = Some [ds].
Proof.
  intros Hd Hne. unfold re_match.
  destruct ds as [|d ds]; [congruence |].
  unfold all_chars in Hd. simpl in Hd. apply andb_true_iff in Hd as [Hd Hds].
  set (s := String d ds +:+ name_tail ext roleName +:+ rest).
  cbn [match_items match_flat].
  unfold match_one. subst s. rewrite append_cons at 1. simpl atom_matches.
  rewrite Hd.
  change (name_tail ext roleName +:+ rest)
    with (String "." ((roleName +:+ "." +:+ ext) +:+ rest)).
  apply greedy_digits; [exact Hds |].
  change (String "." ((roleName +:+ "." +:+ ext) +:+ rest))
    with (name_tail ext roleName +:+ rest).
  rewrite consumed_append.
  rewrite <- (app_nil_r (lit_items (name_tail ext roleName))).
  rewrite match_lit_items. reflexivity.
Qed.

Lemma re_match_candidate_inv (ext roleName fn : string) (g : list string) :
  re_match (IGroup [(ADigit, QPlus)] :: lit_items (name_tail ext roleName)) fn
  = Some g ->
  exists ds rest,
    fn = ds +:+ name_tail ext roleName +:+ rest /\
    ds <> "" /\ all_chars is_digit ds = true /\ g = [ds].
Proof.
  unfold re_match. cbn [match_items match_flat]. unfold match_one.
  destruct fn as [|c s]; [discriminate |].
  cbn [atom_matches]. destruct (is_digit c) eqn:Ec; [| discriminate].
  intros H. apply greedy_inv in H as (p & r & -> & Hp & H).
  apply match_lit_items_inv in H as (rest & -> & ->).
  exists (String c p), rest. repeat split.
  - discriminate.
  - change (all_chars is_digit p = true) in Hp.
    unfold all_chars in *. cbn [list_ascii_of_string forallb]. by rewrite Ec, Hp.
  - cbn [rev app]. f_equal.
    change (String c (p +:+ name_tail ext roleName +:+ rest))
      with (String c p +:+ (name_tail ext roleName +:+ rest)).
    apply consumed_append.
Qed.

Lemma versionOfFileName_candidate (ext roleName fn : string) (x : Z * string) :
  OurRoleLayout.versionOfFileName
    (IGroup [(ADigit, QPlus)] :: lit_items (name_tail ext roleName)) fn = Some x
  <-> snd x = fn /\ consistent_candidate ext roleName fn (fst x).
Proof.
  unfold OurRoleLayout.versionOfFileName, consistent_candidate. split.
  - destruct (re_match _ fn) as [g|] eqn:Em; [| discriminate].
    apply re_match_candidate_inv in Em as (ds & rest & Hfn & Hne & Hd & ->).
    cbn [hd]. destruct (py_int ds) as [v|] eqn:Ev; [| discriminate].
    intros [= <-]. cbn [fst snd]. split; [reflexivity |]. by exists ds, rest.
  - intros (Hx & ds & rest & -> & Hne & Hd & Hv).
    rewrite (re_match_candidate _ _ _ _ Hd Hne). cbn [hd]. rewrite Hv.
    destruct x as [v fn]. cbn [fst snd] in *. by subst.
Qed.

(** *** [sorted(versions, key=lambda x: x[0])] *)

Lemma insert_by_version_perm (x : Z * string) (l : list (Z * string)) :
  insert_by_version x l ≡ₚ x :: l.
Proof.
  induction l as [|y l IH]; [reflexivity |].
  cbn [insert_by_version]. destruct (Z.ltb (fst x) (fst y)); [reflexivity |].
  rewrite IH. apply perm_swap.
Qed.

Lemma sorted_by_version_perm (l : list (Z * string)) : sorted_by_version l ≡ₚ l.
Proof.
  unfold sorted_by_version.
  assert (forall acc, fold_left (fun acc x => insert_by_version x acc) l acc
                      ≡ₚ (l ++ acc)%list) as H.
  { induction l as [|x l IH]; intros acc; [reflexivity |].
    cbn [fold_left]. rewrite IH, insert_by_version_perm.
    cbn [app]. by rewrite Permutation_middle. }
  rewrite H. by rewrite app_nil_r.
Qed.

Lemma insert_by_version_ascending (x : Z * string) (l : list (Z * string)) :
  ascending l -> ascending (insert_by_version x l).
Proof.
  induction l as [|y l IH]; intros Hl.
  - cbn. by split.
  - cbn [insert_by_version]. cbn [ascending] in Hl. destruct Hl as [Hy Hl].
    destruct (Z.ltb_spec (fst x) (fst y)) as [Hlt | Hge].
    + cbn [ascending]. repeat split; [| exact Hy | exact Hl].
      constructor; [lia |].
      eapply Forall_impl; [exact Hy |]. cbn. intros; lia.
    + cbn [ascending]. split; [| by apply IH].
      rewrite insert_by_version_perm. by constructor.
Qed.

Lemma sorted_by_version_ascending (l : list (Z * string)) :
  ascending (sorted_by_version l).
Proof.
  unfold sorted_by_version.
  assert (forall acc, ascending acc ->
            ascending (fold_left (fun acc x => insert_by_version x acc) l acc)) as H.
  { induction l as [|x l IH]; intros acc Hacc; [exact Hacc |].
    cbn [fold_left]. apply IH. by apply insert_by_version_ascending. }
  by apply H.
Qed.

Lemma ascending_last (l : list (Z * string)) (x y : Z * string) :
  ascending l -> last l = Some x -> In y l -> fst y <= fst x.
Proof.
  intros Hl Hx Hy. apply last_Some in Hx as [l' ->].
  apply in_app_or in Hy as [Hy | [<- | []]]; [| lia].
  clear -Hl Hy. induction l' as [|z l' IH]; [destruct Hy |].
  cbn [app ascending] in Hl. destruct Hl as [Hz Hl].
  destruct Hy as [<- | Hy]; [| by apply IH].
  rewrite Forall_app in Hz. destruct Hz as [_ Hz].
  by apply Forall_inv in Hz.
Qed.

(** What discovery returns for a role name and an extension made of literal
    characters. *)
Lemma discover_consistent_spec (ext : string) (roleFactory : RoleFactory)
    (fileNames : list string) :
  literal_text (name roleFactory) = true -> literal_text ext = true ->
  let versions :=
    sorted_by_version
      (omap (OurRoleLayout.versionOfFileName
               (IGroup [(ADigit, QPlus)]
                :: lit_items (name_tail ext (name roleFactory)))) fileNames) in
  OurRoleLayout.discoverConsistentVersionsFromFileNames ext roleFactory fileNames
  = match versions with
    | [] => Err (FileNotFoundError (OurRoleLayout.roleGlobFnRegExp ext roleFactory))
    | _ => Ok versions
    end /\
  ascending versions /\
  forall v fn,
    In (v, fn) versions
    <-> In fn fileNames /\ consistent_candidate ext (name roleFactory) fn v.
Proof.
  intros Hn He. cbv zeta. split; [| split].
  - unfold OurRoleLayout.discoverConsistentVersionsFromFileNames.
    rewrite (str_contains_literal _ Hn).
    by rewrite (re_compile_roleGlobFnRegExp _ _ Hn He).
  - apply sorted_by_version_ascending.
  - intros v fn. rewrite <- !list_elem_of_In.
    rewrite sorted_by_version_perm, list_elem_of_omap. split.
    + intros (fn' & Hin & Hv). apply versionOfFileName_candidate in Hv as [Hs Hc].
      cbn [fst snd] in *. by subst.
    + intros [Hin Hc]. exists fn. split; [exact Hin |].
      by apply versionOfFileName_candidate.
Qed.

(** Property X7.  Which file names consistent-mode discovery accepts, for a
    role name and an extension made of literal characters.  A name is a
    candidate exactly when it starts with a non-empty run of decimal digits
    followed by [.roleName.ext]; the version is the value of the digits
    (leading zeros allowed), and whatever follows the extension is ignored,
    because the pattern is matched at the start of the name only.  A
    successful discovery returns exactly the candidates among the given
    names, in ascending order of version, and never an empty list; it
    raises FileNotFoundError exactly when no given name is a candidate.
    File names are strings of 8-bit characters, among which only [0] to
    [9] are decimal digits. *)
Theorem X7_discover_consistent (ext : string) (roleFactory : RoleFactory)
    (fileNames : list string) :
  literal_text (name roleFactory) = true -> literal_text ext = true ->
  (forall versions,
     OurRoleLayout.discoverConsistentVersionsFromFileNames ext roleFactory fileNames
     = Ok versions ->
     versions <> [] /\ ascending versions /\
     forall v fn,
       In (v, fn) versions
       <-> In fn fileNames /\ consistent_candidate ext (name roleFactory) fn v) /\
  (OurRoleLayout.discoverConsistentVersionsFromFileNames ext roleFactory fileNames
   = Err (FileNotFoundError (OurRoleLayout.roleGlobFnRegExp ext roleFactory))
   <-> forall v fn,
         In fn fileNames -> ~ consistent_candidate ext (name roleFactory) fn v) /\
  (forall e,
     OurRoleLayout.discoverConsistentVersionsFromFileNames ext roleFactory fileNames
     = Err e ->
     e = FileNotFoundError (OurRoleLayout.roleGlobFnRegExp ext roleFactory)).
Proof.
  intros Hn He.
  destruct (discover_consistent_spec ext roleFactory fileNames Hn He)
    as (Heq & Hasc & Hin).
  cbv zeta in Heq, Hasc, Hin. rewrite Heq.
  destruct (sorted_by_version _) as [|x l] eqn:Es.
  - split; [discriminate |]. split; [| by intros e [= <-]].
    split; [| reflexivity]. intros _ v fn Hfn Hc.
    by apply (Hin v fn).
  - split; [| split].
    + intros versions [= <-].
      split; [discriminate | split; [exact Hasc | exact Hin]].
    + split; [discriminate |]. intros Hno. exfalso.
      destruct x as [v fn]. destruct (proj1 (Hin v fn)) as [Hfn Hc]; [by left |].
      by apply (Hno v fn).
    + discriminate.
Qed.

(** What blind discovery returns in consistent mode. *)
Lemma discoverConsistent_spec {D} (ext : string)
    (roleFactory : RoleFactory) (repoRoot : gmap string D) :
  literal_text (name roleFactory) = true -> literal_text ext = true ->
  (forall fileNameVersion fileName,
     OurRoleLayout.discoverConsistent ext roleFactory repoRoot
     = Ok (fileNameVersion, fileName) ->
     exists v,
       fileNameVersion = Some v /\
       is_Some (repoRoot !! fileName) /\
       consistent_candidate ext (name roleFactory) fileName v /\
       forall fn' v',
         is_Some (repoRoot !! fn') ->
         consistent_candidate ext (name roleFactory) fn' v' -> v' <= v) /\
  (forall e,
     OurRoleLayout.discoverConsistent ext roleFactory repoRoot = Err e ->
     e = FileNotFoundError (OurRoleLayout.roleGlobFnRegExp ext roleFactory) /\
     forall fn' v',
       is_Some (repoRoot !! fn') ->
       ~ consistent_candidate ext (name roleFactory) fn' v').
Proof.
  intros Hn He.
  assert (forall fn, In fn (OurRoleLayout.discoverFilesInRepoRoot repoRoot)
                     <-> is_Some (repoRoot !! fn)) as Hdir.
  { intros fn. unfold OurRoleLayout.discoverFilesInRepoRoot.
    rewrite <- list_elem_of_In, list_elem_of_fmap. split.
    - intros ([k x] & -> & Hx). apply elem_of_map_to_list in Hx. by exists x.
    - intros [x Hx]. exists (fn, x). split; [reflexivity |].
      by apply elem_of_map_to_list. }
  unfold OurRoleLayout.discoverConsistent.
  destruct (discover_consistent_spec ext roleFactory
              (OurRoleLayout.discoverFilesInRepoRoot repoRoot) Hn He)
    as (Heq & Hasc & Hin).
  cbv zeta in Heq, Hasc, Hin. rewrite Heq.
  destruct (sorted_by_version _) as [|x l] eqn:Es.
  - split; [discriminate |]. intros e [= <-]. split; [reflexivity |].
    intros fn' v' Hfn Hc. apply (Hin v' fn'). split; [by apply Hdir | exact Hc].
  - cbn [mbind result_bind].
    destruct (last (x :: l)) as [[v fn]|] eqn:El.
    + split; [| discriminate].
      intros fileNameVersion fileName [= <- <-]. exists v.
      split; [reflexivity |].
      pose proof (last_Some_elem_of _ _ El) as Hl. apply list_elem_of_In in Hl.
      destruct (proj1 (Hin v fn) Hl) as [Hfn Hc].
      split; [by apply Hdir |]. split; [exact Hc |].
      intros fn' v' Hfn' Hc'.
      apply (ascending_last (x :: l) (v, fn) (v', fn') Hasc El).
      apply Hin. split; [by apply Hdir | exact Hc'].
    + by rewrite last_cons in El; destruct (last l).
Qed.

(** Property X8.  Blind discovery in a directory in consistent mode selects
    a latest version: the file it returns is a file of the directory and a
    candidate for the role, and no candidate in the directory has a higher
    version.  It fails only with FileNotFoundError, when the directory
    holds no candidate. *)
Theorem X8_discoverConsistent_latest {D} (ext : string)
    (roleFactory : RoleFactory) (repoRoot : gmap string D) :
  literal_text (name roleFactory) = true -> literal_text ext = true ->
  (forall fileNameVersion fileName,
     OurRoleLayout.discoverConsistent ext roleFactory repoRoot
     = Ok (fileNameVersion, fileName) ->
     exists v,
       fileNameVersion = Some v /\
       is_Some (repoRoot !! fileName) /\
       consistent_candidate ext (name roleFactory) fileName v /\
       forall fn' v',
         is_Some (repoRoot !! fn') ->
         consistent_candidate ext (name roleFactory) fn' v' -> v' <= v) /\
  (forall e,
     OurRoleLayout.discoverConsistent ext roleFactory repoRoot = Err e ->
     e = FileNotFoundError (OurRoleLayout.roleGlobFnRegExp ext roleFactory) /\
     forall fn' v',
       is_Some (repoRoot !! fn') ->
       ~ consistent_candidate ext (name roleFactory) fn' v').
Proof. apply discoverConsistent_spec. Qed.

(** ** The key manager *)

Lemma fromSingleKey_lookup (key : Key) (roleNames : list string) (rn : string) :
  (In rn roleNames -> KeyManager_fromSingleKey key roleNames !! rn = Some key) /\
  (~ In rn roleNames -> KeyManager_fromSingleKey key roleNames !! rn = None).
Proof.
  unfold KeyManager_fromSingleKey. induction roleNames as [|x l [IH1 IH2]].
  - split; [intros [] | intros _; apply lookup_empty].
  - cbn [map]. rewrite list_to_map_cons. cbn [fst snd In].
    destruct (decide (x = rn)) as [-> | Hne].
    + rewrite lookup_insert_eq. split; [done | tauto].
    + rewrite lookup_insert_ne by done. split; [| tauto].
      intros [? | ?]; [done | tauto].
Qed.

Section Keys.
Variable create_signature : Key -> Signed -> string.

(** Property X9.  A key manager made from a single key holds that key for
    the root and for every role of the model and for no other name: with
    it, signing a record of any of these roles is signing with that key,
    and signing a record of any other role raises KeyError, also when the
    record is clean and there is nothing to sign. *)
Theorem X9_single_key_manager (model : PyDict.t RoleFactory) (rolesKey : Key)
    (oR : OurRole) :
  (In (OurRole_name oR) ("root" :: PyDict.keys model) ->
   KeyManager_sign create_signature (keyManagerFromSingleKey model rolesKey) oR
   = Ok (OurRole_sign create_signature rolesKey oR)) /\
  (~ In (OurRole_name oR) ("root" :: PyDict.keys model) ->
   KeyManager_sign create_signature (keyManagerFromSingleKey model rolesKey) oR
   = Err (KeyError (OurRole_name oR))).
Proof.
  unfold KeyManager_sign, keyManagerFromSingleKey.
  change (name ROOT_ROLE_FAC) with "root".
  destruct (fromSingleKey_lookup rolesKey ("root" :: PyDict.keys model)
              (OurRole_name oR)) as [H1 H2].
  split; intros H.
  - by rewrite (H1 H).
  - by rewrite (H2 H).
Qed.

End Keys.

(** ** Loading or creating one role *)

Section LoadOrCreate.
Variable FileData : Type.
Variable unprocess : Metadata -> FileData.
Variable process : FileData -> result Metadata.
Variable tuf_default_snapshot_meta : MetaFile.
Variable tuf_default_meta : PyDict.t MetaFile.

Lemma loadFromData_clean (roleFactory : RoleFactory) (data : FileData)
    (expectedVersion : option Z) (r : OurRole) :
  RolePersister_loadFromData FileData process roleFactory data expectedVersion
  = Ok r ->
  exists m, process data = Ok m /\ r = OurRole_init roleFactory m /\
            forall e, expectedVersion = Some e -> signed_version (signed m) = e.
Proof.
  unfold RolePersister_loadFromData. intros H. bind_ok H as m Em.
  exists m. split; [exact Em |].
  destruct expectedVersion as [e|].
  - destruct (Z.eqb_spec (version (RoleFactory_fromDict roleFactory m)) e) as [He|];
      [| discriminate].
    cbn [negb] in H. injection H as <-. split; [reflexivity |].
    by intros ? [= <-].
  - injection H as <-. by split.
Qed.

Lemma loadFromRepo_clean (roleFactory : RoleFactory)
    (repoRoot : gmap string FileData) (isConsistent : bool)
    (versionToLoad : option Z) (r : OurRole) :
  RolePersister_loadFromRepo FileData process roleFactory repoRoot isConsistent
    versionToLoad = Ok r ->
  exists m, r = OurRole_init roleFactory m /\
            forall v, versionToLoad = Some v -> signed_version (signed m) = v.
Proof.
  unfold RolePersister_loadFromRepo, RolePersister_loadFromFile.
  destruct versionToLoad as [v|].
  - destruct (repoRoot !! _) as [data|]; [| discriminate].
    intros H. apply loadFromData_clean in H as (m & _ & -> & Hv).
    exists m. split; [reflexivity |]. intros ? [= <-]. by apply Hv.
  - intros H. bind_ok H as p Ep. destruct p as [fv fp].
    destruct (repoRoot !! fp) as [data|]; [| discriminate].
    apply loadFromData_clean in H as (m & _ & -> & _).
    exists m. by split.
Qed.

(** Property X10.  [loadOrCreate] turns a missing file into a new role and
    nothing else.  It never raises FileNotFoundError.  When it reports that
    nothing was loaded, the role is the one [createEmpty] makes (version 0,
    dirty); this is what happens without a directory, whenever loading
    from the directory raises FileNotFoundError, and so, in simple mode,
    when the directory has no file under the role's simple name.  When it
    reports a loaded role, the record is the one loading from the
    directory returned: it is clean, and its version is the requested one
    if one was requested.  Every other error that loading from the
    directory raises is raised by [loadOrCreate] unchanged. *)
Theorem X10_loadOrCreate (roleFactory : RoleFactory)
    (repoRoot : option (gmap string FileData)) (isConsistent : bool)
    (versionToLoad : option Z) (now : Z) :
  let loadOrCreate :=
    RolePersister_loadOrCreate FileData process tuf_default_snapshot_meta
      tuf_default_meta roleFactory repoRoot isConsistent versionToLoad now in
  let fresh := createEmpty tuf_default_snapshot_meta tuf_default_meta
                 roleFactory now in
  (forall what, loadOrCreate <> Err (FileNotFoundError what)) /\
  (forall r, loadOrCreate = Ok (r, false) -> r = fresh) /\
  (forall r, loadOrCreate = Ok (r, true) ->
     needsSigning r = false /\ needsSaving r = false /\ fac r = roleFactory /\
     forall v, versionToLoad = Some v -> version r = v) /\
  (repoRoot = None -> loadOrCreate = Ok (fresh, false)) /\
  (forall d,
     repoRoot = Some d -> isConsistent = false ->
     str_contains "*" (name roleFactory) = false ->
     d !! OurRoleLayout.getSimpleFileName fileExtension (name roleFactory) = None ->
     loadOrCreate = Ok (fresh, false)) /\
  (forall d r,
     repoRoot = Some d ->
     RolePersister_loadFromRepo FileData process roleFactory d isConsistent
       versionToLoad = Ok r ->
     loadOrCreate = Ok (r, true)) /\
  (forall d what,
     repoRoot = Some d ->
     RolePersister_loadFromRepo FileData process roleFactory d isConsistent
       versionToLoad = Err (FileNotFoundError what) ->
     loadOrCreate = Ok (fresh, false)) /\
  (forall d e,
     repoRoot = Some d ->
     RolePersister_loadFromRepo FileData process roleFactory d isConsistent
       versionToLoad = Err e ->
     (forall what, e <> FileNotFoundError what) ->
     loadOrCreate = Err e).
Proof.
  cbv zeta. unfold RolePersister_loadOrCreate.
  split; [| split; [| split; [| split; [| split; [| split; [| split]]]]]].
  - intros what. destruct repoRoot as [d|]; [| discriminate].
    destruct (RolePersister_loadFromRepo _ _ _ _ _ _) as [r|[]]; discriminate.
  - intros r. destruct repoRoot as [d|]; [| by intros [= <-]].
    destruct (RolePersister_loadFromRepo _ _ _ _ _ _) as [r'|[]]; try discriminate.
    by intros [= <-].
  - intros r. destruct repoRoot as [d|]; [| discriminate].
    destruct (RolePersister_loadFromRepo _ _ _ _ _ _) as [r'|[]] eqn:E;
      try discriminate.
    intros [= <-]. apply loadFromRepo_clean in E as (m & -> & Hm).
    repeat split. exact Hm.
  - by intros ->.
  - intros d -> -> Hstar Hnone.
    unfold RolePersister_loadFromRepo, RolePersister_loadFromFile,
      OurRoleLayout.discoverBlindFromRepo, RolePersister_getFileName,
      OurRoleLayout.getFileName, OurRoleLayout.discoverSimple.
    rewrite Hstar. destruct versionToLoad; cbn [mbind result_bind];
      by rewrite Hnone.
  - intros d r -> H. by rewrite H.
  - intros d what -> H. by rewrite H.
  - intros d e -> H Hne. rewrite H.
    destruct e; try reflexivity. by destruct (Hne what).
Qed.

(** Saving a clean-but-pending record writes its payload under its file
    name; reading that name back at the version of the record returns the
    payload. *)
Lemma save_then_loadFromRepo (r : OurRole) (repoRoot : gmap string FileData)
    (isConsistent : bool) :
  (forall m, process (unprocess m) = Ok m) ->
  needsSaving r = true -> needsSigning r = false ->
  exists d r',
    RolePersister_save FileData unprocess repoRoot isConsistent r = Ok (d, r') /\
    d = <[RolePersister_getFileName (fac r) (version r) isConsistent
          := unprocess (role r)]> repoRoot /\
    RolePersister_loadFromRepo FileData process (fac r) d isConsistent
      (Some (version r)) = Ok (OurRole_init (fac r) (role r)).
Proof.
  intros Hpu Hs Hd. unfold RolePersister_save. rewrite Hs, Hd.
  eexists _, _. split; [reflexivity |]. split; [reflexivity |].
  unfold RolePersister__save, RolePersister_loadFromRepo,
    RolePersister_loadFromFile.
  rewrite lookup_insert_eq. unfold RolePersister_loadFromData.
  rewrite Hpu. cbn [mbind result_bind]. unfold RoleFactory_fromDict.
  change (version (OurRole_init (fac r) (role r))) with (version r).
  by rewrite Z.eqb_refl.
Qed.

(** Property X11.  What [save] writes, [loadOrCreate] reads back, in both
    modes: after a record that is signed and pending has been saved,
    loading its role from the resulting directory at the version of the
    record succeeds, reports a loaded role, and returns a clean record with
    the payload that was saved. *)
Theorem X11_save_then_load (r : OurRole) (repoRoot : gmap string FileData)
    (isConsistent : bool) (now : Z) :
  (forall m, process (unprocess m) = Ok m) ->
  needsSaving r = true -> needsSigning r = false ->
  exists d r',
    RolePersister_save FileData unprocess repoRoot isConsistent r = Ok (d, r') /\
    RolePersister_loadOrCreate FileData process tuf_default_snapshot_meta
      tuf_default_meta (fac r) (Some d) isConsistent (Some (version r)) now
    = Ok (OurRole_init (fac r) (role r), true).
Proof.
  intros Hpu Hs Hd.
  destruct (save_then_loadFromRepo r repoRoot isConsistent Hpu Hs Hd)
    as (d & r' & Hsave & _ & Hload).
  exists d, r'. split; [exact Hsave |].
  unfold RolePersister_loadOrCreate. by rewrite Hload.
Qed.

End LoadOrCreate.

(** ** Loading every role, one by one *)

Section LoadDumb.
Variable FileData : Type.
Variable process : FileData -> result Metadata.
Variable tuf_default_snapshot_meta : MetaFile.
Variable tuf_default_meta : PyDict.t MetaFile.

(** Property X12.  A blind load in consistent mode returns the payload of
    a latest version: the record it returns was decoded from a file of the
    directory that is a candidate for the role, the version inside the
    payload is the version of the file name, no candidate in the directory
    has a higher version, and the record is clean. *)
Theorem X12_blind_load_latest (roleFactory : RoleFactory)
    (repoRoot : gmap string FileData) (r : OurRole) :
  literal_text (name roleFactory) = true ->
  RolePersister_loadFromRepo FileData process roleFactory repoRoot true None
  = Ok r ->
  exists v fileName data m,
    repoRoot !! fileName = Some data /\
    consistent_candidate fileExtension (name roleFactory) fileName v /\
    process data = Ok m /\ r = OurRole_init roleFactory m /\ version r = v /\
    forall fn' v',
      is_Some (repoRoot !! fn') ->
      consistent_candidate fileExtension (name roleFactory) fn' v' -> v' <= v.
Proof.
  intros Hn H. unfold RolePersister_loadFromRepo in H.
  bind_ok H as p Ep. destruct p as [fv fn].
  unfold OurRoleLayout.discoverBlindFromRepo in Ep.
  rewrite (str_contains_literal _ Hn) in Ep.
  destruct (discoverConsistent_spec fileExtension roleFactory repoRoot Hn eq_refl)
    as [Hok _].
  destruct (Hok _ _ Ep) as (v & -> & Hfile & Hc & Hmax).
  unfold RolePersister_loadFromFile in H.
  destruct (repoRoot !! fn) as [data|] eqn:Ed; [| discriminate].
  apply loadFromData_clean in H as (m & Hm & -> & Hv).
  exists v, fn, data, m. repeat split; try done.
  by apply Hv.
Qed.

Lemma loadOrCreate_absent (roleFactory : RoleFactory)
    (repoRoot : option (gmap string FileData)) (isConsistent : bool) (now : Z) :
  literal_text (name roleFactory) = true ->
  (forall d, repoRoot = Some d ->
     if isRoleConsistent roleFactory isConsistent
     then forall fn v, is_Some (d !! fn) ->
            ~ consistent_candidate fileExtension (name roleFactory) fn v
     else d !! (name roleFactory +:+ ".json") = None) ->
  RolesStrategy_loadOrCreate FileData process tuf_default_snapshot_meta
    tuf_default_meta roleFactory repoRoot isConsistent None now
  = Ok (createEmpty tuf_default_snapshot_meta tuf_default_meta roleFactory now,
        false).
Proof.
  intros Hn Habs.
  unfold RolesStrategy_loadOrCreate, RolePersister_loadOrCreate.
  destruct repoRoot as [d|]; [| reflexivity].
  specialize (Habs d eq_refl).
  unfold RolePersister_loadFromRepo, OurRoleLayout.discoverBlindFromRepo.
  rewrite (str_contains_literal _ Hn).
  destruct (isRoleConsistent roleFactory isConsistent).
  - destruct (discoverConsistent_spec fileExtension roleFactory d Hn eq_refl)
      as [Hok Herr].
    destruct (OurRoleLayout.discoverConsistent _ _ _) as [[fv fn]|e] eqn:Ed.
    + destruct (Hok _ _ eq_refl) as (v & _ & Hfile & Hc & _).
      destruct (Habs fn v Hfile Hc).
    + destruct (Herr e eq_refl) as [-> _]. reflexivity.
  - cbn [mbind result_bind OurRoleLayout.discoverSimple].
    unfold RolePersister_loadFromFile.
    change (OurRoleLayout.getSimpleFileName fileExtension (name roleFactory))
      with (name roleFactory +:+ ".json").
    by rewrite Habs.
Qed.

(** Property X13.  [loadDumb] creates what it does not find, in both
    modes.  Without a directory, or with a directory that holds no
    [timestamp.json] and, for Targets and for Snapshot, no file under the
    simple name (simple mode) or no candidate file (consistent mode), it
    returns the three roles of the model freshly created, in the order of
    the model; the listing python-tuf gives a new Snapshot is left in
    place. *)
Theorem X13_loadDumb_absent (repoRoot : option (gmap string FileData))
    (isConsistent : bool) (now : Z) :
  (forall d, repoRoot = Some d ->
     d !! "timestamp.json" = None /\
     if isConsistent
     then forall fn v, is_Some (d !! fn) ->
            ~ consistent_candidate fileExtension "targets" fn v /\
            ~ consistent_candidate fileExtension "snapshot" fn v
     else d !! "targets.json" = None /\ d !! "snapshot.json" = None) ->
  loadDumb FileData process tuf_default_snapshot_meta tuf_default_meta
    ROLES_MODEL repoRoot isConsistent now
  = Ok [("targets", createEmpty tuf_default_snapshot_meta tuf_default_meta
                      targetsRoleFac now);
        ("snapshot", createEmpty tuf_default_snapshot_meta tuf_default_meta
                       snapshotRoleFac now);
        ("timestamp", createEmpty tuf_default_snapshot_meta tuf_default_meta
                        timestampRoleFac now)].
Proof.
  intros Habs. unfold loadDumb.
  change (PyDict.values ROLES_MODEL)
    with [targetsRoleFac; snapshotRoleFac; timestampRoleFac].
  cbn [forM].
  rewrite (loadOrCreate_absent targetsRoleFac), (loadOrCreate_absent snapshotRoleFac),
    (loadOrCreate_absent timestampRoleFac); try reflexivity.
  - intros d Hd. destruct (Habs d Hd) as [Hts _].
    unfold isRoleConsistent. cbn [hasVersion timestampRoleFac].
    rewrite andb_false_r. exact Hts.
  - intros d Hd. destruct (Habs d Hd) as [_ H].
    unfold isRoleConsistent. cbn [hasVersion snapshotRoleFac].
    rewrite andb_true_r. destruct isConsistent; [| apply H].
    intros fn v Hfn. by apply H.
  - intros d Hd. destruct (Habs d Hd) as [_ H].
    unfold isRoleConsistent. cbn [hasVersion targetsRoleFac].
    rewrite andb_true_r. destruct isConsistent; [| apply H].
    intros fn v Hfn. by apply H.
Qed.

End LoadDumb.

(** ** The publish cascade *)

Section Cascade.
Variable FileData : Type.
Variable data_length : FileData -> Z.
Variable sha256 : FileData -> string.
Variable create_signature : Key -> Signed -> string.

Local Abbreviation sign := (OurRole_sign create_signature).
Local Abbreviation bound := (bound_files data_length sha256).

(** The record [r] with the role-specific fields [f], marked dirty and then
    signed with [key]: what [bindContent], [bindMetadata] and [stamp] do to
    the record they work on. *)
Local Abbreviation resigned key f r :=
  (fst (sign key (set_needsSigning true (with_role (with_fields f (role r)) r)))).

Lemma bindContent_loop (sd : RepoSeed) (ks : gmap string Key)
    (ts sn : OurRole) (v e : Z) (sg : list Signature) (ns nv : bool)
    (uf0 uf : PyDict.t FileData) (files : PyDict.t TargetFile) :
  forM (bindContent_step FileData data_length sha256) uf
    {| seed := sd; keys := ks;
       ourRoles := [("timestamp", ts); ("snapshot", sn);
                    ("targets",
                     {| fac := targetsRoleFac;
                        role := {| signed := {| signed_version := v; expires := e;
                                                fields := TargetsFields files |};
                                   signatures := sg |};
                        _needsSigning := ns; _needsSaving := nv |})];
       userFiles := uf0 |}
  = Ok {| seed := sd; keys := ks;
          ourRoles := [("timestamp", ts); ("snapshot", sn);
                       ("targets",
                        {| fac := targetsRoleFac;
                           role := {| signed := {| signed_version := v; expires := e;
                                                   fields := TargetsFields (bound uf files) |};
                                      signatures := sg |};
                           _needsSigning := ns; _needsSaving := nv |})];
          userFiles := uf0 |}.
Proof.
  revert files. induction uf as [|kv uf IH]; intros files; [reflexivity |].
  cbn [forM]. 
  change (bindContent_step FileData data_length sha256 _ kv)
    with (Ok {| seed := sd; keys := ks;
       ourRoles := [("timestamp", ts); ("snapshot", sn);
                    ("targets",
                     {| fac := targetsRoleFac;
                        role := {| signed := {| signed_version := v; expires := e;
                                                fields := TargetsFields 
             (PyDict.set (fst kv)
         (TargetFile_from_data FileData data_length sha256 (fst kv) (snd kv)) files) |};
                                   signatures := sg |};
                        _needsSigning := ns; _needsSaving := nv |})];
       userFiles := uf0 |}).
  cbn [mbind result_bind]. apply IH.
Qed.


Lemma KeyManager_sign_key (ks : gmap string Key) (r : OurRole) (key : Key) :
  ks !! OurRole_name r = Some key ->
  KeyManager_sign create_signature ks r = Ok (sign key r).
Proof. intros H. unfold KeyManager_sign. by rewrite H. Qed.

Lemma PyDict_set_set {V} (k : string) (x y : V) (d : PyDict.t V) :
  PyDict.set k x (PyDict.set k y d) = PyDict.set k x d.
Proof.
  induction d as [|[k' v] d IH]; cbn [PyDict.set].
  - by rewrite String.eqb_refl.
  - destruct (String.eqb k k') eqn:E; cbn [PyDict.set]; rewrite E;
      [reflexivity | by rewrite IH].
Qed.

Lemma fac_set_needsSigning (v : bool) (r : OurRole) :
  fac (set_needsSigning v r) = fac r.
Proof. unfold set_needsSigning. by destruct (negb _). Qed.

Lemma role_set_needsSigning (v : bool) (r : OurRole) :
  role (set_needsSigning v r) = role r.
Proof. unfold set_needsSigning. by destruct (negb _). Qed.

Lemma fac_sign (key : Key) (r : OurRole) : fac (sign key r).1 = fac r.
Proof.
  unfold OurRole_sign. destruct (needsSigning r); [| reflexivity].
  cbn [fst set_needsSaving fac]. rewrite fac_set_needsSigning. cbn [with_role fac].
  unfold bumpVersion, set__version. by rewrite fac_set_needsSigning.
Qed.

Lemma fields_sign (key : Key) (r : OurRole) :
  fields (signed (role (sign key r).1)) = fields (signed (role r)).
Proof.
  unfold OurRole_sign. destruct (needsSigning r); [| reflexivity].
  cbn [fst set_needsSaving role]. rewrite role_set_needsSigning.
  cbn [with_role role Metadata_sign signed].
  unfold bumpVersion, set__version. by rewrite role_set_needsSigning.
Qed.

Lemma resigned_facts (key : Key) (f : SignedFields) (r : OurRole) :
  fac (resigned key f r) = fac r /\
  fields (signed (role (resigned key f r))) = f /\
  version (resigned key f r) = version r + 1 /\
  needsSigning (resigned key f r) = false /\
  needsSaving (resigned key f r) = true.
Proof.
  split; [by rewrite fac_sign, fac_set_needsSigning |].
  split; [by rewrite fields_sign, role_set_needsSigning |].
  split.
  { rewrite version_after_sign. unfold needsSigning.
    rewrite set_needsSigning_flag. unfold version, _version.
    by rewrite role_set_needsSigning. }
  split; [apply needsSigning_after_sign |].
  unfold OurRole_sign, needsSigning. by rewrite set_needsSigning_flag.
Qed.

(** [self.<k>.needsSigning = True; self.keys.sign(self.<k>)] *)
Lemma mark_sign (b : RepoBuilder FileData) (k : string) (r : OurRole) (key : Key) :
  PyDict.get k (ourRoles _ b) = Some r ->
  keys _ b !! OurRole_name r = Some key ->
  (b' ← mark_dirty FileData k b; sign_role FileData create_signature k b')
  = Ok (put_role FileData k (sign key (set_needsSigning true r)).1 b).
Proof.
  intros Hr Hk. unfold mark_dirty, sign_role, getitem. rewrite Hr.
  cbn [mbind result_bind put_role with_ourRoles ourRoles keys].
  rewrite PyDict_get_set_eq. cbn [mbind result_bind].
  rewrite (KeyManager_sign_key _ _ key)
    by (unfold OurRole_name; rewrite fac_set_needsSigning; exact Hk).
  cbn [mbind result_bind]. destruct (sign key _) as [r' flag]. cbn [fst].
  unfold put_role, with_ourRoles. cbn [seed keys ourRoles userFiles].
  by rewrite PyDict_set_set.
Qed.

Lemma makeSnapshot_result (b : RepoBuilder FileData) (ts sn tg : OurRole)
    (kTargets kSnapshot kTimestamp : Key) (consistent : bool)
    (files : PyDict.t TargetFile) (meta : PyDict.t MetaFile) (ref : MetaFile) :
  RepoSeed_isConsistent (seed _ b) = Ok consistent ->
  ourRoles _ b = [("timestamp", ts); ("snapshot", sn); ("targets", tg)] ->
  fac ts = timestampRoleFac -> fac sn = snapshotRoleFac -> fac tg = targetsRoleFac ->
  get_snapshot_meta (role ts) = Ok ref ->
  get_meta (role sn) = Ok meta ->
  get_targets (role tg) = Ok files ->
  keys _ b !! "targets" = Some kTargets ->
  keys _ b !! "snapshot" = Some kSnapshot ->
  keys _ b !! "timestamp" = Some kTimestamp ->
  let tg' := resigned kTargets (TargetsFields (bound (userFiles _ b) files)) tg in
  let sn' := resigned kSnapshot
               (SnapshotFields
                  (PyDict.set (fileNameForRole targetsRoleFac (version tg') consistent)
                     {| mf_version := version tg' |} meta)) sn in
  let ts' := resigned kTimestamp (TimestampFields {| mf_version := version sn' |}) ts in
  makeSnapshot FileData data_length sha256 create_signature b
  = Ok {| seed := seed _ b; keys := keys _ b;
          ourRoles := [("timestamp", ts'); ("snapshot", sn'); ("targets", tg')];
          userFiles := userFiles _ b |}.
Proof.
  intros Hc Hroles Hfts Hfsn Hftg Href Hmeta Hfiles Hk1 Hk2 Hk3.
  destruct b as [sd ks roles uf]. cbn [seed keys ourRoles userFiles] in *.
  subst roles.
  destruct ts as [fts [[vts ets flts] sgts] nsts nvts],
    sn as [fsn [[vsn esn flsn] sgsn] nssn nvsn],
    tg as [ftg [[vtg etg fltg] sgtg] nstg nvtg].
  cbn [fac role] in *. subst fts fsn ftg.
  unfold get_snapshot_meta, get_meta, get_targets in *. cbn [fields signed] in *.
  destruct flts as [| | |ref']; try discriminate Href. injection Href as ->.
  destruct flsn as [| |meta'|]; try discriminate Hmeta. injection Hmeta as ->.
  destruct fltg as [|files'| |]; try discriminate Hfiles. injection Hfiles as ->.
  cbv zeta. cbn [with_role with_fields role signed signed_version expires
                 signatures fac _needsSigning _needsSaving].
  set (ts := {| fac := timestampRoleFac;
                role := {| signed := {| signed_version := vts; expires := ets;
                                        fields := TimestampFields ref |};
                           signatures := sgts |};
                _needsSigning := nsts; _needsSaving := nvts |}).
  set (sn := {| fac := snapshotRoleFac;
                role := {| signed := {| signed_version := vsn; expires := esn;
                                        fields := SnapshotFields meta |};
                           signatures := sgsn |};
                _needsSigning := nssn; _needsSaving := nvsn |}).
  unfold makeSnapshot, bindContent. cbn [userFiles].
  rewrite bindContent_loop. cbn [mbind result_bind].
  fold ts sn.
  (* Targets *)
  erewrite mark_sign; [| reflexivity | exact Hk1].
  set (tg' := (sign kTargets (set_needsSigning true _)).1).
  assert (fac tg' = targetsRoleFac /\
          fields (signed (role tg')) = TargetsFields (bound uf files))
    as [Hf1 Hfl1].
  { destruct (resigned_facts kTargets (TargetsFields (bound uf files))
                {| fac := targetsRoleFac;
                   role := {| signed := {| signed_version := vtg; expires := etg;
                                           fields := TargetsFields files |};
                              signatures := sgtg |};
                   _needsSigning := nstg; _needsSaving := nvtg |})
      as (H1 & H2 & _).
    split; [exact H1 | exact H2]. }
  unfold put_role, with_ourRoles.
  cbn [mbind result_bind seed keys ourRoles userFiles
       PyDict.set String.eqb Ascii.eqb Bool.eqb].
  (* Snapshot *)
  unfold bindMetadata.
  cbn [ourRoles PyDict.values map snd forM].
  rewrite (bindMetadata_step_excluded _ _ ts) by reflexivity.
  cbn [mbind result_bind].
  rewrite (bindMetadata_step_excluded _ _ sn) by reflexivity.
  cbn [mbind result_bind].
  unfold bindMetadata_step at 1.
  assert (isinstance tg' EXCLUDED_FROM_SNAPSHOT = false) as ->
    by (unfold isinstance; by rewrite Hfl1).
  cbn [negb seed]. rewrite Hc. cbn [mbind result_bind].
  unfold RepoBuilder_snapshot.
  cbn [getitem ourRoles PyDict.get String.eqb Ascii.eqb Bool.eqb mbind result_bind].
  change (get_meta (role sn)) with (Ok meta). cbn [mbind result_bind].
  rewrite Hf1.
  erewrite mark_sign; [| reflexivity | exact Hk2].
  unfold put_role, with_ourRoles.
  cbn [mbind result_bind seed keys ourRoles userFiles
       PyDict.set String.eqb Ascii.eqb Bool.eqb].
  (* Timestamp *)
  unfold stamp, RepoBuilder_snapshot, RepoBuilder_timestamp.
  cbn [getitem ourRoles PyDict.get String.eqb Ascii.eqb Bool.eqb mbind result_bind].
  change (get_snapshot_meta (role ts)) with (Ok ref). cbn [mbind result_bind].
  erewrite mark_sign; [| reflexivity | exact Hk3].
  reflexivity.
Qed.


Lemma PyDict_set_same {V} (k : string) (v : V) (d : PyDict.t V) :
  PyDict.get k d = Some v -> PyDict.set k v d = d.
Proof.
  induction d as [|[k' v'] d IH]; [discriminate |].
  cbn [PyDict.get PyDict.set]. destruct (String.eqb k k').
  - by intros [= ->].
  - intros H. by rewrite IH.
Qed.

Lemma bound_get_other (uf : PyDict.t FileData) (files : PyDict.t TargetFile)
    (path : string) :
  ~ In path (PyDict.keys uf) ->
  PyDict.get path (bound uf files) = PyDict.get path files.
Proof.
  revert files. induction uf as [|[k data] uf IH]; intros files Hn; [reflexivity |].
  cbn [PyDict.keys map fst In] in Hn.
  unfold bound_files. cbn [fold_left fst snd]. fold (bound uf).
  unfold bound_files in IH. rewrite IH by tauto.
  apply PyDict_get_set_ne. intros ->. tauto.
Qed.

Lemma bound_get_in (uf : PyDict.t FileData) (files : PyDict.t TargetFile)
    (path : string) (data : FileData) :
  List.NoDup (PyDict.keys uf) -> In (path, data) uf ->
  PyDict.get path (bound uf files)
  = Some (TargetFile_from_data FileData data_length sha256 path data).
Proof.
  revert files. induction uf as [|[k d] uf IH]; intros files Hnd Hin; [destruct Hin |].
  cbn [PyDict.keys map fst] in Hnd. apply List.NoDup_cons_iff in Hnd as [Hk Hnd].
  unfold bound_files. cbn [fold_left fst snd].
  destruct Hin as [[= -> ->] | Hin].
  - pose proof (bound_get_other uf
                  (PyDict.set path
                     (TargetFile_from_data FileData data_length sha256 path data)
                     files) path Hk) as H.
    unfold bound_files in H. rewrite H. apply PyDict_get_set_eq.
  - pose proof (IH (PyDict.set k
                      (TargetFile_from_data FileData data_length sha256 k d) files)
                  Hnd Hin) as H.
    exact H.
Qed.

Lemma bindContent_loop_any (b : RepoBuilder FileData) (tg : OurRole)
    (files : PyDict.t TargetFile) (uf : PyDict.t FileData) :
  PyDict.get "targets" (ourRoles _ b) = Some tg ->
  get_targets (role tg) = Ok files ->
  forM (bindContent_step FileData data_length sha256) uf b
  = Ok (put_role FileData "targets"
          (with_role (with_fields (TargetsFields (bound uf files)) (role tg)) tg) b).
Proof.
  revert b tg files. induction uf as [|kv uf IH]; intros b tg files Hg Hf.
  - cbn [forM bound_files fold_left]. f_equal.
    destruct b as [sd ks roles uf0]. unfold put_role, with_ourRoles.
    cbn [seed keys ourRoles userFiles] in *. f_equal.
    symmetry. apply PyDict_set_same. rewrite Hg. f_equal.
    destruct tg as [f [[v e fl] sg] ns nv]. unfold get_targets in Hf.
    cbn [role signed fields] in Hf. destruct fl; try discriminate Hf.
    by injection Hf as ->.
  - cbn [forM].
    assert (bindContent_step FileData data_length sha256 b kv
            = Ok (put_role FileData "targets"
                    (with_role
                       (with_fields
                          (TargetsFields
                             (PyDict.set (fst kv)
                                (TargetFile_from_data FileData data_length sha256
                                   (fst kv) (snd kv)) files))
                          (role tg)) tg) b)) as ->.
    { unfold bindContent_step, RepoBuilder_targets, getitem.
      rewrite Hg. cbn [mbind result_bind]. by rewrite Hf. }
    cbn [mbind result_bind].
    erewrite IH; [| unfold put_role, with_ourRoles; cbn [ourRoles];
                    apply PyDict_get_set_eq | reflexivity].
    unfold put_role, with_ourRoles. cbn [seed keys ourRoles userFiles].
    rewrite PyDict_set_set. reflexivity.
Qed.

(** Property X14.  [bindContent] lists every user file in the Targets
    payload with its length and its SHA-256 digest, keeps the entries of
    every other path, and signs the result: the Targets version goes up by
    one and the record comes out signed and pending. *)
Theorem X14_bindContent (b : RepoBuilder FileData) (tg : OurRole) (key : Key)
    (files : PyDict.t TargetFile) :
  PyDict.get "targets" (ourRoles _ b) = Some tg ->
  get_targets (role tg) = Ok files ->
  keys _ b !! OurRole_name tg = Some key ->
  List.NoDup (PyDict.keys (userFiles _ b)) ->
  exists b' tg' files',
    bindContent FileData data_length sha256 create_signature b = Ok b' /\
    RepoBuilder_targets FileData b' = Ok tg' /\
    get_targets (role tg') = Ok files' /\
    version tg' = version tg + 1 /\
    needsSigning tg' = false /\ needsSaving tg' = true /\
    (forall path data,
       In (path, data) (userFiles _ b) ->
       PyDict.get path files'
       = Some {| tf_length := data_length data;
                 tf_hashes := [("sha256", sha256 data)];
                 tf_path := path |}) /\
    (forall path,
       ~ In path (PyDict.keys (userFiles _ b)) ->
       PyDict.get path files' = PyDict.get path files).
Proof.
  intros Hg Hf Hk Hnd.
  set (tg1 := with_role (with_fields (TargetsFields (bound (userFiles _ b) files))
                           (role tg)) tg).
  destruct (resigned_facts key (TargetsFields (bound (userFiles _ b) files)) tg)
    as (H1 & H2 & H3 & H4 & H5).
  fold tg1 in H1, H2, H3, H4, H5.
  exists (put_role FileData "targets" (sign key (set_needsSigning true tg1)).1 b),
    (sign key (set_needsSigning true tg1)).1, (bound (userFiles _ b) files).
  split.
  { unfold bindContent. rewrite (bindContent_loop_any b tg files _ Hg Hf).
    cbn [mbind result_bind]. fold tg1.
    rewrite (mark_sign _ "targets" tg1 key).
    - unfold put_role, with_ourRoles. cbn [seed keys ourRoles userFiles].
      by rewrite PyDict_set_set.
    - unfold put_role, with_ourRoles. cbn [ourRoles]. apply PyDict_get_set_eq.
    - exact Hk. }
  split.
  { unfold RepoBuilder_targets, getitem, put_role, with_ourRoles. cbn [ourRoles].
    by rewrite PyDict_get_set_eq. }
  split; [unfold get_targets; by rewrite H2 |].
  split; [exact H3 |]. split; [exact H4 |]. split; [exact H5 |].
  split.
  - intros path data Hin. by apply bound_get_in.
  - intros path Hn. by apply bound_get_other.
Qed.

(** What the cascade leaves behind. *)
Lemma makeSnapshot_pins (b : RepoBuilder FileData) (ts sn tg : OurRole)
    (kTargets kSnapshot kTimestamp : Key) (consistent : bool)
    (files : PyDict.t TargetFile) (meta : PyDict.t MetaFile) (ref : MetaFile) :
  RepoSeed_isConsistent (seed _ b) = Ok consistent ->
  ourRoles _ b = [("timestamp", ts); ("snapshot", sn); ("targets", tg)] ->
  fac ts = timestampRoleFac -> fac sn = snapshotRoleFac -> fac tg = targetsRoleFac ->
  get_snapshot_meta (role ts) = Ok ref ->
  get_meta (role sn) = Ok meta ->
  get_targets (role tg) = Ok files ->
  keys _ b !! "targets" = Some kTargets ->
  keys _ b !! "snapshot" = Some kSnapshot ->
  keys _ b !! "timestamp" = Some kTimestamp ->
  exists ts' sn' tg' meta',
    makeSnapshot FileData data_length sha256 create_signature b
    = Ok {| seed := seed _ b; keys := keys _ b;
            ourRoles := [("timestamp", ts'); ("snapshot", sn'); ("targets", tg')];
            userFiles := userFiles _ b |} /\
    (version ts' = version ts + 1 /\ version sn' = version sn + 1 /\
     version tg' = version tg + 1) /\
    Forall (fun r => needsSigning r = false /\ needsSaving r = true)
      [ts'; sn'; tg'] /\
    (fac ts' = timestampRoleFac /\ fac sn' = snapshotRoleFac /\
     fac tg' = targetsRoleFac) /\
    get_snapshot_meta (role ts') = Ok {| mf_version := version sn' |} /\
    get_meta (role sn') = Ok meta' /\
    PyDict.get (fileNameForRole targetsRoleFac (version tg') consistent) meta'
    = Some {| mf_version := version tg' |} /\
    (forall fn, fn <> fileNameForRole targetsRoleFac (version tg') consistent ->
                PyDict.get fn meta' = PyDict.get fn meta) /\
    get_targets (role tg') = Ok (bound (userFiles _ b) files).
Proof.
  intros Hc Hroles Hfts Hfsn Hftg Href Hmeta Hfiles Hk1 Hk2 Hk3.
  pose proof (makeSnapshot_result b ts sn tg kTargets kSnapshot kTimestamp
                consistent files meta ref Hc Hroles Hfts Hfsn Hftg Href Hmeta
                Hfiles Hk1 Hk2 Hk3) as H.
  cbv zeta in H.
  set (tg' := resigned kTargets (TargetsFields (bound (userFiles _ b) files)) tg) in *.
  set (meta' := PyDict.set (fileNameForRole targetsRoleFac (version tg') consistent)
                  {| mf_version := version tg' |} meta) in *.
  set (sn' := resigned kSnapshot (SnapshotFields meta') sn) in *.
  set (ts' := resigned kTimestamp (TimestampFields {| mf_version := version sn' |}) ts)
    in *.
  destruct (resigned_facts kTargets (TargetsFields (bound (userFiles _ b) files)) tg)
    as (A1 & A2 & A3 & A4 & A5).
  destruct (resigned_facts kSnapshot (SnapshotFields meta') sn)
    as (B1 & B2 & B3 & B4 & B5).
  destruct (resigned_facts kTimestamp
              (TimestampFields {| mf_version := version sn' |}) ts)
    as (T1 & T2 & T3 & T4 & T5).
  fold tg' in A1, A2, A3, A4, A5. fold sn' in B1, B2, B3, B4, B5.
  fold ts' in T1, T2, T3, T4, T5.
  exists ts', sn', tg', meta'.
  split; [exact H |]. split; [by repeat split |].
  split; [by repeat constructor |].
  split; [by rewrite A1, B1, T1 |].
  split; [unfold get_snapshot_meta; by rewrite T2 |].
  split; [unfold get_meta; by rewrite B2 |].
  split; [apply PyDict_get_set_eq |].
  split; [intros fn Hne; by apply PyDict_get_set_ne |].
  unfold get_targets. by rewrite A2.
Qed.

(** Property X15.  The publish cascade leaves the three roles pinned to
    each other, in both modes.  For a builder that holds the three records
    and a key for each, [makeSnapshot] succeeds; every version goes up by
    one; every record comes out signed and pending; the Snapshot records
    the new Targets version under the Targets file name of the mode; the
    Timestamp refers to the new Snapshot version; seed, keys and user files
    are unchanged. *)
Theorem X15_makeSnapshot_pins (b : RepoBuilder FileData) (ts sn tg : OurRole)
    (kTargets kSnapshot kTimestamp : Key) (consistent : bool)
    (files : PyDict.t TargetFile) (meta : PyDict.t MetaFile) (ref : MetaFile) :
  RepoSeed_isConsistent (seed _ b) = Ok consistent ->
  ourRoles _ b = [("timestamp", ts); ("snapshot", sn); ("targets", tg)] ->
  fac ts = timestampRoleFac -> fac sn = snapshotRoleFac -> fac tg = targetsRoleFac ->
  get_snapshot_meta (role ts) = Ok ref ->
  get_meta (role sn) = Ok meta ->
  get_targets (role tg) = Ok files ->
  keys _ b !! "targets" = Some kTargets ->
  keys _ b !! "snapshot" = Some kSnapshot ->
  keys _ b !! "timestamp" = Some kTimestamp ->
  exists ts' sn' tg' meta',
    makeSnapshot FileData data_length sha256 create_signature b
    = Ok {| seed := seed _ b; keys := keys _ b;
            ourRoles := [("timestamp", ts'); ("snapshot", sn'); ("targets", tg')];
            userFiles := userFiles _ b |} /\
    (version ts' = version ts + 1 /\ version sn' = version sn + 1 /\
     version tg' = version tg + 1) /\
    Forall (fun r => needsSigning r = false /\ needsSaving r = true)
      [ts'; sn'; tg'] /\
    (fac ts' = timestampRoleFac /\ fac sn' = snapshotRoleFac /\
     fac tg' = targetsRoleFac) /\
    get_snapshot_meta (role ts') = Ok {| mf_version := version sn' |} /\
    get_meta (role sn') = Ok meta' /\
    PyDict.get (fileNameForRole targetsRoleFac (version tg') consistent) meta'
    = Some {| mf_version := version tg' |} /\
    (forall fn, fn <> fileNameForRole targetsRoleFac (version tg') consistent ->
                PyDict.get fn meta' = PyDict.get fn meta) /\
    get_targets (role tg') = Ok (bound (userFiles _ b) files).
Proof. apply makeSnapshot_pins. Qed.

End Cascade.

(** ** Saving a builder *)

Section Saving.
Variable FileData : Type.
Variable unprocess : Metadata -> FileData.
Variable process : FileData -> result Metadata.
Variable data_length : FileData -> Z.
Variable sha256 : FileData -> string.
Variable create_signature : Key -> Signed -> string.
Variable tuf_default_snapshot_meta : MetaFile.
Variable tuf_default_meta : PyDict.t MetaFile.

(** Property X16.  Publish, save, reconcile is a round trip in simple mode
    for every builder, whatever its user files and the versions it starts
    from: after the cascade and a save into any directory, reconciling the
    resulting directory returns the three records with exactly the payloads
    that were written, each of them clean.  The user files are named by
    plain file names other than those of the metadata files, and the
    serializer must decode what it encodes. *)
Theorem X16_publish_roundtrip (b : RepoBuilder FileData) (ts sn tg : OurRole)
    (kTargets kSnapshot kTimestamp : Key)
    (files : PyDict.t TargetFile) (meta : PyDict.t MetaFile) (ref : MetaFile)
    (repoRoot : gmap string FileData) (later : Z) :
  (forall m, process (unprocess m) = Ok m) ->
  RepoSeed_isConsistent (seed _ b) = Ok false ->
  ourRoles _ b = [("timestamp", ts); ("snapshot", sn); ("targets", tg)] ->
  fac ts = timestampRoleFac -> fac sn = snapshotRoleFac -> fac tg = targetsRoleFac ->
  get_snapshot_meta (role ts) = Ok ref ->
  get_meta (role sn) = Ok meta ->
  get_targets (role tg) = Ok files ->
  keys _ b !! "targets" = Some kTargets ->
  keys _ b !! "snapshot" = Some kSnapshot ->
  keys _ b !! "timestamp" = Some kTimestamp ->
  Forall (fun k => plain_name k = true) (PyDict.keys (userFiles _ b)) ->
  Forall (fun k => ~ In k (PyDict.keys (userFiles _ b))) metadata_names ->
  exists b1 d b2,
    makeSnapshot FileData data_length sha256 create_signature b = Ok b1 /\
    RepoBuilder_save FileData unprocess repoRoot b1 = Ok (d, b2) /\
    loadOrCreateRoles FileData process tuf_default_snapshot_meta tuf_default_meta
      ROLES_MODEL (Some d) false later
    = Ok (map (fun kr => (fst kr, OurRole_init (fac (snd kr)) (role (snd kr))))
            (ourRoles _ b1)).
Proof.
  intros Hpu Hc Hroles Hfts Hfsn Hftg Href Hmeta Hfiles Hk1 Hk2 Hk3 _ Huf.
  destruct (makeSnapshot_pins FileData data_length sha256 create_signature
              b ts sn tg kTargets kSnapshot kTimestamp false files meta ref
              Hc Hroles Hfts Hfsn Hftg Href Hmeta Hfiles Hk1 Hk2 Hk3)
    as (ts' & sn' & tg' & meta' & Hmk & _ & Hflags & (Hf1 & Hf2 & Hf3)
        & Href' & Hmeta' & Hpin & _ & _).
  set (b1 := {| seed := seed _ b; keys := keys _ b;
                ourRoles := [("timestamp", ts'); ("snapshot", sn'); ("targets", tg')];
                userFiles := userFiles _ b |}) in *.
  destruct (save_then_reconcile FileData unprocess process
              tuf_default_snapshot_meta tuf_default_meta Hpu
              b1 ts' sn' tg' _ _ meta' repoRoot later
              Hc eq_refl Hf1 Hf2 Hf3 Hflags Href' eq_refl Hmeta' Hpin eq_refl Huf)
    as (d & b2 & Hsave & Hrec).
  exists b1, d, b2. split; [exact Hmk |]. split; [exact Hsave |].
  rewrite Hrec. cbn [ourRoles b1 map fst snd]. by rewrite Hf1, Hf2, Hf3.
Qed.

End Saving.

Section SavingFiles.
Variable FileData : Type.
Variable unprocess : Metadata -> FileData.

Lemma saveMeta_loop_keeps (roles : PyDict.t OurRole)
    (st st' : gmap string FileData * RepoBuilder FileData) :
  forM (saveMeta_step FileData unprocess) roles st = Ok st' ->
  seed _ (snd st') = seed _ (snd st) /\
  userFiles _ (snd st') = userFiles _ (snd st).
Proof.
  revert st. induction roles as [|kv roles IH]; intros st H.
  - cbn in H. by injection H as <-.
  - cbn [forM] in H. bind_ok H as st1 E1.
    destruct (IH _ H) as [Hs Hu]. rewrite Hs, Hu.
    unfold saveMeta_step in E1. bind_ok E1 as c Ec. bind_ok E1 as p Ep.
    destruct p as [d oR]. by injection E1 as <-.
Qed.

Lemma saveFiles_loop_simple (self : RepoBuilder FileData)
    (uf : PyDict.t FileData) (d : gmap string FileData) :
  RepoSeed_isConsistent (seed _ self) = Ok false ->
  List.NoDup (PyDict.keys uf) ->
  exists d',
    forM (saveFiles_step FileData self) uf d = Ok d' /\
    (forall path data, In (path, data) uf -> d' !! path = Some data) /\
    (forall k, ~ In k (PyDict.keys uf) -> d' !! k = d !! k).
Proof.
  intros Hc. revert d. induction uf as [|[k x] uf IH]; intros d Hnd.
  - exists d. split; [reflexivity |]. split; [intros ? ? [] | done].
  - cbn [PyDict.keys map fst] in Hnd. apply List.NoDup_cons_iff in Hnd as [Hk Hnd].
    cbn [forM]. rewrite (saveFiles_step_simple _ _ _ _ Hc).
    cbn [mbind result_bind fst snd].
    destruct (IH (<[k := x]> d) Hnd) as (d' & Hd' & Hin & Hout).
    exists d'. split; [exact Hd' |]. split.
    + intros path data [[= -> ->] | H]; [| by apply Hin].
      rewrite Hout by exact Hk. apply lookup_insert_eq.
    + intros k' Hk'. cbn [PyDict.keys map fst In] in Hk'.
      rewrite Hout by tauto. apply lookup_insert_ne. tauto.
Qed.

(** Property X17.  In simple mode a successful [save] leaves every user
    file, named by a plain file name, in the directory under that name with
    its content.  User files are written after the metadata, so a user
    file that bears the name of a metadata file replaces it. *)
Theorem X17_save_writes_user_files (b b' : RepoBuilder FileData)
    (repoRoot d : gmap string FileData) :
  RepoSeed_isConsistent (seed _ b) = Ok false ->
  List.NoDup (PyDict.keys (userFiles _ b)) ->
  Forall (fun k => plain_name k = true) (PyDict.keys (userFiles _ b)) ->
  RepoBuilder_save FileData unprocess repoRoot b = Ok (d, b') ->
  forall path data, In (path, data) (userFiles _ b) -> d !! path = Some data.
Proof.
  intros Hc Hnd _ H. unfold RepoBuilder_save in H.
  bind_ok H as p Ep. destruct p as [d1 b1]. bind_ok H as d2 Ed.
  injection H as <- <-.
  unfold saveMeta in Ep. apply saveMeta_loop_keeps in Ep as [Hs Hu].
  cbn [snd] in Hs, Hu.
  unfold saveFiles in Ed. rewrite Hu in Ed.
  destruct (saveFiles_loop_simple b1 (userFiles _ b) d1) as (d' & Hd' & Hin & _);
    [by rewrite Hs | exact Hnd |].
  rewrite Hd' in Ed. injection Ed as <-. exact Hin.
Qed.

(** Property X18.  In consistent mode a user file is stored under a name
    that starts with its digest, which [saveFiles] reads from the Targets
    payload: if some user file has no entry there, because it was added
    after the last [bindContent], [saveFiles] raises KeyError. *)
Theorem X18_saveFiles_unbound (b : RepoBuilder FileData) (tg : OurRole)
    (files : PyDict.t TargetFile) (path : string)
    (repoRoot : gmap string FileData) :
  RepoSeed_isConsistent (seed _ b) = Ok true ->
  RepoBuilder_targets FileData b = Ok tg ->
  get_targets (role tg) = Ok files ->
  In path (PyDict.keys (userFiles _ b)) ->
  PyDict.get path files = None ->
  exists k, saveFiles FileData repoRoot b = Err (KeyError k).
Proof.
  intros Hc Htg Hf Hin Hnone. unfold saveFiles.
  assert (forall fn d kv, fst kv = fn ->
            saveFiles_step FileData b d kv
            = match PyDict.get fn files with
              | Some targetFile =>
                match PyDict.get "sha256" (tf_hashes targetFile) with
                | Some digest => Ok (<[(digest +:+ ".") +:+ fn := snd kv]> d)
                | None => Err (KeyError "sha256")
                end
              | None => Err (KeyError fn)
              end) as Hstep.
  { intros fn d kv <-. unfold saveFiles_step, getPrefixForUserFile.
    unfold RepoSeed_isConsistent in Hc. rewrite Hc. cbn [mbind result_bind].
    rewrite Htg. cbn [mbind result_bind]. rewrite Hf. cbn [mbind result_bind].
    unfold getitem. destruct (PyDict.get (fst kv) files) as [t|]; [| reflexivity].
    cbn [mbind result_bind].
    by destruct (PyDict.get "sha256" (tf_hashes t)). }
  revert repoRoot. induction (userFiles _ b) as [|kv uf IH]; intros d;
    [destruct Hin |].
  cbn [forM]. rewrite (Hstep (fst kv) d kv eq_refl).
  cbn [PyDict.keys map In] in Hin.
  destruct (PyDict.get (fst kv) files) as [t|] eqn:Et; [| by eexists].
  destruct (PyDict.get "sha256" (tf_hashes t)) as [digest|]; [| by eexists].
  cbn [mbind result_bind]. apply IH.
  destruct Hin as [Heq | Hin]; [| exact Hin]. congruence.
Qed.

End SavingFiles.

(** ** Reconciliation and the builder it fills *)

Section Builder.
Variable FileData : Type.
Variable process : FileData -> result Metadata.
Variable tuf_default_snapshot_meta : MetaFile.
Variable tuf_default_meta : PyDict.t MetaFile.

Local Abbreviation fresh :=
  (createEmpty tuf_default_snapshot_meta tuf_default_meta).

(** A record that [loadOrCreate] returns is of the requested role; it is
    clean if it was loaded and as [createEmpty] makes it otherwise. *)
Lemma loadOrCreate_record (roleFactory : RoleFactory)
    (repoRoot : option (gmap string FileData)) (isConsistent : bool)
    (versionToLoad : option Z) (now : Z) (r : OurRole) (isLoaded : bool) :
  RolesStrategy_loadOrCreate FileData process tuf_default_snapshot_meta
    tuf_default_meta roleFactory repoRoot isConsistent versionToLoad now
  = Ok (r, isLoaded) ->
  if isLoaded then exists m, r = OurRole_init roleFactory m
  else r = fresh roleFactory now.
Proof.
  unfold RolesStrategy_loadOrCreate, RolePersister_loadOrCreate.
  destruct repoRoot as [d|]; [| by intros [= <- <-]].
  destruct (RolePersister_loadFromRepo _ _ _ _ _ _) as [r'|[]] eqn:E;
    try discriminate; [| by intros [= <- <-]].
  intros [= <- <-]. apply loadFromRepo_clean in E as (m & -> & _). by exists m.
Qed.

Lemma loadOrCreate_fac (roleFactory : RoleFactory)
    (repoRoot : option (gmap string FileData)) (isConsistent : bool)
    (versionToLoad : option Z) (now : Z) (r : OurRole) (isLoaded : bool) :
  RolesStrategy_loadOrCreate FileData process tuf_default_snapshot_meta
    tuf_default_meta roleFactory repoRoot isConsistent versionToLoad now
  = Ok (r, isLoaded) ->
  fac r = roleFactory /\ dirty_needs_saving r = true.
Proof.
  intros H. apply loadOrCreate_record in H.
  destruct isLoaded; [destruct H as [m ->] | subst r]; by split.
Qed.

Lemma reconcile_shape (repoRoot : option (gmap string FileData))
    (isConsistent : bool) (now : Z) (roles : PyDict.t OurRole) :
  loadOrCreateRoles FileData process tuf_default_snapshot_meta tuf_default_meta
    ROLES_MODEL repoRoot isConsistent now = Ok roles ->
  exists ts sn tg ref meta,
    roles = [("timestamp", ts); ("snapshot", sn); ("targets", tg)] /\
    (fac ts = timestampRoleFac /\ fac sn = snapshotRoleFac /\
     fac tg = targetsRoleFac) /\
    Forall (fun r => dirty_needs_saving r = true) [ts; sn; tg] /\
    get_snapshot_meta (role ts) = Ok ref /\
    get_meta (role sn) = Ok meta.
Proof.
  rewrite reconcile_unfold. intros H.
  bind_ok H as rolesDict E1. bind_ok H as snapshot E2. bind_ok H as meta E3.
  bind_ok H as st E4. injection H as <-.
  unfold loadTimestampAndSnapshot in E1.
  change (getitem "timestamp" ROLES_MODEL) with (Ok timestampRoleFac) in E1.
  change (getitem "snapshot" ROLES_MODEL) with (Ok snapshotRoleFac) in E1.
  cbn [mbind result_bind] in E1.
  bind_ok E1 as p1 F1. destruct p1 as [ts l1].
  bind_ok E1 as ref F2. bind_ok E1 as p2 F3. destruct p2 as [sn0 l2].
  bind_ok E1 as sn F4. injection E1 as <-.
  apply loadOrCreate_fac in F1 as [Hfts Hdts].
  apply loadOrCreate_fac in F3 as [Hfsn0 Hdsn0].
  assert (fac sn = snapshotRoleFac /\ dirty_needs_saving sn = true) as [Hfsn Hdsn].
  { destruct l2; [by injection F4 as <- |].
    unfold clear_meta in F4. bind_ok F4 as m0 F5. by injection F4 as <-. }
  cbn [PyDict.set String.eqb Ascii.eqb Bool.eqb getitem PyDict.get] in E2.
  injection E2 as <-.
  rewrite remaining_targets in E4.
  bind_ok E4 as vs G1. bind_ok E4 as tg G2. injection E4 as <-.
  cbn [fst PyDict.set String.eqb Ascii.eqb Bool.eqb].
  exists ts, sn, tg, ref, meta.
  split; [reflexivity |].
  assert (fac tg = targetsRoleFac /\ dirty_needs_saving tg = true) as [Hftg Hdtg].
  { destruct vs as [|[fv fn] [|]]; [by injection G2 as <- | | discriminate].
    bind_ok G2 as metaFile G3. bind_ok G2 as u G4.
    destruct repoRoot as [d|]; [| discriminate].
    unfold RolesStrategy_loadFromFile, RolePersister_loadFromFile in G2.
    destruct (d !! fn) as [data|]; [| discriminate].
    by apply loadFromData_clean in G2 as (m & _ & -> & _). }
  split; [by repeat split |]. split; [by repeat constructor |].
  split; [exact F2 | exact E3].
Qed.

(** Property X19.  What a builder holds once it has been constructed.  The
    constructor keeps the seed and the keys it was given and starts with
    no user file; it holds exactly the three records Timestamp, Snapshot
    and Targets, in this order, each of the role type of its name; the
    Timestamp payload has a Snapshot reference and the Snapshot payload a
    listing; and no record is dirty without also being pending. *)
Theorem X19_builder_after_init (seed_ : RepoSeed) (keys_ : gmap string Key)
    (repoRoot : option (gmap string FileData)) (now : Z)
    (b : RepoBuilder FileData) :
  RepoBuilder_init FileData process tuf_default_snapshot_meta tuf_default_meta
    seed_ keys_ repoRoot now = Ok b ->
  seed _ b = seed_ /\ keys _ b = keys_ /\ userFiles _ b = [] /\
  exists ts sn tg ref meta,
    ourRoles _ b = [("timestamp", ts); ("snapshot", sn); ("targets", tg)] /\
    (fac ts = timestampRoleFac /\ fac sn = snapshotRoleFac /\
     fac tg = targetsRoleFac) /\
    Forall (fun r => dirty_needs_saving r = true) [ts; sn; tg] /\
    get_snapshot_meta (role ts) = Ok ref /\
    get_meta (role sn) = Ok meta.
Proof.
  unfold RepoBuilder_init, RepoBuilder_load. cbn [seed ourRoles]. intros H.
  bind_ok H as c Ec. bind_ok H as roles Er. injection H as <-.
  unfold STRATEGY_model in Er.
  destruct (reconcile_shape _ _ _ _ Er)
    as (ts & sn & tg & ref & meta & -> & Hf & Hd & Href & Hmeta).
  cbn [with_ourRoles seed keys userFiles ourRoles].
  repeat split. by exists ts, sn, tg, ref, meta.
Qed.

(** Property X20.  An ambiguous listing is fatal.  When the first two
    roles have been loaded and the file names listed by the Snapshot give
    two or more candidates for Targets, reconciliation raises the error
    that names the role and the candidates, and loads nothing more.  In
    simple mode this cannot happen: discovery returns at most one
    candidate. *)
Theorem X20_ambiguous_candidates (repoRoot : option (gmap string FileData))
    (isConsistent : bool) (now : Z) (rolesDict : PyDict.t OurRole)
    (snapshot : OurRole) (meta : PyDict.t MetaFile)
    (c1 c2 : option Z * string) (cs : list (option Z * string)) :
  (loadTimestampAndSnapshot FileData process tuf_default_snapshot_meta
     tuf_default_meta ROLES_MODEL repoRoot now = Ok rolesDict ->
   PyDict.get "snapshot" rolesDict = Some snapshot ->
   get_meta (role snapshot) = Ok meta ->
   RolePersister_discoverVersionsFromFileNames targetsRoleFac (PyDict.keys meta)
     (isRoleConsistent targetsRoleFac isConsistent) = Ok (c1 :: c2 :: cs) ->
   loadOrCreateRoles FileData process tuf_default_snapshot_meta tuf_default_meta
     ROLES_MODEL repoRoot isConsistent now
   = Err (NotUniqueMetadataFile "targets" (c1 :: c2 :: cs))) /\
  RolePersister_discoverVersionsFromFileNames targetsRoleFac (PyDict.keys meta)
    false <> Ok (c1 :: c2 :: cs).
Proof.
  split.
  - intros E1 E2 E3 E4. rewrite reconcile_unfold, E1. cbn [mbind result_bind].
    unfold getitem. rewrite E2. cbn [mbind result_bind]. rewrite E3.
    cbn [mbind result_bind]. rewrite remaining_targets, E4.
    by destruct c1.
  - unfold RolePersister_discoverVersionsFromFileNames,
      OurRoleLayout.discoverVersionsFromFileNames,
      OurRoleLayout.discoverSipleVersionsFromFileNames.
    change (str_contains "*" (name targetsRoleFac)) with false. cbv iota.
    by destruct (existsb _ _).
Qed.

(** Property X21.  The last check of [loadOrCreateRoles] cannot fail for
    the model in use: once Timestamp and Snapshot are in place, the only
    role left to load is Targets, and whenever the loop over the roles
    left to load completes, none is left, so "Not all roles loaded" is
    never raised. *)
Theorem X21_no_role_left (repoRoot : option (gmap string FileData))
    (isConsistent : bool) (now : Z) (rolesDict rolesDict' : PyDict.t OurRole)
    (meta : PyDict.t MetaFile) (rolesToLoad : list string) :
  loadTimestampAndSnapshot FileData process tuf_default_snapshot_meta
    tuf_default_meta ROLES_MODEL repoRoot now = Ok rolesDict ->
  rolesStillToLoad ROLES_MODEL rolesDict = ["targets"] /\
  (forM (loadRemainingRole FileData process tuf_default_snapshot_meta
           tuf_default_meta ROLES_MODEL repoRoot isConsistent now meta)
        (sorted_strings (rolesStillToLoad ROLES_MODEL rolesDict))
        (rolesDict, rolesStillToLoad ROLES_MODEL rolesDict)
   = Ok (rolesDict', rolesToLoad) ->
   rolesToLoad = [] /\
   exists targets, rolesDict' = PyDict.set "targets" targets rolesDict).
Proof.
  intros E1. destruct (first_two_shape _ _ _ _ _ _ _ E1) as (ts & sn & ->).
  change (rolesStillToLoad ROLES_MODEL [("timestamp", ts); ("snapshot", sn)])
    with ["targets"].
  split; [reflexivity |].
  change (sorted_strings ["targets"]) with ["targets"]. cbn [forM].
  rewrite remaining_targets. intros H.
  bind_ok H as st E2. bind_ok E2 as vs E3. bind_ok E2 as tg E4.
  injection E2 as <-. injection H as <- <-.
  split; [reflexivity | by exists tg].
Qed.

End Builder.

(** ** The seed and its root *)

Lemma str_ends_with_spec (suffix name : string) :
  str_ends_with suffix name = true <-> exists p, name = p +:+ suffix.
Proof.
  induction name as [|c name' IH]; cbn [str_ends_with].
  - rewrite orb_false_r. split.
    + intros H. apply String.eqb_eq in H as ->. by exists "".
    + intros [p Hp]. destruct p; [| discriminate Hp].
      change ("" +:+ suffix) with suffix in Hp. subst. apply String.eqb_refl.
  - rewrite orb_true_iff, IH. split.
    + intros [H | [p ->]].
      * apply String.eqb_eq in H as ->. by exists "".
      * by exists (String c p).
    + intros [[|c' p] Hp].
      * left. change ("" +:+ suffix) with suffix in Hp. subst.
        apply String.eqb_refl.
      * right. rewrite append_cons in Hp. injection Hp as -> ->. by exists p.
Qed.

Lemma In_discoverFilesInRepoRoot {D} (repoRoot : gmap string D) (fn : string) :
  In fn (OurRoleLayout.discoverFilesInRepoRoot repoRoot) <-> is_Some (repoRoot !! fn).
Proof.
  unfold OurRoleLayout.discoverFilesInRepoRoot.
  rewrite <- list_elem_of_In, list_elem_of_fmap. split.
  - intros ([k x] & -> & Hx). apply elem_of_map_to_list in Hx. by exists x.
  - intros [x Hx]. exists (fn, x). split; [reflexivity |].
    by apply elem_of_map_to_list.
Qed.

Lemma NoDup_discoverFilesInRepoRoot {D} (repoRoot : gmap string D) :
  List.NoDup (OurRoleLayout.discoverFilesInRepoRoot repoRoot).
Proof.
  apply NoDup_ListNoDup. unfold OurRoleLayout.discoverFilesInRepoRoot.
  apply (NoDup_fst_map_to_list repoRoot).
Qed.

Section SeedRoot.
Variable FileData : Type.
Variable unprocess : Metadata -> FileData.
Variable process : FileData -> result Metadata.
Variable create_signature : Key -> Signed -> string.
Variable tuf_default_snapshot_meta : MetaFile.
Variable tuf_default_meta : PyDict.t MetaFile.

Local Abbreviation load_root := (loadRoot FileData process).

(** Property X22.  The seed's root is always saved as [root.json], in both
    modes and at every version, and [loadRoot] of the directory reads it
    back: the plain name is looked up first, so the result is the saved
    payload, as a clean record, whatever other files the directory holds. *)
Theorem X22_root_roundtrip (seed_ : RepoSeed) (repoRoot : gmap string FileData) :
  (forall m, process (unprocess m) = Ok m) ->
  fac (root seed_) = ROOT_ROLE_FAC ->
  needsSaving (root seed_) = true -> needsSigning (root seed_) = false ->
  exists seed',
    RepoSeed_save FileData unprocess repoRoot seed_
    = Ok (<["root.json" := unprocess (role (root seed_))]> repoRoot, seed') /\
    role (root seed') = role (root seed_) /\
    needsSaving (root seed') = false /\
    load_root
      (SrcDir FileData (<["root.json" := unprocess (role (root seed_))]> repoRoot))
    = RootLoaded (OurRole_init ROOT_ROLE_FAC (role (root seed_))).
Proof.
  intros Hpu Hf Hs Hd. destruct seed_ as [r ks]. cbn [root] in *.
  unfold RepoSeed_save, RolesStrategy_save, RolePersister_save.
  cbn [root]. rewrite Hs, Hd. cbn [mbind result_bind].
  unfold RolePersister__save. rewrite Hf.
  change (RolePersister_getFileName ROOT_ROLE_FAC (version r)
            (isRoleConsistent ROOT_ROLE_FAC false)) with "root.json".
  eexists. split; [reflexivity |]. cbn [root seed_keys].
  split; [reflexivity |]. split; [reflexivity |].
  unfold loadRoot.
  change (fileNameForRole ROOT_ROLE_FAC 0 false) with "root.json".
  rewrite lookup_insert_eq.
  unfold RolesStrategy_loadFromFile, RolePersister_loadFromFile.
  rewrite lookup_insert_eq. unfold RolePersister_loadFromData.
  by rewrite Hpu.
Qed.

(** Property X23.  [loadRoot] of a directory without [root.json] looks at
    the files whose names end in [.root.json].  With two of them or more it
    refuses to guess and raises its ValueError; with exactly one it loads
    that file, without comparing the version in the name with the one in
    the payload; with none it does not raise a file-not-found error but
    fails on the indexing of the empty list of candidates. *)
Theorem X23_loadRoot_candidates (d : gmap string FileData) :
  d !! "root.json" = None ->
  ((forall fn, is_Some (d !! fn) -> str_ends_with ".root.json" fn = false) ->
   load_root (SrcDir FileData d) = LoadRootRaised IndexError) /\
  (forall fn1 fn2,
     fn1 <> fn2 -> is_Some (d !! fn1) -> is_Some (d !! fn2) ->
     str_ends_with ".root.json" fn1 = true ->
     str_ends_with ".root.json" fn2 = true ->
     load_root (SrcDir FileData d) = MoreThanOneConsistentCand) /\
  (forall fn data,
     d !! fn = Some data -> str_ends_with ".root.json" fn = true ->
     (forall fn', is_Some (d !! fn') -> str_ends_with ".root.json" fn' = true ->
                  fn' = fn) ->
     load_root (SrcDir FileData d)
     = load_root_result
         (RolePersister_loadFromData FileData process ROOT_ROLE_FAC data None)).
Proof.
  intros Hnone. unfold loadRoot.
  change (fileNameForRole ROOT_ROLE_FAC 0 false) with "root.json".
  rewrite Hnone. change ("." +:+ "root.json") with ".root.json".
  set (cands := List.filter (str_ends_with ".root.json")
                  (OurRoleLayout.discoverFilesInRepoRoot d)).
  assert (forall fn, In fn cands
                     <-> is_Some (d !! fn) /\ str_ends_with ".root.json" fn = true)
    as Hc.
  { intros fn. unfold cands. rewrite filter_In.
    by rewrite In_discoverFilesInRepoRoot. }
  assert (List.NoDup cands) as Hnd.
  { unfold cands. apply List.NoDup_filter, NoDup_discoverFilesInRepoRoot. }
  split; [| split].
  - intros Hno. destruct cands as [|c l]; [reflexivity |].
    destruct (proj1 (Hc c)) as [Hin He]; [by left |].
    rewrite (Hno c Hin) in He. discriminate He.
  - intros fn1 fn2 Hne H1 H2 He1 He2.
    assert (In fn1 cands) as Hi1 by (by apply Hc).
    assert (In fn2 cands) as Hi2 by (by apply Hc).
    destruct cands as [|a [|b l]]; [destruct Hi1 | | reflexivity].
    destruct Hi1 as [<- | []], Hi2 as [<- | []]. contradiction.
  - intros fn data Hfn He Huniq.
    assert (In fn cands) as Hi by (apply Hc; by split).
    assert (cands = [fn]) as ->.
    { destruct cands as [|a [|b l]]; [destruct Hi | by destruct Hi as [-> | []] |].
      exfalso. apply List.NoDup_cons_iff in Hnd as [Hab _].
      apply Hab. left.
      destruct (proj1 (Hc a)) as [? ?]; [by left |].
      destruct (proj1 (Hc b)) as [? ?]; [by right; left |].
      rewrite (Huniq a), (Huniq b); done. }
    unfold RolesStrategy_loadFromFile, RolePersister_loadFromFile. by rewrite Hfn.
Qed.

(** Property X24.  What [RepoSeed.make] produces.  With a key for the root
    and for each of the three roles, it returns a seed whose root is at
    version 1, signed, pending, and in the requested mode.  Every role is
    granted its own key; with [allowParentKeys] a role is also granted the
    keys of the roles above it (Targets: root; Snapshot: targets, root;
    Timestamp: snapshot, targets, root), and without it no other key. *)
Theorem X24_make (keys_ : gmap string Key) (kRoot kTargets kSnapshot kTimestamp : Key)
    (consistent allowParentKeys : bool) (now : Z) :
  keys_ !! "root" = Some kRoot ->
  keys_ !! "targets" = Some kTargets ->
  keys_ !! "snapshot" = Some kSnapshot ->
  keys_ !! "timestamp" = Some kTimestamp ->
  exists seed_,
    RepoSeed_make create_signature tuf_default_snapshot_meta tuf_default_meta
      keys_ consistent allowParentKeys now
    = Ok (seed_,
          if allowParentKeys
          then [(kRoot, "root");
                (kTargets, "targets"); (kRoot, "targets");
                (kSnapshot, "snapshot"); (kTargets, "snapshot"); (kRoot, "snapshot");
                (kTimestamp, "timestamp"); (kSnapshot, "timestamp");
                (kTargets, "timestamp"); (kRoot, "timestamp")]
          else [(kRoot, "root"); (kTargets, "targets"); (kSnapshot, "snapshot");
                (kTimestamp, "timestamp")]) /\
    seed_keys seed_ = keys_ /\
    RepoSeed_isConsistent seed_ = Ok consistent /\
    fac (root seed_) = ROOT_ROLE_FAC /\
    version (root seed_) = 1 /\
    needsSigning (root seed_) = false /\ needsSaving (root seed_) = true.
Proof.
  intros Hr Ht Hs Hts.
  assert (forall n k, keys_ !! n = Some k -> KeyManager_getitem keys_ n = Ok k) as Hg.
  { intros n k H. unfold KeyManager_getitem. by rewrite H. }
  unfold RepoSeed_make, make_add_key_calls.
  change (name ROOT_ROLE_FAC) with "root". rewrite (Hg _ _ Hr).
  change (PyDict.values ROLES_MODEL)
    with [targetsRoleFac; snapshotRoleFac; timestampRoleFac].
  cbn [mbind result_bind forM]. unfold add_role_keys, add_parent_keys.
  change (_collectParentRoles targetsRoleFac) with [rootRoleFac].
  change (_collectParentRoles snapshotRoleFac) with [targetsRoleFac; rootRoleFac].
  change (_collectParentRoles timestampRoleFac)
    with [snapshotRoleFac; targetsRoleFac; rootRoleFac].
  cbn [name targetsRoleFac snapshotRoleFac timestampRoleFac rootRoleFac].
  unfold KeyManager_sign.
  change (OurRole_name (createEmptyRoot _ _ consistent now)) with "root".
  destruct allowParentKeys.
  all: repeat (progress (cbn [mbind result_bind app forM name rootRoleFac
                              targetsRoleFac snapshotRoleFac timestampRoleFac];
                         rewrite ?(Hg _ _ Hr), ?(Hg _ _ Ht), ?(Hg _ _ Hs),
                           ?(Hg _ _ Hts))).
  all: rewrite Hr; cbn [mbind result_bind].
  all: eexists; split; [reflexivity |]; by repeat split.
Qed.

(** Property X28.  [RepoSeed.make] needs a key for the root and for each
    of the three roles, with or without [allowParentKeys]: if one of them
    is missing it raises KeyError for a role that has no key, and no seed
    is made. *)
Theorem X28_make_needs_every_key (keys_ : gmap string Key)
    (consistent allowParentKeys : bool) (now : Z) (roleName : string) :
  In roleName ["root"; "targets"; "snapshot"; "timestamp"] ->
  keys_ !! roleName = None ->
  exists k,
    RepoSeed_make create_signature tuf_default_snapshot_meta tuf_default_meta
      keys_ consistent allowParentKeys now = Err (KeyError k) /\
    In k ["root"; "targets"; "snapshot"; "timestamp"] /\ keys_ !! k = None.
Proof.
  intros Hin Hnone.
  assert (forall n k, keys_ !! n = Some k -> KeyManager_getitem keys_ n = Ok k) as Hg.
  { intros n k H. unfold KeyManager_getitem. by rewrite H. }
  assert (forall n, keys_ !! n = None
                    -> KeyManager_getitem keys_ n = Err (KeyError n)) as Hn.
  { intros n H. unfold KeyManager_getitem. by rewrite H. }
  unfold RepoSeed_make, make_add_key_calls.
  change (name ROOT_ROLE_FAC) with "root".
  destruct (keys_ !! "root") as [kr|] eqn:Er;
    [| exists "root"; rewrite (Hn _ Er); cbn; tauto].
  rewrite (Hg _ _ Er).
  change (PyDict.values ROLES_MODEL)
    with [targetsRoleFac; snapshotRoleFac; timestampRoleFac].
  cbn [mbind result_bind forM]. unfold add_role_keys, add_parent_keys.
  change (_collectParentRoles targetsRoleFac) with [rootRoleFac].
  change (_collectParentRoles snapshotRoleFac) with [targetsRoleFac; rootRoleFac].
  change (_collectParentRoles timestampRoleFac)
    with [snapshotRoleFac; targetsRoleFac; rootRoleFac].
  cbn [name targetsRoleFac snapshotRoleFac timestampRoleFac rootRoleFac].
  destruct (keys_ !! "targets") as [kt|] eqn:Et;
    [| exists "targets"; rewrite (Hn _ Et); cbn; tauto].
  destruct (keys_ !! "snapshot") as [ks|] eqn:Es.
  2: { exists "snapshot". split; [| cbn; tauto].
       destruct allowParentKeys;
         repeat (progress (cbn [mbind result_bind app forM name rootRoleFac
                                targetsRoleFac snapshotRoleFac timestampRoleFac];
                           rewrite ?(Hg _ _ Er), ?(Hg _ _ Et), ?(Hn _ Es)));
         reflexivity. }
  destruct (keys_ !! "timestamp") as [kts|] eqn:Ets.
  2: { exists "timestamp". split; [| cbn; tauto].
       destruct allowParentKeys;
         repeat (progress (cbn [mbind result_bind app forM name rootRoleFac
                                targetsRoleFac snapshotRoleFac timestampRoleFac];
                           rewrite ?(Hg _ _ Er), ?(Hg _ _ Et), ?(Hg _ _ Es),
                             ?(Hn _ Ets)));
         reflexivity. }
  exfalso. destruct Hin as [<- | [<- | [<- | [<- | []]]]]; congruence.
Qed.

End SeedRoot.

(** ** The role registry *)

Lemma RoleFactory_rect_deps (P : RoleFactory -> Prop) :
  (forall n c e ds h, Forall P ds -> P (mkRoleFactory n c e ds h)) ->
  forall f, P f.
Proof.
  intros H. fix IH 1. intros [n c e ds h]. apply H.
  induction ds as [|d ds IHds]; constructor; [apply IH | exact IHds].
Qed.

Lemma collectParentRoles_deps (n : string) (c : RoleKind) (e : Z)
    (ds : list RoleFactory) (h : bool) :
  _collectParentRoles (mkRoleFactory n c e ds h)
  = flat_map (fun depRole => depRole :: _collectParentRoles depRole) ds.
Proof.
  cbn [_collectParentRoles]. induction ds as [|d ds IH]; [reflexivity |].
  cbn [flat_map]. by rewrite <- IH.
Qed.

(** Property X25.  [_collectParentRoles] returns the roles above a role and
    nothing else: a factory is in the result exactly when it is a
    dependency of the role, or a dependency of one of its dependencies,
    and so on. *)
Theorem X25_collectParentRoles (curRole p : RoleFactory) :
  In p (_collectParentRoles curRole) <-> ancestor p curRole.
Proof.
  revert p. induction curRole as [n c e ds h IH] using RoleFactory_rect_deps.
  intros p. rewrite collectParentRoles_deps, in_flat_map. split.
  - intros (d & Hd & [<- | Hp]).
    + by apply ancestor_dep.
    + apply (ancestor_up p d); [exact Hd |].
      rewrite Forall_forall in IH. apply IH; [by apply list_elem_of_In | exact Hp].
  - intros H. inversion H as [p' f' Hd | p' d f' Hd Hp]; subst; cbn [deps] in Hd.
    + exists p. split; [exact Hd | by left].
    + exists d. split; [exact Hd |]. right.
      rewrite Forall_forall in IH. apply IH; [by apply list_elem_of_In | exact Hp].
Qed.

(** ** Consistent mode: what is saved is not what is looked for *)

Lemma py_str_int_head (v : Z) :
  exists c s, py_str_int v = String c s /\ (is_digit c = true \/ c = "-"%char).
Proof.
  destruct (Z.le_gt_cases 0 v) as [Hv | Hv].
  - destruct (py_str_int_digits v Hv) as [Hd Hne].
    destruct (py_str_int v) as [|c s]; [congruence |].
    exists c, s. split; [reflexivity |]. left.
    unfold all_chars in Hd. cbn in Hd. by apply andb_true_iff in Hd as [Hd _].
  - destruct v as [|p|p]; [lia | lia |].
    unfold py_str_int. cbn. eexists _, _. split; [reflexivity |]. by right.
Qed.

Lemma consistent_name_not_simple (v : Z) (rest simple : string) (c : ascii) :
  is_digit c = false -> c <> "-"%char ->
  py_str_int v +:+ rest <> String c simple.
Proof.
  intros Hc Hm. destruct (py_str_int_head v) as (c' & s & -> & Hc').
  rewrite append_cons. intros [= -> _]. destruct Hc'; congruence.
Qed.

Section ConsistentReopen.
Variable FileData : Type.
Variable unprocess : Metadata -> FileData.
Variable process : FileData -> result Metadata.
Variable data_length : FileData -> Z.
Variable sha256 : FileData -> string.
Variable create_signature : Key -> Signed -> string.
Variable tuf_default_snapshot_meta : MetaFile.
Variable tuf_default_meta : PyDict.t MetaFile.

Lemma saveMeta_step_ok (st : gmap string FileData * RepoBuilder FileData)
    (k : string) (r : OurRole) (c : bool) :
  RepoSeed_isConsistent (seed _ (snd st)) = Ok c ->
  needsSaving r = true -> needsSigning r = false ->
  saveMeta_step FileData unprocess st (k, r)
  = Ok (<[fileNameForRole (fac r) (version r) c := unprocess (role r)]> (fst st),
        put_role FileData k (set_needsSaving false r) (snd st)).
Proof.
  intros Hc Hs Hd. unfold saveMeta_step. rewrite Hc. cbn [mbind result_bind snd fst].
  unfold RolesStrategy_save, RolePersister_save. by rewrite Hs, Hd.
Qed.

(** Property X26.  A repository published and saved in consistent mode
    cannot be reconciled from what was saved.  [save] stores the Snapshot
    as [<version>.snapshot.json], but reconciliation looks for
    [snapshot.json]; not finding it, it starts from a new Snapshot with an
    empty listing, finds no candidate for Targets there, and ends with
    FileNotFoundError.  Stated for a builder without user files and a
    directory that holds no [snapshot.json] beforehand. *)
Theorem X26_consistent_save_not_reconciled (b : RepoBuilder FileData)
    (ts sn tg : OurRole) (kTargets kSnapshot kTimestamp : Key)
    (files : PyDict.t TargetFile) (meta : PyDict.t MetaFile) (ref : MetaFile)
    (repoRoot : gmap string FileData) (later : Z) :
  (forall m, process (unprocess m) = Ok m) ->
  RepoSeed_isConsistent (seed _ b) = Ok true ->
  ourRoles _ b = [("timestamp", ts); ("snapshot", sn); ("targets", tg)] ->
  fac ts = timestampRoleFac -> fac sn = snapshotRoleFac -> fac tg = targetsRoleFac ->
  get_snapshot_meta (role ts) = Ok ref ->
  get_meta (role sn) = Ok meta ->
  get_targets (role tg) = Ok files ->
  keys _ b !! "targets" = Some kTargets ->
  keys _ b !! "snapshot" = Some kSnapshot ->
  keys _ b !! "timestamp" = Some kTimestamp ->
  userFiles _ b = [] ->
  repoRoot !! "snapshot.json" = None ->
  exists b1 d b2,
    makeSnapshot FileData data_length sha256 create_signature b = Ok b1 /\
    RepoBuilder_save FileData unprocess repoRoot b1 = Ok (d, b2) /\
    is_Some (d !! (py_str_int (version sn + 1) +:+ ".snapshot.json")) /\
    d !! "snapshot.json" = None /\
    loadOrCreateRoles FileData process tuf_default_snapshot_meta tuf_default_meta
      ROLES_MODEL (Some d) true later
    = Err (FileNotFoundError "(\d+)\.targets\.json").
Proof.
  intros Hpu Hc Hroles Hfts Hfsn Hftg Href Hmeta Hfiles Hk1 Hk2 Hk3 Huf Hno.
  destruct (makeSnapshot_pins FileData data_length sha256 create_signature
              b ts sn tg kTargets kSnapshot kTimestamp true files meta ref
              Hc Hroles Hfts Hfsn Hftg Href Hmeta Hfiles Hk1 Hk2 Hk3)
    as (ts' & sn' & tg' & meta' & Hmk & (_ & Hvsn & _) & Hflags & (Hf1 & Hf2 & Hf3)
        & Href' & Hmeta' & _).
  rewrite Huf in Hmk.
  destruct ts' as [fts mts nsts nvts], sn' as [fsn msn nssn nvsn],
    tg' as [ftg mtg nstg nvtg].
  cbn [fac role] in *. subst fts fsn ftg.
  apply Forall_cons in Hflags as [[Hs1 Hv1] Hflags].
  apply Forall_cons in Hflags as [[Hs2 Hv2] Hflags].
  apply Forall_cons in Hflags as [[Hs3 Hv3] _].
  cbn in Hs1, Hv1, Hs2, Hv2, Hs3, Hv3. subst.
  set (vsn := signed_version (signed msn)) in *.
  set (vtg := signed_version (signed mtg)).
  set (snName := py_str_int vsn +:+ ".snapshot.json").
  set (tgName := py_str_int vtg +:+ ".targets.json").
  set (d := <[tgName := unprocess mtg]>
              (<[snName := unprocess msn]>
                 (<["timestamp.json" := unprocess mts]> repoRoot))).
  assert (snName <> "timestamp.json" /\ tgName <> "timestamp.json" /\
          snName <> "snapshot.json" /\ tgName <> "snapshot.json")
    as (N1 & N2 & N3 & N4).
  { repeat split; apply consistent_name_not_simple; (reflexivity || discriminate). }
  assert (d !! "timestamp.json" = Some (unprocess mts)) as Hl1.
  { unfold d. rewrite !lookup_insert_ne by done. apply lookup_insert_eq. }
  assert (d !! "snapshot.json" = None) as Hl2.
  { unfold d. by rewrite !lookup_insert_ne. }
  eexists _, d, _. split; [exact Hmk |].
  split.
  { unfold RepoBuilder_save, saveMeta, saveFiles. cbn [ourRoles forM].
    rewrite (saveMeta_step_ok _ _ _ true) by (exact Hc || reflexivity).
    cbn [mbind result_bind].
    rewrite (saveMeta_step_ok _ _ _ true) by (exact Hc || reflexivity).
    cbn [mbind result_bind].
    rewrite (saveMeta_step_ok _ _ _ true) by (exact Hc || reflexivity).
    cbn [mbind result_bind]. reflexivity. }
  split.
  { rewrite <- Hvsn. change (version _) with vsn. fold snName. unfold d.
    destruct (decide (tgName = snName)) as [-> | Hne].
    - rewrite lookup_insert_eq. by eexists.
    - rewrite lookup_insert_ne by done. rewrite lookup_insert_eq. by eexists. }
  split; [exact Hl2 |].
  rewrite reconcile_unfold. unfold loadTimestampAndSnapshot.
  change (getitem "timestamp" ROLES_MODEL) with (Ok timestampRoleFac).
  change (getitem "snapshot" ROLES_MODEL) with (Ok snapshotRoleFac).
  cbn [mbind result_bind].
  assert (RolesStrategy_loadOrCreate FileData process tuf_default_snapshot_meta
            tuf_default_meta timestampRoleFac (Some d) false None later
          = Ok (OurRole_init timestampRoleFac mts, true)) as ->.
  { unfold RolesStrategy_loadOrCreate, RolePersister_loadOrCreate,
      RolePersister_loadFromRepo.
    change (OurRoleLayout.discoverBlindFromRepo fileExtension timestampRoleFac d
              (isRoleConsistent timestampRoleFac false))
      with (Ok (@None Z, "timestamp.json")).
    cbn [mbind result_bind isRoleConsistent andb].
    unfold RolePersister_loadFromFile. rewrite Hl1.
    unfold RolePersister_loadFromData. by rewrite Hpu. }
  cbn [mbind result_bind role OurRole_init]. rewrite Href'.
  cbn [mbind result_bind].
  assert (forall v,
            RolesStrategy_loadOrCreate FileData process tuf_default_snapshot_meta
              tuf_default_meta snapshotRoleFac (Some d) false (Some v) later
            = Ok (createEmpty tuf_default_snapshot_meta tuf_default_meta
                    snapshotRoleFac later, false)) as ->.
  { intros v. unfold RolesStrategy_loadOrCreate, RolePersister_loadOrCreate,
      RolePersister_loadFromRepo.
    change (RolePersister_getFileName snapshotRoleFac v
              (isRoleConsistent snapshotRoleFac false)) with "snapshot.json".
    unfold RolePersister_loadFromFile. by rewrite Hl2. }
  reflexivity.
Qed.

End ConsistentReopen.

(** ** The client side: fetching a listed file *)

Section GetListPath.
Variable Updater : Type.
Variable TargetInfo : Type.
Variable get_targetinfo : Updater -> string -> result (Updater * option TargetInfo).
Variable find_cached_target : Updater -> TargetInfo -> result (option string).
Variable download_target : Updater -> TargetInfo -> result Updater.

Local Abbreviation get_list_path :=
  (getListPath Updater TargetInfo get_targetinfo find_cached_target download_target).

(** Property X27.  [getListPath] returns only what the cache vouches for,
    and downloads only what the cache lacks.  A path it returns is not
    empty and is the answer of [find_cached_target] for the target in the
    updater it leaves behind.  When the target is already cached there is
    no download: the updater is left as [get_targetinfo] left it.  A path
    the repository does not list raises KeyError, and so does a target that
    is still not in the cache after the download. *)
Theorem X27_getListPath (updater : Updater) (path : string) :
  (forall updater' p,
     get_list_path updater path = Ok (updater', p) ->
     p <> "" /\
     exists info, find_cached_target updater' info = Ok (Some p)) /\
  (forall updater1 info p,
     get_targetinfo updater path = Ok (updater1, Some info) ->
     find_cached_target updater1 info = Ok (Some p) -> p <> "" ->
     get_list_path updater path = Ok (updater1, p)) /\
  (forall updater1,
     get_targetinfo updater path = Ok (updater1, None) ->
     get_list_path updater path = Err (KeyError path)) /\
  (forall updater1 updater2 info cached cached',
     get_targetinfo updater path = Ok (updater1, Some info) ->
     find_cached_target updater1 info = Ok cached -> not_cached cached = true ->
     download_target updater1 info = Ok updater2 ->
     find_cached_target updater2 info = Ok cached' -> not_cached cached' = true ->
     get_list_path updater path = Err (KeyError path)).
Proof.
  unfold getListPath. split; [| split; [| split]].
  - intros updater' p H. bind_ok H as r E1. destruct r as [u1 [info|]];
      [| discriminate].
    bind_ok H as cached E2. bind_ok H as r E3. destruct r as [u2 cached'].
    destruct cached' as [p'|]; [| discriminate].
    destruct (not_cached (Some p')) eqn:En; [discriminate |].
    injection H as <- <-. split.
    + intros ->. discriminate En.
    + exists info. destruct (not_cached cached).
      * bind_ok E3 as u3 E4. bind_ok E3 as c E5. by injection E3 as <- <-.
      * by injection E3 as <- <-.
  - intros updater1 info p E1 E2 Hp. rewrite E1. cbn [mbind result_bind].
    rewrite E2. cbn [mbind result_bind].
    assert (not_cached (Some p) = false) as Hn.
    { cbn. by apply String.eqb_neq. }
    rewrite Hn. cbn [mbind result_bind]. by rewrite Hn.
  - intros updater1 E1. by rewrite E1.
  - intros updater1 updater2 info cached cached' E1 E2 Hc E3 E4 Hc'.
    rewrite E1. cbn [mbind result_bind]. rewrite E2. cbn [mbind result_bind].
    rewrite Hc, E3. cbn [mbind result_bind]. rewrite E4. cbn [mbind result_bind].
    destruct cached'; [by rewrite Hc' | reflexivity].
Qed.

End GetListPath.

(** ** The further theorems at concrete inputs *)

Lemma X2_witness :
  RolePersister_save Demo.FileData Demo.unprocess ∅ false Demo.signed_targets
  = Ok (RolePersister__save Demo.FileData Demo.unprocess ∅ false Demo.signed_targets,
        set_needsSaving false Demo.signed_targets) /\
  RolePersister_save Demo.FileData Demo.unprocess ∅ true
    (set_needsSaving false Demo.signed_targets)
  = Ok (∅, set_needsSaving false Demo.signed_targets).
Proof.
  split; [reflexivity |].
  apply (proj2 (X2_save_after_sign Demo.FileData Demo.unprocess Demo.create_signature
                  Demo.the_key Demo.signed_targets ∅ false)
           (RolePersister__save Demo.FileData Demo.unprocess ∅ false
              Demo.signed_targets)
           (set_needsSaving false Demo.signed_targets) ∅ true).
  reflexivity.
Defined.

Lemma X4_witness :
  forallb keeps_record
    [OpBumpVersion Demo.FileData; OpSign Demo.FileData Demo.the_key;
     OpSave Demo.FileData false; OpSetVersion Demo.FileData 0] = true /\
  version Demo.fresh_targets
  <= version
       (snd (run_ops Demo.FileData Demo.unprocess Demo.process Demo.create_signature
               Demo.tuf_default_snapshot_meta Demo.tuf_default_meta
               [OpBumpVersion Demo.FileData; OpSign Demo.FileData Demo.the_key;
                OpSave Demo.FileData false; OpSetVersion Demo.FileData 0]
               (∅, Demo.fresh_targets))).
Proof.
  split; [reflexivity |].
  apply (X4_version_monotone Demo.FileData Demo.unprocess Demo.process
           Demo.create_signature Demo.tuf_default_snapshot_meta
           Demo.tuf_default_meta
           [OpBumpVersion Demo.FileData; OpSign Demo.FileData Demo.the_key;
            OpSave Demo.FileData false; OpSetVersion Demo.FileData 0]
           (∅, Demo.fresh_targets)).
  reflexivity.
Defined.

Lemma X6_witness :
  hasVersion timestampRoleFac = false /\
  fileNameForRole timestampRoleFac 3 true = fileNameForRole timestampRoleFac 5 false /\
  hasVersion targetsRoleFac = true /\
  fileNameForRole targetsRoleFac 3 true
  = py_str_int 3 +:+ "." +:+ name targetsRoleFac +:+ ".json".
Proof.
  split; [reflexivity |]. split.
  - apply (proj1 (X6_fileNameForRole timestampRoleFac 3)). reflexivity.
  - split; [reflexivity |].
    apply (proj2 (proj2 (X6_fileNameForRole targetsRoleFac 3))). reflexivity.
Defined.

Lemma X7_witness :
  literal_text (name targetsRoleFac) = true /\ literal_text "json" = true /\
  OurRoleLayout.discoverConsistentVersionsFromFileNames "json" targetsRoleFac
    ["10.targets.jsonl"; "targets.json"; "2.targets.json"; "007.targets.json"]
  = Ok [(2, "2.targets.json"); (7, "007.targets.json"); (10, "10.targets.jsonl")] /\
  ascending [(2, "2.targets.json"); (7, "007.targets.json"); (10, "10.targets.jsonl")].
Proof.
  split; [reflexivity |]. split; [reflexivity |].
  split; [vm_compute; reflexivity |].
  apply (proj1 (X7_discover_consistent "json" targetsRoleFac
                  ["10.targets.jsonl"; "targets.json"; "2.targets.json";
                   "007.targets.json"] eq_refl eq_refl)
           [(2, "2.targets.json"); (7, "007.targets.json"); (10, "10.targets.jsonl")]).
  vm_compute; reflexivity.
Defined.

Lemma X8_witness :
  literal_text (name targetsRoleFac) = true /\ literal_text "json" = true /\
  OurRoleLayout.discoverConsistent "json" targetsRoleFac DemoMore.versions_repo
  = Ok (Some 2, "2.targets.json") /\
  exists v,
    Some 2 = Some v /\
    is_Some (DemoMore.versions_repo !! "2.targets.json") /\
    consistent_candidate "json" (name targetsRoleFac) "2.targets.json" v /\
    forall fn' v',
      is_Some (DemoMore.versions_repo !! fn') ->
      consistent_candidate "json" (name targetsRoleFac) fn' v' -> v' <= v.
Proof.
  split; [reflexivity |]. split; [reflexivity |].
  split; [vm_compute; reflexivity |].
  apply (proj1 (X8_discoverConsistent_latest "json" targetsRoleFac
                  DemoMore.versions_repo eq_refl eq_refl)
           (Some 2) "2.targets.json").
  vm_compute; reflexivity.
Defined.

Lemma X9_witness :
  In (OurRole_name Demo.fresh_targets) ("root" :: PyDict.keys ROLES_MODEL) /\
  KeyManager_sign Demo.create_signature
    (keyManagerFromSingleKey ROLES_MODEL Demo.the_key) Demo.fresh_targets
  = Ok (OurRole_sign Demo.create_signature Demo.the_key Demo.fresh_targets).
Proof.
  assert (In (OurRole_name Demo.fresh_targets) ("root" :: PyDict.keys ROLES_MODEL))
    as H by (vm_compute; tauto).
  split; [exact H |].
  exact (proj1 (X9_single_key_manager Demo.create_signature ROLES_MODEL Demo.the_key
                  Demo.fresh_targets) H).
Defined.

Lemma X10_witness :
  (RolePersister_loadOrCreate Demo.FileData Demo.process
     Demo.tuf_default_snapshot_meta Demo.tuf_default_meta targetsRoleFac
     (Some Demo.repo) false None 0
   = Ok (OurRole_init targetsRoleFac Demo.targets_md, true) /\
   needsSigning (OurRole_init targetsRoleFac Demo.targets_md) = false) /\
  (str_contains "*" (name targetsRoleFac) = false /\
   (∅ : gmap string Demo.FileData)
     !! OurRoleLayout.getSimpleFileName fileExtension (name targetsRoleFac) = None /\
   RolePersister_loadOrCreate Demo.FileData Demo.process
     Demo.tuf_default_snapshot_meta Demo.tuf_default_meta targetsRoleFac
     (Some ∅) false None 0
   = Ok (Demo.fresh_targets, false)) /\
  (RolePersister_loadFromRepo Demo.FileData Demo.process targetsRoleFac Demo.repo
     false (Some 5)
   = Err (VersionWithinFileMismatch "targets" 5 1) /\
   (forall what, VersionWithinFileMismatch "targets" 5 1 <> FileNotFoundError what) /\
   RolePersister_loadOrCreate Demo.FileData Demo.process
     Demo.tuf_default_snapshot_meta Demo.tuf_default_meta targetsRoleFac
     (Some Demo.repo) false (Some 5) 0
   = Err (VersionWithinFileMismatch "targets" 5 1)).
Proof.
  split; [| split].
  - split; [vm_compute; reflexivity |].
    apply (proj1 (proj2 (proj2 (X10_loadOrCreate Demo.FileData Demo.process
                                  Demo.tuf_default_snapshot_meta
                                  Demo.tuf_default_meta targetsRoleFac
                                  (Some Demo.repo) false None 0)))
             (OurRole_init targetsRoleFac Demo.targets_md)).
    vm_compute; reflexivity.
  - split; [reflexivity |]. split; [reflexivity |].
    apply (proj1 (proj2 (proj2 (proj2 (proj2
             (X10_loadOrCreate Demo.FileData Demo.process
                Demo.tuf_default_snapshot_meta Demo.tuf_default_meta
                targetsRoleFac (Some ∅) false None 0))))) ∅);
      reflexivity.
  - split; [vm_compute; reflexivity |]. split; [discriminate |].
    apply (proj2 (proj2 (proj2 (proj2 (proj2 (proj2 (proj2
             (X10_loadOrCreate Demo.FileData Demo.process
                Demo.tuf_default_snapshot_meta Demo.tuf_default_meta
                targetsRoleFac (Some Demo.repo) false (Some 5) 0)))))))
             Demo.repo (VersionWithinFileMismatch "targets" 5 1));
      [reflexivity | vm_compute; reflexivity | discriminate].
Defined.

Lemma X11_witness :
  (forall m, Demo.process (Demo.unprocess m) = Ok m) /\
  needsSaving Demo.signed_targets = true /\
  needsSigning Demo.signed_targets = false /\
  exists d r',
    RolePersister_save Demo.FileData Demo.unprocess ∅ true Demo.signed_targets
    = Ok (d, r') /\
    RolePersister_loadOrCreate Demo.FileData Demo.process
      Demo.tuf_default_snapshot_meta Demo.tuf_default_meta
      (fac Demo.signed_targets) (Some d) true
      (Some (version Demo.signed_targets)) 5
    = Ok (OurRole_init (fac Demo.signed_targets) (role Demo.signed_targets), true).
Proof.
  split; [reflexivity |]. split; [reflexivity |]. split; [reflexivity |].
  apply (X11_save_then_load Demo.FileData Demo.unprocess Demo.process
           Demo.tuf_default_snapshot_meta Demo.tuf_default_meta
           Demo.signed_targets ∅ true 5 (fun m => eq_refl) eq_refl eq_refl).
Defined.

Lemma X12_witness :
  literal_text (name targetsRoleFac) = true /\
  RolePersister_loadFromRepo Demo.FileData Demo.process targetsRoleFac
    DemoMore.versions_repo true None
  = Ok (OurRole_init targetsRoleFac (Demo.metadata 2 (TargetsFields []))) /\
  exists v fileName data m,
    DemoMore.versions_repo !! fileName = Some data /\
    consistent_candidate fileExtension (name targetsRoleFac) fileName v /\
    Demo.process data = Ok m /\
    OurRole_init targetsRoleFac (Demo.metadata 2 (TargetsFields []))
    = OurRole_init targetsRoleFac m /\
    version (OurRole_init targetsRoleFac (Demo.metadata 2 (TargetsFields []))) = v /\
    forall fn' v',
      is_Some (DemoMore.versions_repo !! fn') ->
      consistent_candidate fileExtension (name targetsRoleFac) fn' v' -> v' <= v.
Proof.
  split; [reflexivity |]. split; [vm_compute; reflexivity |].
  apply (X12_blind_load_latest Demo.FileData Demo.process targetsRoleFac
           DemoMore.versions_repo
           (OurRole_init targetsRoleFac (Demo.metadata 2 (TargetsFields [])))
           eq_refl).
  vm_compute; reflexivity.
Defined.

Lemma X13_witness :
  (forall d : gmap string Demo.FileData, Some ∅ = Some d ->
     d !! "timestamp.json" = None /\
     forall fn v, is_Some (d !! fn) ->
       ~ consistent_candidate fileExtension "targets" fn v /\
       ~ consistent_candidate fileExtension "snapshot" fn v) /\
  loadDumb Demo.FileData Demo.process Demo.tuf_default_snapshot_meta
    Demo.tuf_default_meta ROLES_MODEL (Some ∅) true 0
  = Ok [("targets", createEmpty Demo.tuf_default_snapshot_meta
                      Demo.tuf_default_meta targetsRoleFac 0);
        ("snapshot", createEmpty Demo.tuf_default_snapshot_meta
                       Demo.tuf_default_meta snapshotRoleFac 0);
        ("timestamp", createEmpty Demo.tuf_default_snapshot_meta
                        Demo.tuf_default_meta timestampRoleFac 0)].
Proof.
  assert (forall d : gmap string Demo.FileData, Some ∅ = Some d ->
            d !! "timestamp.json" = None /\
            forall fn v, is_Some (d !! fn) ->
              ~ consistent_candidate fileExtension "targets" fn v /\
              ~ consistent_candidate fileExtension "snapshot" fn v) as H.
  { intros d [= <-]. split; [reflexivity |].
    intros fn v [x Hx]. rewrite lookup_empty in Hx. discriminate Hx. }
  split; [exact H |].
  exact (X13_loadDumb_absent Demo.FileData Demo.process
           Demo.tuf_default_snapshot_meta Demo.tuf_default_meta (Some ∅) true 0 H).
Defined.

Lemma X14_witness :
  PyDict.get "targets" (ourRoles _ DemoMore.builder_with_file)
  = Some (OurRole_init targetsRoleFac Demo.targets_md) /\
  get_targets (role (OurRole_init targetsRoleFac Demo.targets_md)) = Ok [] /\
  keys _ DemoMore.builder_with_file
    !! OurRole_name (OurRole_init targetsRoleFac Demo.targets_md)
  = Some Demo.the_key /\
  List.NoDup (PyDict.keys (userFiles _ DemoMore.builder_with_file)) /\
  exists b' tg' files',
    bindContent Demo.FileData Demo.data_length Demo.sha256 Demo.create_signature
      DemoMore.builder_with_file = Ok b' /\
    RepoBuilder_targets Demo.FileData b' = Ok tg' /\
    get_targets (role tg') = Ok files' /\
    version tg' = version (OurRole_init targetsRoleFac Demo.targets_md) + 1 /\
    needsSigning tg' = false /\ needsSaving tg' = true /\
    (forall path data,
       In (path, data) (userFiles _ DemoMore.builder_with_file) ->
       PyDict.get path files'
       = Some {| tf_length := Demo.data_length data;
                 tf_hashes := [("sha256", Demo.sha256 data)];
                 tf_path := path |}) /\
    (forall path,
       ~ In path (PyDict.keys (userFiles _ DemoMore.builder_with_file)) ->
       PyDict.get path files' = PyDict.get path []).
Proof.
  assert (List.NoDup (PyDict.keys (userFiles _ DemoMore.builder_with_file))) as Hnd.
  { constructor; [intros [] | constructor]. }
  split; [reflexivity |]. split; [reflexivity |].
  split; [vm_compute; reflexivity |]. split; [exact Hnd |].
  apply (X14_bindContent Demo.FileData Demo.data_length Demo.sha256
           Demo.create_signature DemoMore.builder_with_file
           (OurRole_init targetsRoleFac Demo.targets_md) Demo.the_key []
           eq_refl eq_refl);
    [vm_compute; reflexivity | exact Hnd].
Defined.

Lemma X15_witness :
  RepoSeed_isConsistent (seed _ DemoMore.consistent_builder) = Ok true /\
  keys _ DemoMore.consistent_builder !! "targets" = Some Demo.the_key /\
  exists ts' sn' tg' meta',
    makeSnapshot Demo.FileData Demo.data_length Demo.sha256 Demo.create_signature
      DemoMore.consistent_builder
    = Ok {| seed := seed _ DemoMore.consistent_builder;
            keys := keys _ DemoMore.consistent_builder;
            ourRoles := [("timestamp", ts'); ("snapshot", sn'); ("targets", tg')];
            userFiles := userFiles _ DemoMore.consistent_builder |} /\
    (version ts' = version (OurRole_init timestampRoleFac Demo.timestamp_md) + 1 /\
     version sn' = version (OurRole_init snapshotRoleFac Demo.snapshot_md) + 1 /\
     version tg' = version (OurRole_init targetsRoleFac Demo.targets_md) + 1) /\
    Forall (fun r => needsSigning r = false /\ needsSaving r = true)
      [ts'; sn'; tg'] /\
    (fac ts' = timestampRoleFac /\ fac sn' = snapshotRoleFac /\
     fac tg' = targetsRoleFac) /\
    get_snapshot_meta (role ts') = Ok {| mf_version := version sn' |} /\
    get_meta (role sn') = Ok meta' /\
    PyDict.get (fileNameForRole targetsRoleFac (version tg') true) meta'
    = Some {| mf_version := version tg' |} /\
    (forall fn, fn <> fileNameForRole targetsRoleFac (version tg') true ->
                PyDict.get fn meta' = PyDict.get fn Demo.listing) /\
    get_targets (role tg')
    = Ok (bound_files Demo.data_length Demo.sha256
            (userFiles _ DemoMore.consistent_builder) []).
Proof.
  split; [reflexivity |]. split; [vm_compute; reflexivity |].
  apply (X15_makeSnapshot_pins Demo.FileData Demo.data_length Demo.sha256
           Demo.create_signature DemoMore.consistent_builder
           (OurRole_init timestampRoleFac Demo.timestamp_md)
           (OurRole_init snapshotRoleFac Demo.snapshot_md)
           (OurRole_init targetsRoleFac Demo.targets_md)
           Demo.the_key Demo.the_key Demo.the_key true [] Demo.listing
           {| mf_version := 1 |});
    first [reflexivity | vm_compute; reflexivity].
Defined.

Lemma X16_witness :
  (forall m, Demo.process (Demo.unprocess m) = Ok m) /\
  RepoSeed_isConsistent (seed _ DemoMore.builder_with_file) = Ok false /\
  Forall (fun k => plain_name k = true)
    (PyDict.keys (userFiles _ DemoMore.builder_with_file)) /\
  Forall (fun k => ~ In k (PyDict.keys (userFiles _ DemoMore.builder_with_file)))
    metadata_names /\
  exists b1 d b2,
    makeSnapshot Demo.FileData Demo.data_length Demo.sha256 Demo.create_signature
      DemoMore.builder_with_file = Ok b1 /\
    RepoBuilder_save Demo.FileData Demo.unprocess ∅ b1 = Ok (d, b2) /\
    loadOrCreateRoles Demo.FileData Demo.process Demo.tuf_default_snapshot_meta
      Demo.tuf_default_meta ROLES_MODEL (Some d) false 9
    = Ok (map (fun kr => (fst kr, OurRole_init (fac (snd kr)) (role (snd kr))))
            (ourRoles _ b1)).
Proof.
  assert (Forall (fun k => ~ In k (PyDict.keys
                                     (userFiles _ DemoMore.builder_with_file)))
            metadata_names) as Huf.
  { repeat constructor; cbn; intros [H|[]]; discriminate H. }
  assert (Forall (fun k => plain_name k = true)
            (PyDict.keys (userFiles _ DemoMore.builder_with_file))) as Hplain.
  { repeat constructor. }
  split; [reflexivity |]. split; [reflexivity |]. split; [exact Hplain |].
  split; [exact Huf |].
  apply (X16_publish_roundtrip Demo.FileData Demo.unprocess Demo.process
           Demo.data_length Demo.sha256 Demo.create_signature
           Demo.tuf_default_snapshot_meta Demo.tuf_default_meta
           DemoMore.builder_with_file
           (OurRole_init timestampRoleFac Demo.timestamp_md)
           (OurRole_init snapshotRoleFac Demo.snapshot_md)
           (OurRole_init targetsRoleFac Demo.targets_md)
           Demo.the_key Demo.the_key Demo.the_key [] Demo.listing
           {| mf_version := 1 |} ∅ 9 (fun m => eq_refl));
    first [exact Huf | exact Hplain | reflexivity | vm_compute; reflexivity].
Defined.

Lemma X17_witness :
  RepoSeed_isConsistent (seed _ DemoMore.builder_with_file) = Ok false /\
  List.NoDup (PyDict.keys (userFiles _ DemoMore.builder_with_file)) /\
  Forall (fun k => plain_name k = true)
    (PyDict.keys (userFiles _ DemoMore.builder_with_file)) /\
  RepoBuilder_save Demo.FileData Demo.unprocess ∅ DemoMore.builder_with_file
  = Ok (<["a.txt" := inr "hello"]> ∅, DemoMore.builder_with_file) /\
  In ("a.txt", inr "hello") (userFiles _ DemoMore.builder_with_file) /\
  (<["a.txt" := inr "hello"]> ∅ : gmap string Demo.FileData) !! "a.txt"
  = Some (inr "hello").
Proof.
  assert (List.NoDup (PyDict.keys (userFiles _ DemoMore.builder_with_file))) as Hnd.
  { constructor; [intros [] | constructor]. }
  assert (In ("a.txt", inr "hello") (userFiles _ DemoMore.builder_with_file)) as Hin.
  { left. reflexivity. }
  assert (Forall (fun k => plain_name k = true)
            (PyDict.keys (userFiles _ DemoMore.builder_with_file))) as Hplain.
  { repeat constructor. }
  split; [reflexivity |]. split; [exact Hnd |]. split; [exact Hplain |].
  split; [vm_compute; reflexivity |]. split; [exact Hin |].
  apply (X17_save_writes_user_files Demo.FileData Demo.unprocess
           DemoMore.builder_with_file DemoMore.builder_with_file ∅
           (<["a.txt" := inr "hello"]> ∅) eq_refl Hnd Hplain);
    [vm_compute; reflexivity | exact Hin].
Defined.

Lemma X18_witness :
  RepoSeed_isConsistent
    (seed _ (set_userFile Demo.FileData "a.txt" (inr "hello")
               DemoMore.consistent_builder)) = Ok true /\
  In "a.txt" (PyDict.keys (userFiles _ (set_userFile Demo.FileData "a.txt"
                                          (inr "hello")
                                          DemoMore.consistent_builder))) /\
  PyDict.get "a.txt" ([] : PyDict.t TargetFile) = None /\
  exists k,
    saveFiles Demo.FileData ∅
      (set_userFile Demo.FileData "a.txt" (inr "hello") DemoMore.consistent_builder)
    = Err (KeyError k).
Proof.
  assert (In "a.txt" (PyDict.keys (userFiles _ (set_userFile Demo.FileData "a.txt"
                                                  (inr "hello")
                                                  DemoMore.consistent_builder))))
    as Hin by (left; reflexivity).
  split; [reflexivity |]. split; [exact Hin |]. split; [reflexivity |].
  apply (X18_saveFiles_unbound Demo.FileData
           (set_userFile Demo.FileData "a.txt" (inr "hello")
              DemoMore.consistent_builder)
           (OurRole_init targetsRoleFac Demo.targets_md) [] "a.txt" ∅
           eq_refl eq_refl eq_refl Hin eq_refl).
Defined.

Lemma X19_witness :
  RepoBuilder_init Demo.FileData Demo.process Demo.tuf_default_snapshot_meta
    Demo.tuf_default_meta (Demo.the_seed false) Demo.the_keys (Some Demo.repo) 0
  = Ok Demo.builder /\
  seed _ Demo.builder = Demo.the_seed false /\
  keys _ Demo.builder = Demo.the_keys /\
  userFiles _ Demo.builder = [] /\
  exists ts sn tg ref meta,
    ourRoles _ Demo.builder
    = [("timestamp", ts); ("snapshot", sn); ("targets", tg)] /\
    (fac ts = timestampRoleFac /\ fac sn = snapshotRoleFac /\
     fac tg = targetsRoleFac) /\
    Forall (fun r => dirty_needs_saving r = true) [ts; sn; tg] /\
    get_snapshot_meta (role ts) = Ok ref /\
    get_meta (role sn) = Ok meta.
Proof.
  split; [vm_compute; reflexivity |].
  apply (X19_builder_after_init Demo.FileData Demo.process
           Demo.tuf_default_snapshot_meta Demo.tuf_default_meta
           (Demo.the_seed false) Demo.the_keys (Some Demo.repo) 0 Demo.builder).
  vm_compute; reflexivity.
Defined.

Lemma X20_witness :
  loadTimestampAndSnapshot Demo.FileData Demo.process
    Demo.tuf_default_snapshot_meta Demo.tuf_default_meta ROLES_MODEL
    (Some DemoMore.ambiguous_repo) 0
  = Ok [("timestamp", OurRole_init timestampRoleFac Demo.timestamp_md);
        ("snapshot",
         OurRole_init snapshotRoleFac
           (Demo.metadata 1 (SnapshotFields DemoMore.ambiguous_listing)))] /\
  RolePersister_discoverVersionsFromFileNames targetsRoleFac
    (PyDict.keys DemoMore.ambiguous_listing)
    (isRoleConsistent targetsRoleFac true)
  = Ok [(Some 1, "1.targets.json"); (Some 2, "2.targets.json")] /\
  loadOrCreateRoles Demo.FileData Demo.process Demo.tuf_default_snapshot_meta
    Demo.tuf_default_meta ROLES_MODEL (Some DemoMore.ambiguous_repo) true 0
  = Err (NotUniqueMetadataFile "targets"
           [(Some 1, "1.targets.json"); (Some 2, "2.targets.json")]).
Proof.
  split; [vm_compute; reflexivity |]. split; [vm_compute; reflexivity |].
  apply (proj1 (X20_ambiguous_candidates Demo.FileData Demo.process
                  Demo.tuf_default_snapshot_meta Demo.tuf_default_meta
                  (Some DemoMore.ambiguous_repo) true 0
                  [("timestamp", OurRole_init timestampRoleFac Demo.timestamp_md);
                   ("snapshot",
                    OurRole_init snapshotRoleFac
                      (Demo.metadata 1 (SnapshotFields DemoMore.ambiguous_listing)))]
                  (OurRole_init snapshotRoleFac
                     (Demo.metadata 1 (SnapshotFields DemoMore.ambiguous_listing)))
                  DemoMore.ambiguous_listing
                  (Some 1, "1.targets.json") (Some 2, "2.targets.json") []));
    first [reflexivity | vm_compute; reflexivity].
Defined.

Lemma X21_witness :
  loadTimestampAndSnapshot Demo.FileData Demo.process
    Demo.tuf_default_snapshot_meta Demo.tuf_default_meta ROLES_MODEL
    (Some Demo.repo) 0
  = Ok [("timestamp", OurRole_init timestampRoleFac Demo.timestamp_md);
        ("snapshot", OurRole_init snapshotRoleFac Demo.snapshot_md)] /\
  rolesStillToLoad ROLES_MODEL
    [("timestamp", OurRole_init timestampRoleFac Demo.timestamp_md);
     ("snapshot", OurRole_init snapshotRoleFac Demo.snapshot_md)]
  = ["targets"].
Proof.
  split; [vm_compute; reflexivity |].
  apply (X21_no_role_left Demo.FileData Demo.process
           Demo.tuf_default_snapshot_meta Demo.tuf_default_meta
           (Some Demo.repo) false 0
           [("timestamp", OurRole_init timestampRoleFac Demo.timestamp_md);
            ("snapshot", OurRole_init snapshotRoleFac Demo.snapshot_md)]
           [] Demo.listing []).
  vm_compute; reflexivity.
Defined.

Lemma X22_witness :
  (forall m, Demo.process (Demo.unprocess m) = Ok m) /\
  fac (root (Demo.the_seed true)) = ROOT_ROLE_FAC /\
  needsSaving (root (Demo.the_seed true)) = true /\
  needsSigning (root (Demo.the_seed true)) = false /\
  exists seed',
    RepoSeed_save Demo.FileData Demo.unprocess DemoMore.two_roots (Demo.the_seed true)
    = Ok (<["root.json" := Demo.unprocess (role (root (Demo.the_seed true)))]>
            DemoMore.two_roots, seed') /\
    role (root seed') = role (root (Demo.the_seed true)) /\
    needsSaving (root seed') = false /\
    loadRoot Demo.FileData Demo.process
      (SrcDir Demo.FileData
         (<["root.json" := Demo.unprocess (role (root (Demo.the_seed true)))]>
            DemoMore.two_roots))
    = RootLoaded (OurRole_init ROOT_ROLE_FAC (role (root (Demo.the_seed true)))).
Proof.
  split; [reflexivity |]. split; [reflexivity |]. split; [reflexivity |].
  split; [reflexivity |].
  apply (X22_root_roundtrip Demo.FileData Demo.unprocess Demo.process
           (Demo.the_seed true) DemoMore.two_roots (fun m => eq_refl)
           eq_refl eq_refl eq_refl).
Defined.

Lemma X23_witness :
  DemoMore.two_roots !! "root.json" = None /\
  "1.root.json" <> "2.root.json" /\
  is_Some (DemoMore.two_roots !! "1.root.json") /\
  is_Some (DemoMore.two_roots !! "2.root.json") /\
  str_ends_with ".root.json" "1.root.json" = true /\
  str_ends_with ".root.json" "2.root.json" = true /\
  loadRoot Demo.FileData Demo.process (SrcDir Demo.FileData DemoMore.two_roots)
  = MoreThanOneConsistentCand.
Proof.
  assert (is_Some (DemoMore.two_roots !! "1.root.json")) as H1
    by (vm_compute; eexists; reflexivity).
  assert (is_Some (DemoMore.two_roots !! "2.root.json")) as H2
    by (vm_compute; eexists; reflexivity).
  assert ("1.root.json" <> "2.root.json") as Hne by discriminate.
  split; [reflexivity |]. split; [exact Hne |]. split; [exact H1 |].
  split; [exact H2 |]. split; [reflexivity |]. split; [reflexivity |].
  exact (proj1 (proj2 (X23_loadRoot_candidates Demo.FileData Demo.process
                         DemoMore.two_roots eq_refl))
           "1.root.json" "2.root.json" Hne H1 H2 eq_refl eq_refl).
Defined.

Lemma X24_witness :
  Demo.the_keys !! "root" = Some Demo.the_key /\
  Demo.the_keys !! "targets" = Some Demo.the_key /\
  Demo.the_keys !! "snapshot" = Some Demo.the_key /\
  Demo.the_keys !! "timestamp" = Some Demo.the_key /\
  exists seed_,
    RepoSeed_make Demo.create_signature Demo.tuf_default_snapshot_meta
      Demo.tuf_default_meta Demo.the_keys true false 0
    = Ok (seed_,
          [(Demo.the_key, "root"); (Demo.the_key, "targets");
           (Demo.the_key, "snapshot"); (Demo.the_key, "timestamp")]) /\
    seed_keys seed_ = Demo.the_keys /\
    RepoSeed_isConsistent seed_ = Ok true /\
    fac (root seed_) = ROOT_ROLE_FAC /\
    version (root seed_) = 1 /\
    needsSigning (root seed_) = false /\ needsSaving (root seed_) = true.
Proof.
  assert (forall n, In n ["root"; "targets"; "snapshot"; "timestamp"] ->
                    Demo.the_keys !! n = Some Demo.the_key) as H.
  { intros n [<- | [<- | [<- | [<- | []]]]]; vm_compute; reflexivity. }
  split; [apply H; cbn; tauto |]. split; [apply H; cbn; tauto |].
  split; [apply H; cbn; tauto |]. split; [apply H; cbn; tauto |].
  apply (X24_make Demo.create_signature Demo.tuf_default_snapshot_meta
           Demo.tuf_default_meta Demo.the_keys Demo.the_key Demo.the_key
           Demo.the_key Demo.the_key true false 0);
    apply H; cbn; tauto.
Defined.

Lemma X26_witness :
  (forall m, Demo.process (Demo.unprocess m) = Ok m) /\
  RepoSeed_isConsistent (seed _ DemoMore.consistent_builder) = Ok true /\
  userFiles _ DemoMore.consistent_builder = [] /\
  (∅ : gmap string Demo.FileData) !! "snapshot.json" = None /\
  exists b1 d b2,
    makeSnapshot Demo.FileData Demo.data_length Demo.sha256 Demo.create_signature
      DemoMore.consistent_builder = Ok b1 /\
    RepoBuilder_save Demo.FileData Demo.unprocess ∅ b1 = Ok (d, b2) /\
    is_Some (d !! (py_str_int
                     (version (OurRole_init snapshotRoleFac Demo.snapshot_md) + 1)
                   +:+ ".snapshot.json")) /\
    d !! "snapshot.json" = None /\
    loadOrCreateRoles Demo.FileData Demo.process Demo.tuf_default_snapshot_meta
      Demo.tuf_default_meta ROLES_MODEL (Some d) true 9
    = Err (FileNotFoundError "(\d+)\.targets\.json").
Proof.
  split; [reflexivity |]. split; [reflexivity |]. split; [reflexivity |].
  split; [reflexivity |].
  apply (X26_consistent_save_not_reconciled Demo.FileData Demo.unprocess
           Demo.process Demo.data_length Demo.sha256 Demo.create_signature
           Demo.tuf_default_snapshot_meta Demo.tuf_default_meta
           DemoMore.consistent_builder
           (OurRole_init timestampRoleFac Demo.timestamp_md)
           (OurRole_init snapshotRoleFac Demo.snapshot_md)
           (OurRole_init targetsRoleFac Demo.targets_md)
           Demo.the_key Demo.the_key Demo.the_key [] Demo.listing
           {| mf_version := 1 |} ∅ 9 (fun m => eq_refl));
    first [reflexivity | vm_compute; reflexivity].
Defined.

Lemma X27_witness :
  getListPath (list string) string DemoMore.get_targetinfo
    DemoMore.find_cached_target DemoMore.download_target [] "a.txt"
  = Ok (["a.txt"], "cache/a.txt") /\
  "cache/a.txt" <> "" /\
  (exists info, DemoMore.find_cached_target ["a.txt"] info = Ok (Some "cache/a.txt")) /\
  DemoMore.get_targetinfo ["a.txt"] "a.txt" = Ok (["a.txt"], Some "a.txt") /\
  getListPath (list string) string DemoMore.get_targetinfo
    DemoMore.find_cached_target DemoMore.download_target ["a.txt"] "a.txt"
  = Ok (["a.txt"], "cache/a.txt").
Proof.
  split; [reflexivity |].
  destruct (proj1 (X27_getListPath (list string) string DemoMore.get_targetinfo
                     DemoMore.find_cached_target DemoMore.download_target
                     [] "a.txt") ["a.txt"] "cache/a.txt" eq_refl) as [Hne Hex].
  split; [exact Hne |]. split; [exact Hex |]. split; [reflexivity |].
  apply (proj1 (proj2 (X27_getListPath (list string) string DemoMore.get_targetinfo
                         DemoMore.find_cached_target DemoMore.download_target
                         ["a.txt"] "a.txt")) ["a.txt"] "a.txt" "cache/a.txt");
    [reflexivity | reflexivity | discriminate].
Defined.

Lemma X28_witness :
  In "root" ["root"; "targets"; "snapshot"; "timestamp"] /\
  (∅ : gmap string Key) !! "root" = None /\
  exists k,
    RepoSeed_make Demo.create_signature Demo.tuf_default_snapshot_meta
      Demo.tuf_default_meta ∅ false true 0 = Err (KeyError k) /\
    In k ["root"; "targets"; "snapshot"; "timestamp"] /\
    (∅ : gmap string Key) !! k = None.
Proof.
  assert (In "root" ["root"; "targets"; "snapshot"; "timestamp"]) as Hin
    by (left; reflexivity).
  split; [exact Hin |]. split; [reflexivity |].
  exact (X28_make_needs_every_key Demo.create_signature
           Demo.tuf_default_snapshot_meta Demo.tuf_default_meta ∅ false true 0
           "root" Hin eq_refl).
Defined.
